(** * FROGS MCP server: job orchestration and pipeline dataflow

    A shallow embedding of [job_manager.py], [database.py] and
    [pipeline.py], with the data model of [tools_registry.py] and the
    constants of [config.py].

    Conventions.
    - Python dictionaries are [gmap]s; lists are [list]s.
    - A JSON parameter value is a [pyval].  The program only tests a float
      for truth and prints it, so a float is carried as its [repr].
    - Strings are byte strings holding UTF-8 text, so that Python's
      comparison by code point is [String.compare].
    - A function that can raise returns a [result]; the exception classes
      are the constructors of [exn].
    - What the operating system decides (process exit codes, signal
      delivery, which files exist, the clock, fresh identifiers) is an
      explicit argument of the operation that observes it. *)

From Stdlib Require Import ZArith List String Ascii Bool Lia DecimalString.
From stdpp Require Import base gmap strings list fin_maps sorting.

Open Scope string_scope.

Local Set Warnings "-register-all".

(** ** Python values and exceptions *)

Inductive pyval : Type :=
| PNone
| PBool (b : bool)
| PInt (z : Z)
| PFloat (repr : string)
| PStr (s : string)
| PList (l : list pyval).

Inductive exn : Type :=
| ValueError (msg : string)
| TypeError
| OSError
| IntegrityError
| PermissionError (msg : string).

Inductive result (A : Type) : Type :=
| Ok (a : A)
| Raise (e : exn).

Arguments Ok {A} a.
Arguments Raise {A} e.

Definition bind {A B : Type} (r : result A) (k : A -> result B) : result B :=
  match r with
  | Ok a => k a
  | Raise e => Raise e
  end.

Notation "x <- r ;; k" := (bind r (fun x => k))
  (at level 100, r at next level, right associativity).

(** Fold of a loop body that may raise: the first exception ends the loop. *)
Fixpoint foldM {A S : Type} (body : S -> A -> result S) (l : list A) (s : S)
  : result S :=
  match l with
  | [] => Ok s
  | x :: l' => s' <- body s x ;; foldM body l' s'
  end.

(** Truth value of an object, as tested by [if v] and [not v]. *)
Definition truthy (v : pyval) : bool :=
  match v with
  | PNone => false
  | PBool b => b
  | PInt z => negb (z =? 0)%Z
  | PFloat r => negb ((r =? "0.0") || (r =? "-0.0"))
  | PStr s => negb (s =? "")
  | PList l => match l with [] => false | _ => true end
  end.

Definition is_None (v : pyval) : bool :=
  match v with PNone => true | _ => false end.

Definition truthy_str (s : string) : bool := negb (s =? "").

Definition truthy_opt (o : option string) : bool :=
  match o with Some s => truthy_str s | None => false end.

(** *** [str] and [repr] *)

Definition str_of_Z (z : Z) : string := NilZero.string_of_int (Z.to_int z).

Definition hex_digit (n : N) : ascii :=
  if (n <? 10)%N then ascii_of_N (48 + n) else ascii_of_N (87 + n).

Fixpoint contains_char (c : ascii) (s : string) : bool :=
  match s with
  | EmptyString => false
  | String d s' => Ascii.eqb c d || contains_char c s'
  end.

Definition sq : ascii := "'"%char.
Definition dq : ascii := ascii_of_N 34.
Definition bs : ascii := "\"%char.

(** [repr] of a [str].  Exact on ASCII text.  A byte above 127 is kept
    as it is, as Python keeps a printable character; a character outside
    ASCII that Python escapes (U+00A0 for one) is therefore not escaped
    here. *)
Fixpoint repr_body (q : ascii) (s : string) : string :=
  match s with
  | EmptyString => EmptyString
  | String c s' =>
      let n := N_of_ascii c in
      let rest := repr_body q s' in
      if Ascii.eqb c q || Ascii.eqb c bs then String bs (String c rest)
      else if (n =? 9)%N then String bs (String "t" rest)
      else if (n =? 10)%N then String bs (String "n" rest)
      else if (n =? 13)%N then String bs (String "r" rest)
      else if (n <? 32)%N || (n =? 127)%N then
        String bs (String "x" (String (hex_digit (n / 16))
                                 (String (hex_digit (n mod 16)) rest)))
      else String c rest
  end.

Definition repr_str (s : string) : string :=
  let q := if contains_char sq s && negb (contains_char dq s) then dq else sq in
  String q (repr_body q s +:+ String q EmptyString).

Fixpoint py_repr (v : pyval) : string :=
  match v with
  | PNone => "None"
  | PBool true => "True"
  | PBool false => "False"
  | PInt z => str_of_Z z
  | PFloat r => r
  | PStr s => repr_str s
  | PList l =>
      let fix items (l : list pyval) : string :=
        match l with
        | [] => ""
        | x :: r =>
            match r with
            | [] => py_repr x
            | _ :: _ => py_repr x +:+ ", " +:+ items r
            end
        end in
      "[" +:+ items l +:+ "]"
  end.

Definition py_str (v : pyval) : string :=
  match v with
  | PStr s => s
  | _ => py_repr v
  end.

(** *** [str.split()] without argument

    Splits on runs of white space.  [ws_len s] is the number of bytes of
    the white-space character at the head of [s] (0 when there is none):
    the ASCII ones and the UTF-8 encodings of U+0085, U+00A0, U+1680,
    U+2000..U+200A, U+2028, U+2029, U+202F, U+205F and U+3000. *)

Definition byte_at (n : nat) (s : string) : N :=
  match String.get n s with
  | Some c => N_of_ascii c
  | None => 256
  end.

Definition ws_len (s : string) : nat :=
  let b0 := byte_at 0 s in
  let b1 := byte_at 1 s in
  let b2 := byte_at 2 s in
  if ((9 <=? b0) && (b0 <=? 13) || (28 <=? b0) && (b0 <=? 32))%N then 1
  else if ((b0 =? 194) && ((b1 =? 133) || (b1 =? 160)))%N then 2
  else if ((b0 =? 225) && (b1 =? 154) && (b2 =? 128))%N then 3
  else if ((b0 =? 226) && (b1 =? 128)
           && ((128 <=? b2) && (b2 <=? 138) || (b2 =? 168) || (b2 =? 169)
               || (b2 =? 175)))%N then 3
  else if ((b0 =? 226) && (b1 =? 129) && (b2 =? 159))%N then 3
  else if ((b0 =? 227) && (b1 =? 128) && (b2 =? 128))%N then 3
  else 0.

Definition flush (cur : string) : list string :=
  match cur with
  | EmptyString => []
  | _ => [cur]
  end.

(** [cur] is the word being read; [skip] counts the remaining bytes of a
    white-space character already recognised. *)
Fixpoint split_go (skip : nat) (cur : string) (s : string) : list string :=
  match s with
  | EmptyString => flush cur
  | String c s' =>
      match skip with
      | S k => split_go k cur s'
      | O =>
          match ws_len s with
          | O => split_go 0 (cur +:+ String c EmptyString) s'
          | S k => (flush cur ++ split_go k EmptyString s')%list
          end
      end
  end.

Definition str_split (s : string) : list string := split_go 0 EmptyString s.

(** *** [os.path] on POSIX *)

Definition ends_with_sep (s : string) : bool :=
  match String.get (String.length s - 1) s with
  | Some c => Ascii.eqb c "/"
  | None => false
  end.

Definition isabs_str (s : string) : bool := String.prefix "/" s.

Definition os_path_join (a b : string) : string :=
  if String.prefix "/" b then b
  else if negb (truthy_str a) || ends_with_sep a then a +:+ b
  else a +:+ "/" +:+ b.

(** ** [tools_registry.py]: the catalogue's data model *)

Module ParamSpec.
Record t : Type := mk {
    python_name : string;
    cli_flag : string;
    required : bool;
    type : string;
    default : pyval;
    is_input_file : bool;
    is_output_file : bool;
    output_key : option string;
    help_text : string
  }.
End ParamSpec.

Module ToolSpec.
Record t : Type := mk {
    name : string;
    script_name : string;
    description : string;
    category : string;
    pipeline_step : option string;
    is_optional : bool;
    params : list ParamSpec.t;
    has_subparser : bool;
    subparser_param : string
  }.
End ToolSpec.

(** ** [config.py] *)

Record Config : Type := {
  FROGS_TOOLS_DIR : string;
  WORKSPACE_ROOT : string;
  FROGS_PYTHON : string
}.

Definition DEFAULT_NB_CPUS : Z := 4.

Definition script_path (cfg : Config) (tool_spec : ToolSpec.t) : string :=
  os_path_join (os_path_join (FROGS_TOOLS_DIR cfg) (ToolSpec.name tool_spec))
               (ToolSpec.script_name tool_spec).

(** ** [job_manager.py]: the command builder *)

Definition positional_argument_msg (tool_spec : ToolSpec.t) : string :=
  "Tool '" +:+ ToolSpec.name tool_spec +:+ "' requires positional argument '"
  +:+ ToolSpec.subparser_param tool_spec
  +:+ "' (e.g. 'illumina', 'longreads', '454')".

(** Body of the loop "apply defaults from ToolSpec if not provided". *)
Definition merge_step (tool_spec : ToolSpec.t) (params : gmap string pyval)
    (merged : gmap string pyval) (p : ParamSpec.t) : gmap string pyval :=
  if ParamSpec.python_name p =? ToolSpec.subparser_param tool_spec then merged
  else
    match params !! ParamSpec.python_name p with
    | Some v => <[ParamSpec.python_name p := v]> merged
    | None =>
        if negb (is_None (ParamSpec.default p)) && ParamSpec.is_output_file p
        then <[ParamSpec.python_name p := ParamSpec.default p]> merged
        else merged
    end.

(** Body of the loop "resolve output file paths to absolute paths in
    job_dir".  [os.path.isabs] raises [TypeError] on a value that is not a
    path, so a recorded output path is always a [str]. *)
Definition resolve_step (job_dir : string)
    (st : gmap string pyval * gmap string string) (p : ParamSpec.t)
  : result (gmap string pyval * gmap string string) :=
  let '(merged, resolved_outputs) := st in
  if negb (ParamSpec.is_output_file p) then Ok st
  else
    match merged !! ParamSpec.python_name p with
    | None => Ok st
    | Some val =>
        if truthy val then
          match val with
          | PStr s =>
              let path := if isabs_str s then s else os_path_join job_dir s in
              let merged' :=
                if isabs_str s then merged
                else <[ParamSpec.python_name p := PStr path]> merged in
              match ParamSpec.output_key p with
              | Some k =>
                  if truthy_str k
                  then Ok (merged', <[k := path]> resolved_outputs)
                  else Ok (merged', resolved_outputs)
              | None => Ok (merged', resolved_outputs)
              end
          | _ => Raise TypeError
          end
        else Ok st
    end.

Definition declares (tool_spec : ToolSpec.t) (n : string) : bool :=
  existsb (fun p => ParamSpec.python_name p =? n) (ToolSpec.params tool_spec).

Definition nb_cpus_default (tool_spec : ToolSpec.t)
    (merged : gmap string pyval) : gmap string pyval :=
  if declares tool_spec "nb_cpus" then
    match merged !! "nb_cpus" with
    | Some _ => merged
    | None => <["nb_cpus" := PInt DEFAULT_NB_CPUS]> merged
    end
  else merged.

(** The dictionary [merged] and the map [resolved_outputs] as they stand
    when the flag loop starts. *)
Definition merged_params (tool_spec : ToolSpec.t) (params : gmap string pyval)
    (job_dir : string) : result (gmap string pyval * gmap string string) :=
  let merged := foldl (merge_step tool_spec params) ∅ (ToolSpec.params tool_spec) in
  st <- foldM (resolve_step job_dir) (ToolSpec.params tool_spec) (merged, ∅) ;;
  Ok (nb_cpus_default tool_spec (fst st), snd st).

(** Tokens appended for one parameter whose value is not [None]. *)
Definition flag_tokens (p : ParamSpec.t) (val : pyval) : list pyval :=
  if ParamSpec.type p =? "bool" then
    if truthy val then [PStr (ParamSpec.cli_flag p)] else []
  else if ParamSpec.type p =? "list" then
    let items :=
      match val with
      | PList l => l
      | _ => map PStr (str_split (py_str val))
      end in
    match items with
    | [] => []
    | _ :: _ => PStr (ParamSpec.cli_flag p) :: map (fun i => PStr (py_str i)) items
    end
  else [PStr (ParamSpec.cli_flag p); PStr (py_str val)].

(** Body of the loop "build flag arguments". *)
Definition flag_step (tool_spec : ToolSpec.t) (merged : gmap string pyval)
    (cmd : list pyval) (p : ParamSpec.t) : list pyval :=
  if ParamSpec.python_name p =? ToolSpec.subparser_param tool_spec then cmd
  else if negb (truthy_str (ParamSpec.cli_flag p)) then cmd
  else
    match merged !! ParamSpec.python_name p with
    | None => cmd
    | Some PNone => cmd
    | Some val => (cmd ++ flag_tokens p val)%list
    end.

(** [cmd] is a Python list: the positional value is appended as given. *)
Definition build_command (cfg : Config) (tool_spec : ToolSpec.t)
    (params : gmap string pyval) (job_dir : string)
  : result (list pyval * gmap string string) :=
  let cmd := [PStr (FROGS_PYTHON cfg); PStr (script_path cfg tool_spec)] in
  cmd <- (if ToolSpec.has_subparser tool_spec then
            let subparser_val :=
              match params !! ToolSpec.subparser_param tool_spec with
              | Some v => v
              | None => PNone
              end in
            if negb (truthy subparser_val)
            then Raise (ValueError (positional_argument_msg tool_spec))
            else Ok (cmd ++ [subparser_val])%list
          else Ok cmd) ;;
  st <- merged_params tool_spec params job_dir ;;
  Ok (foldl (flag_step tool_spec (fst st)) cmd (ToolSpec.params tool_spec), snd st).

(** ** [database.py]: the persistent store

    A table is the list of its rows in insertion order.  Every operation
    is one committed transaction. *)

Inductive Status : Type := pending | running | completed | failed | cancelled.

Definition status_eqb (a b : Status) : bool :=
  match a, b with
  | pending, pending | running, running | completed, completed
  | failed, failed | cancelled, cancelled => true
  | _, _ => false
  end.

Module Project.
Record t : Type := mk {
    project_id : string;
    name : string;
    description : string;
    working_dir : string;
    created_at : string;
    metadata : string
  }.
End Project.

Module Job.
Record t : Type := mk {
    job_id : string;
    project_id : option string;
    tool_name : string;
    step_name : option string;
    params : gmap string pyval;
    command : list pyval;
    status : Status;
    pid : option Z;
    start_time : string;
    end_time : option string;
    exit_code : option Z;
    stdout_file : string;
    stderr_file : string;
    log_file : string;
    output_files : option (gmap string string);
    working_dir : string;
    created_at : string
  }.

Definition set_status (s : Status) (rc : option Z) (now : string) (j : t) : t :=
    mk (job_id j) (project_id j) (tool_name j) (step_name j) (params j)
       (command j) s (pid j) (start_time j) (Some now) rc (stdout_file j)
       (stderr_file j) (log_file j) (output_files j) (working_dir j)
       (created_at j).

Definition set_output_files (m : gmap string string) (j : t) : t :=
    mk (job_id j) (project_id j) (tool_name j) (step_name j) (params j)
       (command j) (status j) (pid j) (start_time j) (end_time j)
       (exit_code j) (stdout_file j) (stderr_file j) (log_file j) (Some m)
       (working_dir j) (created_at j).
End Job.

Module Step.
Record t : Type := mk {
    id : Z;
    project_id : string;
    step_name : string;
    step_order : Z;
    job_id : option string;
    status : Status;
    is_optional : bool
  }.
End Step.

Record Db : Type := {
  projects : list Project.t;
  jobs : list Job.t;
  pipeline_steps : list Step.t
}.

Definition with_jobs (db : Db) (js : list Job.t) : Db :=
  {| projects := projects db; jobs := js; pipeline_steps := pipeline_steps db |}.

Definition with_steps (db : Db) (ss : list Step.t) : Db :=
  {| projects := projects db; jobs := jobs db; pipeline_steps := ss |}.

Definition get_job (db : Db) (job_id : string) : option Job.t :=
  find (fun j => Job.job_id j =? job_id) (jobs db).

Definition project_exists (db : Db) (project_id : string) : bool :=
  existsb (fun p => Project.project_id p =? project_id) (projects db).

(** [INSERT INTO jobs]: the primary key and the reference to [projects]
    are enforced ([PRAGMA foreign_keys=ON]). *)
Definition insert_job (db : Db) (now : string) (job_id : string)
    (project_id : option string) (tool_name : string)
    (step_name : option string) (params : gmap string pyval)
    (command : list pyval) (working_dir : string) (pid : option Z)
    (stdout_file stderr_file log_file : string) : result Db :=
  match get_job db job_id with
  | Some _ => Raise IntegrityError
  | None =>
      if match project_id with
         | Some p => project_exists db p
         | None => true
         end
      then
        Ok (with_jobs db
              (jobs db ++
               [Job.mk job_id project_id tool_name step_name params command
                  running pid now None None stdout_file stderr_file log_file
                  None working_dir now])%list)
      else Raise IntegrityError
  end.

Definition update_row (job_id : string) (f : Job.t -> Job.t) (j : Job.t) : Job.t :=
  if Job.job_id j =? job_id then f j else j.

Definition update_job_status (db : Db) (now : string) (job_id : string)
    (s : Status) (exit_code : option Z) : Db :=
  with_jobs db (map (update_row job_id (Job.set_status s exit_code now)) (jobs db)).

Definition update_job_output_files (db : Db) (job_id : string)
    (output_files : gmap string string) : Db :=
  with_jobs db (map (update_row job_id (Job.set_output_files output_files)) (jobs db)).

(** Stable insertion sort; [le x y] says that [x] may stand before [y]. *)
Fixpoint insert_by {A : Type} (le : A -> A -> bool) (x : A) (l : list A) : list A :=
  match l with
  | [] => [x]
  | y :: l' => if le x y then x :: l else y :: insert_by le x l'
  end.

Fixpoint sort_by {A : Type} (le : A -> A -> bool) (l : list A) : list A :=
  match l with
  | [] => []
  | x :: l' => insert_by le x (sort_by le l')
  end.

(** [ORDER BY created_at DESC]; rows with equal [created_at] are taken in
    insertion order. *)
Definition list_jobs (db : Db) (project_id : option string) : list Job.t :=
  let rows :=
    if truthy_opt project_id
    then filter (fun j => Job.project_id j = project_id) (jobs db)
    else jobs db in
  sort_by (fun a b => String.leb (Job.created_at b) (Job.created_at a)) rows.

Definition step_matches (project_id step_name : string) (s : Step.t) : bool :=
  (Step.project_id s =? project_id) && (Step.step_name s =? step_name).

(** [INSERT OR IGNORE INTO pipeline_steps], one row per step. *)
Definition insert_step_or_ignore (project_id : string)
    (rows : list Step.t) (s : string * Z * bool) : list Step.t :=
  let '(step_name, step_order, is_optional) := s in
  if existsb (step_matches project_id step_name) rows then rows
  else (rows ++ [Step.mk (Z.of_nat (length rows) + 1) project_id step_name
                  step_order None pending is_optional])%list.

Definition initialize_pipeline_steps (db : Db) (project_id : string)
    (steps : list (string * Z * bool)) : result Db :=
  if project_exists db project_id || match steps with [] => true | _ => false end
  then Ok (with_steps db (foldl (insert_step_or_ignore project_id)
                            (pipeline_steps db) steps))
  else Raise IntegrityError.

Definition update_pipeline_step (db : Db) (project_id step_name : string)
    (s : Status) (job_id : option string) : result Db :=
  if truthy_opt job_id then
    if existsb (step_matches project_id step_name) (pipeline_steps db)
       && negb (match job_id with
                | Some i => match get_job db i with Some _ => true | None => false end
                | None => false
                end)
    then Raise IntegrityError
    else
      Ok (with_steps db
            (map (fun r =>
                    if step_matches project_id step_name r
                    then Step.mk (Step.id r) (Step.project_id r) (Step.step_name r)
                           (Step.step_order r) job_id s (Step.is_optional r)
                    else r)
                 (pipeline_steps db)))
  else
    Ok (with_steps db
          (map (fun r =>
                  if step_matches project_id step_name r
                  then Step.mk (Step.id r) (Step.project_id r) (Step.step_name r)
                         (Step.step_order r) (Step.job_id r) s (Step.is_optional r)
                  else r)
               (pipeline_steps db))).

Definition get_step (db : Db) (project_id step_name : string) : option Step.t :=
  find (step_matches project_id step_name) (pipeline_steps db).

(** ** [job_manager.py]: launcher, completion monitor, cancellation *)

(** A [subprocess.Popen] handle. *)
Record Popen : Type := { proc_pid : Z }.

(** What the server did to its host, oldest first. *)
Inductive os_event : Type :=
| Makedirs (path : string)
| Spawn (cmd : list pyval) (cwd : string)
| Kill (pid : Z).

(** [active] is the poller's [_active] dictionary, in insertion order:
    job_id -> (proc, project_id, step_name). *)
Record State : Type := {
  db : Db;
  active : list (string * (Popen * option string * option string));
  trace : list os_event
}.

Fixpoint dict_set {V : Type} (k : string) (v : V) (d : list (string * V))
  : list (string * V) :=
  match d with
  | [] => [(k, v)]
  | (k', v') :: d' =>
      if k' =? k then (k, v) :: d' else (k', v') :: dict_set k v d'
  end.

Definition dict_del {V : Type} (k : string) (d : list (string * V))
  : list (string * V) :=
  filter (fun e => negb (fst e =? k)) d.

Definition dict_get {V : Type} (k : string) (d : list (string * V)) : option V :=
  option_map snd (find (fun e => fst e =? k) d).

Definition register (st : State) (job_id : string) (proc : Popen)
    (project_id step_name : option string) : State :=
  {| db := db st;
     active := dict_set job_id (proc, project_id, step_name) (active st);
     trace := trace st |}.

(** First loop of a tick: the registered jobs whose process has exited. *)
Definition exited (poll : Popen -> option Z)
    (d : list (string * (Popen * option string * option string)))
  : list (string * Z * option string * option string) :=
  flat_map (fun e =>
              let '(job_id, (proc, project_id, step_name)) := e in
              match poll proc with
              | Some rc => [(job_id, rc, project_id, step_name)]
              | None => []
              end) d.

Definition prune_outputs (isfile : string -> bool) (outs : gmap string string)
  : gmap string string :=
  filter (fun kv => isfile (snd kv) = true) outs.

Definition exit_status (rc : Z) : Status :=
  if (rc =? 0)%Z then completed else failed.

(** First half of the body of the second loop of a tick: the status and
    the scan of the output files of one exited job. *)
Definition record_exit (isfile : string -> bool) (now : string) (d : Db)
    (job_id : string) (rc : Z) : Db :=
  let d1 := update_job_status d now job_id (exit_status rc) (Some rc) in
  match get_job d1 job_id with
  | Some job =>
      match Job.output_files job with
      | Some outs =>
          if bool_decide (outs = ∅) then d1
          else
            let existing := prune_outputs isfile outs in
            if bool_decide (existing = outs) then d1
            else update_job_output_files d1 job_id existing
      | None => d1
      end
  | None => d1
  end.

(** Body of the second loop of a tick, for one exited job.  An exception
    is caught and logged; what was committed before it stays. *)
Definition settle (isfile : string -> bool) (now : string) (d : Db)
    (c : string * Z * option string * option string) : Db :=
  let '(job_id, rc, project_id, step_name) := c in
  let d2 := record_exit isfile now d job_id rc in
  if truthy_opt project_id && truthy_opt step_name then
    match project_id, step_name with
    | Some p, Some n =>
        match update_pipeline_step d2 p n (exit_status rc) (Some job_id) with
        | Ok d3 => d3
        | Raise _ => d2
        end
    | _, _ => d2
    end
  else d2.

(** One iteration of [JobPoller._poll_loop], after the sleep.  [poll] is
    [proc.poll()], [isfile] is [os.path.isfile], [now] the clock. *)
Definition poll_tick (poll : Popen -> option Z) (isfile : string -> bool)
    (now : string) (st : State) : State :=
  let done := exited poll (active st) in
  {| db := foldl (settle isfile now) (db st) done;
     active := foldl (fun d c => dict_del (fst (fst (fst c))) d) (active st) done;
     trace := trace st |}.

Definition unknown_tool_msg (tool_name : string) : string :=
  "Unknown tool: '" +:+ tool_name
  +:+ "'. Run list_tools() to see available tools.".

Definition missing_required_msg (tool_name : string) (p : ParamSpec.t) : string :=
  "Tool '" +:+ tool_name +:+ "': required parameter '"
  +:+ ParamSpec.python_name p +:+ "' (flag: " +:+ ParamSpec.cli_flag p
  +:+ ") is missing.".

Definition missing_positional_msg (tool_name : string) (tool_spec : ToolSpec.t)
  : string :=
  "Tool '" +:+ tool_name +:+ "': required positional parameter '"
  +:+ ToolSpec.subparser_param tool_spec +:+ "' is missing.".

Definition has_key {V : Type} (k : string) (m : gmap string V) : bool :=
  match m !! k with Some _ => true | None => false end.

Definition lacks_required (tool_spec : ToolSpec.t) (params : gmap string pyval)
    (p : ParamSpec.t) : bool :=
  ParamSpec.required p
  && negb (has_key (ParamSpec.python_name p) params)
  && negb (ParamSpec.python_name p =? ToolSpec.subparser_param tool_spec).

(** The checks that open [submit_job]. *)
Definition validate (TOOLS : gmap string ToolSpec.t) (tool_name : string)
    (params : gmap string pyval) : result ToolSpec.t :=
  match TOOLS !! tool_name with
  | None => Raise (ValueError (unknown_tool_msg tool_name))
  | Some tool_spec =>
      match find (lacks_required tool_spec params) (ToolSpec.params tool_spec) with
      | Some p => Raise (ValueError (missing_required_msg tool_name p))
      | None =>
          if ToolSpec.has_subparser tool_spec
             && negb (has_key (ToolSpec.subparser_param tool_spec) params)
          then Raise (ValueError (missing_positional_msg tool_name tool_spec))
          else Ok tool_spec
      end
  end.

Definition is_str (v : pyval) : bool :=
  match v with PStr _ => true | _ => false end.

Definition log_event (st : State) (e : os_event) : State :=
  {| db := db st; active := active st; trace := (trace st ++ [e])%list |}.

(** [uuid] is the fresh [uuid4], [now] the clock, and [spawn] what
    [subprocess.Popen] does with a well-formed argument vector: a handle,
    or [None] for [OSError].  Creating the directory and opening the two
    capture files are taken to succeed. *)
Definition submit_job (cfg : Config) (TOOLS : gmap string ToolSpec.t)
    (uuid now : string) (spawn : option Popen) (st : State)
    (tool_name : string) (params : gmap string pyval)
    (project_id step_name : option string) : result string * State :=
  match validate TOOLS tool_name params with
  | Raise e => (Raise e, st)
  | Ok tool_spec =>
      let job_id := uuid in
      let job_dir :=
        os_path_join
          (os_path_join (WORKSPACE_ROOT cfg)
             (if truthy_opt project_id
              then match project_id with Some p => p | None => "standalone" end
              else "standalone"))
          job_id in
      let st1 := log_event st (Makedirs job_dir) in
      match build_command cfg tool_spec params job_dir with
      | Raise e => (Raise e, st1)
      | Ok (cmd, resolved_outputs) =>
          let stdout_file := os_path_join job_dir "stdout.txt" in
          let stderr_file := os_path_join job_dir "stderr.txt" in
          let log_file :=
            match resolved_outputs !! "log" with
            | Some l => l
            | None => os_path_join job_dir "frogs.log"
            end in
          if negb (forallb is_str cmd) then (Raise TypeError, st1)
          else
            match spawn with
            | None => (Raise OSError, st1)
            | Some proc =>
                let st2 := log_event st1 (Spawn cmd job_dir) in
                match insert_job (db st2) now job_id project_id tool_name
                        step_name params cmd job_dir (Some (proc_pid proc))
                        stdout_file stderr_file log_file with
                | Raise e => (Raise e, st2)
                | Ok d1 =>
                    let d2 :=
                      if bool_decide (resolved_outputs = ∅) then d1
                      else update_job_output_files d1 job_id resolved_outputs in
                    (Ok job_id,
                     register {| db := d2; active := active st2; trace := trace st2 |}
                       job_id proc project_id step_name)
                end
            end
      end
  end.

(** What [os.kill(pid, SIGTERM)] does. *)
Inductive kill_outcome : Type :=
| Delivered
| NoSuchProcess
| NotPermitted (exc : string).

Definition job_not_found_msg (job_id : string) : string :=
  "Job '" +:+ job_id +:+ "' not found.".

Definition cancel_job (kill : Z -> kill_outcome) (now : string) (st : State)
    (job_id : string) : result bool * State :=
  match get_job (db st) job_id with
  | None => (Raise (ValueError (job_not_found_msg job_id)), st)
  | Some job =>
      match Job.pid job with
      | None => (Ok false, st)
      | Some pid =>
          if (pid =? 0)%Z then (Ok false, st)
          else
            let st1 := log_event st (Kill pid) in
            match kill pid with
            | Delivered =>
                (Ok true,
                 {| db := update_job_status (db st1) now job_id cancelled (Some (-15)%Z);
                    active := active st1;
                    trace := trace st1 |})
            | NoSuchProcess => (Ok false, st1)
            | NotPermitted exc =>
                (Raise (PermissionError
                          ("Cannot signal PID " +:+ str_of_Z pid +:+ ": " +:+ exc)),
                 st1)
            end
      end
  end.

(** ** [pipeline.py]: the dataflow resolver *)

(** (src_step, output_key, tgt_step, tgt_param) *)
Definition FLOW_RULES : list (string * string * string * string) :=
  [ ("reads_processing", "fasta", "remove_chimera", "input_fasta");
    ("reads_processing", "biom", "remove_chimera", "input_biom");
    ("remove_chimera", "fasta", "cluster_filters", "input_fasta");
    ("remove_chimera", "biom", "cluster_filters", "input_biom");
    ("cluster_filters", "fasta", "taxonomic_affiliation", "input_fasta");
    ("cluster_filters", "biom", "taxonomic_affiliation", "input_biom");
    ("cluster_filters", "fasta", "affiliation_postprocess", "input_fasta");
    ("cluster_filters", "biom", "affiliation_postprocess", "input_biom");
    ("taxonomic_affiliation", "biom", "affiliation_postprocess", "input_biom");
    ("affiliation_postprocess", "fasta", "affiliation_filters", "input_fasta");
    ("affiliation_postprocess", "biom", "affiliation_filters", "input_biom");
    ("affiliation_filters", "biom", "affiliation_report", "input_biom");
    ("affiliation_filters", "fasta", "tree", "input_fasta");
    ("affiliation_filters", "biom", "tree", "input_biom");
    ("affiliation_filters", "fasta", "normalisation", "input_fasta");
    ("affiliation_filters", "biom", "normalisation", "input_biom");
    ("tree", "tree", "phyloseq_import", "tree_nwk");
    ("normalisation", "biom", "phyloseq_import", "input_biom");
    ("phyloseq_import", "rdata", "phyloseq_composition", "phyloseq_rdata");
    ("phyloseq_import", "rdata", "phyloseq_alpha_diversity", "phyloseq_rdata");
    ("phyloseq_import", "rdata", "phyloseq_beta_diversity", "phyloseq_rdata");
    ("phyloseq_import", "rdata", "phyloseq_clustering", "phyloseq_rdata");
    ("phyloseq_import", "rdata", "phyloseq_structure", "phyloseq_rdata");
    ("phyloseq_import", "rdata", "phyloseq_manova", "phyloseq_rdata");
    ("phyloseq_import", "rdata", "deseq2_preprocess", "phyloseq_rdata");
    ("phyloseq_beta_diversity", "beta_matrix_dir", "phyloseq_clustering", "beta_distance_matrix");
    ("phyloseq_beta_diversity", "beta_matrix_dir", "phyloseq_structure", "beta_distance_matrix");
    ("phyloseq_beta_diversity", "beta_matrix_dir", "phyloseq_manova", "beta_distance_matrix");
    ("deseq2_preprocess", "deseq_rdata", "deseq2_visualisation", "deseq_rdata");
    ("deseq2_preprocess", "rdata", "deseq2_visualisation", "phyloseq_rdata");
    ("frogsfunc_placeseqs", "fasta", "frogsfunc_functions", "input_fasta");
    ("frogsfunc_placeseqs", "biom", "frogsfunc_functions", "input_biom");
    ("frogsfunc_placeseqs", "tree", "frogsfunc_functions", "input_tree");
    ("frogsfunc_placeseqs", "marker_copy_tsv", "frogsfunc_functions", "input_marker_copy") ].

(** [_RULES_BY_TARGET.setdefault(_tgt, []).append((_src, _out, _param))] *)
Definition group_rule (m : gmap string (list (string * string * string)))
    (r : string * string * string * string)
  : gmap string (list (string * string * string)) :=
  let '(src, out, tgt, param) := r in
  <[tgt := (match m !! tgt with Some l => l | None => [] end
            ++ [(src, out, param)])%list]> m.

Definition RULES_BY_TARGET : gmap string (list (string * string * string)) :=
  foldl group_rule ∅ FLOW_RULES.

Definition rules_for (step_name : string) : list (string * string * string) :=
  match RULES_BY_TARGET !! step_name with
  | Some l => l
  | None => []
  end.

(** An insertion-ordered dictionary: output key -> generic input name. *)
Definition OUTPUT_KEY_TO_INPUT_PARAM : list (string * string) :=
  [ ("fasta", "input_fasta");
    ("biom", "input_biom");
    ("rdata", "phyloseq_rdata");
    ("tree", "tree_nwk");
    ("tsv", "input_tsv");
    ("compo", "input_compo") ].

Definition has_outputs (j : Job.t) : bool :=
  match Job.output_files j with
  | Some outs => negb (bool_decide (outs = ∅))
  | None => false
  end.

Definition get_completed_jobs_for_project (d : Db) (project_id : string)
  : list Job.t :=
  filter (fun j => status_eqb (Job.status j) completed && has_outputs j = true)
         (list_jobs d (Some project_id)).

(** [f"{src_step}.{out_key}"]; a job without step name prints as None. *)
Definition full_key (src_step : option string) (out_key : string) : string :=
  match src_step with Some s => s | None => "None" end +:+ "." +:+ out_key.

(** Inner loop of the index construction, one output entry.  The keys of
    one dictionary are distinct, so the order of its entries is immaterial. *)
Definition index_entry (src_step : option string) (out_key path : string)
    (ix : gmap string string * gmap string string)
  : gmap string string * gmap string string :=
  if truthy_str path
  then (<[full_key src_step out_key := path]> (fst ix), <[out_key := path]> (snd ix))
  else ix.

Definition index_job (ix : gmap string string * gmap string string) (job : Job.t)
  : gmap string string * gmap string string :=
  let outputs := match Job.output_files job with Some o => o | None => ∅ end in
  map_fold (index_entry (Job.step_name job)) ix outputs.

(** (full_index, key_index) *)
Definition build_indexes (completed_jobs : list Job.t)
  : gmap string string * gmap string string :=
  foldl index_job (∅, ∅)
    (sort_by (fun a b => String.leb (Job.start_time a) (Job.start_time b))
       completed_jobs).

Definition input_params (tool_spec : ToolSpec.t) : list string :=
  map ParamSpec.python_name
    (filter (fun p => ParamSpec.is_input_file p = true) (ToolSpec.params tool_spec)).

Definition mem (x : string) (l : list string) : bool := existsb (String.eqb x) l.

Definition apply_rule (target_input_params : list string)
    (full_index key_index : gmap string string)
    (resolved : gmap string string) (r : string * string * string)
  : gmap string string :=
  let '(src_step, out_key, tgt_param) := r in
  if negb (mem tgt_param target_input_params) then resolved
  else
    match full_index !! full_key (Some src_step) out_key with
    | Some path => <[tgt_param := path]> resolved
    | None =>
        match key_index !! out_key with
        | Some path => <[tgt_param := path]> resolved
        | None => resolved
        end
    end.

Definition shorthand (key_index : gmap string string)
    (resolved : gmap string string) (param_name : string) : gmap string string :=
  if has_key param_name resolved then resolved
  else
    match find (fun e => (snd e =? param_name) && has_key (fst e) key_index)
               OUTPUT_KEY_TO_INPUT_PARAM with
    | Some (key_suffix, _) =>
        match key_index !! key_suffix with
        | Some path => <[param_name := path]> resolved
        | None => resolved
        end
    | None => resolved
    end.

(** [target_input_params] is a set in the source; both loops over it are
    insensitive to order and repetition, so the list of names stands for it. *)
Definition resolve_inputs_for_step (TOOLS : gmap string ToolSpec.t) (d : Db)
    (project_id step_name : string) : gmap string string :=
  match TOOLS !! step_name with
  | None => ∅
  | Some tool_spec =>
      match get_completed_jobs_for_project d project_id with
      | [] => ∅
      | completed_jobs =>
          let '(full_index, key_index) := build_indexes completed_jobs in
          let target_input_params := input_params tool_spec in
          let resolved :=
            foldl (apply_rule target_input_params full_index key_index) ∅
                  (rules_for step_name) in
          foldl (shorthand key_index) resolved target_input_params
      end
  end.

(** ** Two entries of the catalogue, and an installation

    [TOOLS["reads_processing"]] and [TOOLS["remove_chimera"]] of
    [tools_registry.py], used to run the model on concrete requests. *)

Definition tool_reads_processing : ToolSpec.t :=
  ToolSpec.mk "reads_processing" "reads_processing.py"
    "Pre-process amplicon reads: merging, primer removal, clustering (Swarm/DADA2) or denoising."
    "Core pipeline" (Some "reads_processing") false
    [ ParamSpec.mk "sequencer" "" true "str" PNone false false None
      "Sequencer type: illumina | longreads | 454 (positional subparser arg)";
      ParamSpec.mk "nb_cpus" "--nb-cpus" false "int" (PInt 1) false false None
      "Maximum number of CPUs used";
      ParamSpec.mk "debug" "--debug" false "bool" (PBool false) false false None
      "Keep temporary files for debugging";
      ParamSpec.mk "five_prim_primer" "--five-prim-primer" false "str" PNone false false None
      "5' primer sequence";
      ParamSpec.mk "three_prim_primer" "--three-prim-primer" false "str" PNone false false None
      "3' primer sequence";
      ParamSpec.mk "without_primers" "--without-primers" false "bool" (PBool false) false false None
      "Skip primer removal";
      ParamSpec.mk "mismatch_rate" "--mismatch-rate" false "float" (PFloat "0.1") false false None
      "Max mismatch rate for primer removal (0-1)";
      ParamSpec.mk "R1_size" "--R1-size" false "int" PNone false false None
      "Read 1 size (bp), required for illumina paired-end";
      ParamSpec.mk "R2_size" "--R2-size" false "int" PNone false false None
      "Read 2 size (bp)";
      ParamSpec.mk "already_contiged" "--already-contiged" false "bool" (PBool false) false false None
      "Reads are already contiged (skip merging)";
      ParamSpec.mk "merge_software" "--merge-software" false "str" (PStr "vsearch") false false None
      "Merge software: vsearch | flash | pear";
      ParamSpec.mk "quality_scale" "--quality-scale" false "str" (PStr "33") false false None
      "Phred quality scale: 33 | 64";
      ParamSpec.mk "keep_unmerged" "--keep-unmerged" false "bool" (PBool false) false false None
      "Keep unmerged reads in output";
      ParamSpec.mk "min_amplicon_size" "--min-amplicon-size" true "int" PNone false false None
      "Minimum amplicon size (bp)";
      ParamSpec.mk "max_amplicon_size" "--max-amplicon-size" true "int" PNone false false None
      "Maximum amplicon size (bp)";
      ParamSpec.mk "process" "--process" false "str" (PStr "swarm") false false None
      "Processing: swarm | dada2 | preprocess-only";
      ParamSpec.mk "pre_clustering" "--pre-clustering" false "bool" (PBool false) false false None
      "Denoise with distance=1 before clustering";
      ParamSpec.mk "distance" "--distance" false "int" (PInt 1) false false None
      "Max distance for Swarm clustering";
      ParamSpec.mk "fastidious" "--fastidious" false "bool" (PBool false) false false None
      "Use Swarm fastidious option";
      ParamSpec.mk "sample_inference" "--sample-inference" false "str" (PStr "pseudo-pooling") false false None
      "DADA2 inference: pseudo-pooling | independent | pooling";
      ParamSpec.mk "input_archive" "--input-archive" false "str" PNone true false None
      "Tar archive with FASTQ reads";
      ParamSpec.mk "input_R1" "--input-R1" false "list" PNone true false None
      "R1 sequence files (FASTQ)";
      ParamSpec.mk "input_R2" "--input-R2" false "list" PNone true false None
      "R2 sequence files (FASTQ)";
      ParamSpec.mk "samples_names" "--samples-names" false "list" PNone false false None
      "Sample names for each R1/R2 pair";
      ParamSpec.mk "output_fasta" "--output-fasta" false "str" (PStr "reads_processing.fasta") false true (Some "fasta")
      "Output FASTA sequences";
      ParamSpec.mk "output_biom" "--output-biom" false "str" (PStr "reads_processing_abundance.biom") false true (Some "biom")
      "Output BIOM abundance table";
      ParamSpec.mk "output_compo" "--output-compo" false "str" (PStr "reads_processing_compo.tsv") false true (Some "compo")
      "Clustering composition TSV";
      ParamSpec.mk "html" "--html" false "str" (PStr "reads_processing.html") false true (Some "html")
      "HTML report file";
      ParamSpec.mk "log_file" "--log-file" false "str" (PStr "frogs.log") false true (Some "log")
      "Log file path" ]
    true "sequencer".

Definition tool_remove_chimera : ToolSpec.t :=
  ToolSpec.mk "remove_chimera" "remove_chimera.py"
    "Detect and remove chimeric sequences using VSEARCH or chimera_denovo."
    "Core pipeline" (Some "remove_chimera") false
    [ ParamSpec.mk "nb_cpus" "--nb-cpus" false "int" (PInt 1) false false None
      "Maximum number of CPUs used";
      ParamSpec.mk "debug" "--debug" false "bool" (PBool false) false false None
      "Keep temporary files for debugging";
      ParamSpec.mk "long_reads" "--long-reads" false "bool" (PBool false) false false None
      "Use chimera_denovo algorithm for long reads";
      ParamSpec.mk "input_fasta" "--input-fasta" true "str" PNone true false None
      "Cluster sequences (FASTA)";
      ParamSpec.mk "input_biom" "--input-biom" true "str" PNone true false None
      "Abundance table (BIOM)";
      ParamSpec.mk "output_fasta" "--output-fasta" false "str" (PStr "remove_chimera.fasta") false true (Some "fasta")
      "Sequences without chimera";
      ParamSpec.mk "output_biom" "--output-biom" false "str" (PStr "remove_chimera_abundance.biom") false true (Some "biom")
      "Abundance table without chimera";
      ParamSpec.mk "html" "--html" false "str" (PStr "remove_chimera.html") false true (Some "html")
      "HTML report file";
      ParamSpec.mk "log_file" "--log-file" false "str" (PStr "frogs.log") false true (Some "log")
      "Log file path" ]
    false "".

Definition TOOLS_sample : gmap string ToolSpec.t :=
  <["reads_processing" := tool_reads_processing]>
    (<["remove_chimera" := tool_remove_chimera]> ∅).

(** [config.py] for a server installed under /srv/frogs-mcp. *)
Definition cfg_sample : Config :=
  {| FROGS_TOOLS_DIR := "/srv/frogs-mcp/FROGS/tools";
     WORKSPACE_ROOT := "/srv/frogs-mcp/workspaces";
     FROGS_PYTHON := "/usr/bin/python3" |}.

(** ** [server.py]: the steps given to a new project *)

Definition PIPELINE_ORDER : list string :=
  [ "reads_processing"; "remove_chimera"; "cluster_filters";
    "taxonomic_affiliation"; "affiliation_postprocess"; "affiliation_filters";
    "affiliation_report"; "tree"; "normalisation"; "phyloseq_import";
    "phyloseq_composition"; "phyloseq_alpha_diversity" ].

Definition OPTIONAL_STEPS : list string :=
  [ "demultiplex"; "clustering"; "itsx"; "biom_to_tsv"; "tsv_to_biom";
    "biom_to_stdBiom"; "cluster_asv_report"; "phyloseq_beta_diversity";
    "phyloseq_clustering"; "phyloseq_structure"; "phyloseq_manova";
    "deseq2_preprocess"; "deseq2_visualisation"; "frogsfunc_placeseqs";
    "frogsfunc_functions"; "frogsfunc_pathways" ].

(** [_all_steps_ordered] of [server.py]. *)
Definition all_steps_ordered : list (string * Z * bool) :=
  (imap (fun i n => (n, Z.of_nat i + 1, false)%Z) PIPELINE_ORDER
   ++ imap (fun i n => (n, Z.of_nat (length PIPELINE_ORDER) + Z.of_nat i + 1, true)%Z)
        OPTIONAL_STEPS)%list.

(** ** [database.py]: projects, and the steps of a project *)

Definition get_project (db : Db) (project_id : string) : option Project.t :=
  find (fun p => Project.project_id p =? project_id) (projects db).

(** [INSERT INTO projects], then [get_project]; [metadata] is the text
    [json.dumps(metadata or {})]. *)
Definition create_project (db : Db) (now : string)
    (project_id name description working_dir metadata : string)
  : result (Db * option Project.t) :=
  if project_exists db project_id then Raise IntegrityError
  else
    let d1 :=
      {| projects :=
           (projects db
            ++ [Project.mk project_id name description working_dir now metadata])%list;
         jobs := jobs db;
         pipeline_steps := pipeline_steps db |} in
    Ok (d1, get_project d1 project_id).

(** A row of [pipeline_steps LEFT JOIN jobs]. *)
Module StepRow.
Record t : Type := mk {
    step : Step.t;
    job_status : option Status;
    start_time : option string;
    end_time : option string;
    exit_code : option Z
  }.
End StepRow.

(** [ORDER BY ps.step_order]; rows with equal [step_order] are taken in
    insertion order. *)
Definition get_pipeline_steps (db : Db) (project_id : string) : list StepRow.t :=
  map (fun r =>
         let j := match Step.job_id r with
                  | Some i => get_job db i
                  | None => None
                  end in
         StepRow.mk r (option_map Job.status j) (option_map Job.start_time j)
           (match j with Some job => Job.end_time job | None => None end)
           (match j with Some job => Job.exit_code job | None => None end))
    (sort_by (fun a b => (Step.step_order a <=? Step.step_order b)%Z)
       (filter (fun r => Step.project_id r = project_id) (pipeline_steps db))).

(** ** [pipeline.py]: the summary of a project's steps *)

Module Summary.
Record t : Type := mk {
    project_id : string;
    steps : list StepRow.t;
    completed_count : nat;
    failed_count : nat;
    running_count : nat;
    pending_count : nat;
    total_count : nat;
    next_step : option string
  }.
End Summary.

(** [sum(1 for s in steps if s["status"] == ...)] *)
Definition count_status (s : Status) (steps : list StepRow.t) : nat :=
  length (filter (fun r => status_eqb (Step.status (StepRow.step r)) s = true) steps).

(** [{s["step_name"]: s for s in steps}.get(step_name)]: of several rows
    with one name the dictionary keeps the last. *)
Definition step_by_name (steps : list StepRow.t) (step_name : string)
  : option StepRow.t :=
  find (fun r => Step.step_name (StepRow.step r) =? step_name) (rev steps).

(** [info.get("status", "unknown") in ("pending", "unknown")] *)
Definition awaits (steps : list StepRow.t) (step_name : string) : bool :=
  match step_by_name steps step_name with
  | Some info => status_eqb (Step.status (StepRow.step info)) pending
  | None => true
  end.

Definition get_pipeline_status_summary (db : Db) (project_id : string)
  : Summary.t :=
  let steps := get_pipeline_steps db project_id in
  Summary.mk project_id steps
    (count_status completed steps) (count_status failed steps)
    (count_status running steps) (count_status pending steps)
    (length steps)
    (find (awaits steps) PIPELINE_ORDER).

(** ** [server.py]: the tools that change the state *)

(** What a tool of the server can raise: what the layers below raise, or
    the [AttributeError] of calling [.get] on [None]. *)
Inductive server_exn : Type :=
| Raised (e : exn)
| AttributeError.

Inductive outcome (A : Type) : Type :=
| Reply (a : A)
| Fails (e : server_exn).

Arguments Reply {A} a.
Arguments Fails {A} e.

Module CancelReply.
Record t : Type := mk {
    job_id : string;
    cancelled : bool;
    message : string
  }.
End CancelReply.

Module ProjectReply.
Record t : Type := mk {
    project_id : string;
    name : string;
    description : string;
    working_dir : string;
    created_at : string;
    pipeline_steps_initialized : nat;
    message : string
  }.
End ProjectReply.

Module StepReply.
Inductive t : Type :=
| error (msg : string)
| started (job_id step_name : string) (status : Status)
    (resolved_inputs : gmap string string) (working_dir message : string).
End StepReply.

Module server.

Definition cancel_job (kill : Z -> kill_outcome) (now : string) (st : State)
    (job_id : string) : outcome CancelReply.t * State :=
  match cancel_job kill now st job_id with
  | (Ok sent, st') =>
      (Reply (CancelReply.mk job_id sent
                (if sent then "SIGTERM sent."
                 else "Process not found (may have already finished).")),
       st')
  | (Raise (ValueError msg), st') => (Reply (CancelReply.mk job_id false msg), st')
  | (Raise (PermissionError msg), st') =>
      (Reply (CancelReply.mk job_id false msg), st')
  | (Raise e, st') => (Fails (Raised e), st')
  end.

(** [uuid] is [str(uuid.uuid4())]. *)
Definition create_project (cfg : Config) (uuid now : string) (st : State)
    (name description : string) (working_dir : option string)
  : outcome ProjectReply.t * State :=
  let project_id := substring 0 8 uuid in
  let working_dir :=
    if truthy_opt working_dir
    then match working_dir with Some w => w | None => "" end
    else os_path_join (WORKSPACE_ROOT cfg) project_id in
  let st1 := log_event st (Makedirs working_dir) in
  match create_project (db st1) now project_id name description working_dir "{}" with
  | Raise e => (Fails (Raised e), st1)
  | Ok (d1, project) =>
      let steps := all_steps_ordered in
      match initialize_pipeline_steps d1 project_id steps with
      | Raise e =>
          (Fails (Raised e), {| db := d1; active := active st1; trace := trace st1 |})
      | Ok d2 =>
          let st2 := {| db := d2; active := active st1; trace := trace st1 |} in
          match project with
          | None => (Fails AttributeError, st2)
          | Some row =>
              (Reply (ProjectReply.mk project_id name description working_dir
                        (Project.created_at row) (length steps)
                        ("Project '" +:+ name +:+ "' created with ID '"
                         +:+ project_id
                         +:+ "'. Use get_pipeline_recommendations('"
                         +:+ project_id +:+ "') to start.")),
               st2)
          end
      end
  end.

Definition submit_pipeline_step (cfg : Config) (TOOLS : gmap string ToolSpec.t)
    (uuid now : string) (spawn : option Popen) (st : State)
    (project_id step_name : string) (params : gmap string pyval)
    (auto_resolve_inputs : bool) : outcome StepReply.t * State :=
  match get_project (db st) project_id with
  | None =>
      (Reply (StepReply.error
                ("Project '" +:+ project_id
                 +:+ "' not found. Run create_project() first.")),
       st)
  | Some _ =>
      match TOOLS !! step_name with
      | None =>
          (Reply (StepReply.error
                    ("Unknown step '" +:+ step_name
                     +:+ "'. Run list_tools() to see available tools.")),
           st)
      | Some _ =>
          let resolved_inputs :=
            if auto_resolve_inputs
            then resolve_inputs_for_step TOOLS (db st) project_id step_name
            else ∅ in
          let merged_params := params ∪ (PStr <$> resolved_inputs) in
          match submit_job cfg TOOLS uuid now spawn st step_name merged_params
                  (Some project_id) (Some step_name) with
          | (Raise e, st') => (Fails (Raised e), st')
          | (Ok job_id, st') =>
              match get_job (db st') job_id with
              | None => (Fails AttributeError, st')
              | Some job =>
                  (Reply (StepReply.started job_id step_name running
                            resolved_inputs (Job.working_dir job)
                            ("Job " +:+ job_id +:+ " started for step '"
                             +:+ step_name
                             +:+ "'. Check status with get_job_status('"
                             +:+ job_id +:+ "').")),
                   st')
              end
          end
      end
  end.

End server.

(** * Notions used in the statements *)

(** ** Observations of a state *)

(** The statuses of a job at successive moments of a run. *)
Definition status_at (st : State) (job_id : string) : option Status :=
  option_map Job.status (get_job (db st) job_id).

Definition step_view (st : State) (project_id step_name : string)
  : option (Status * option string) :=
  option_map (fun r => (Step.status r, Step.job_id r))
    (get_step (db st) project_id step_name).

(** The record a tick leaves for an exited job. *)
Definition settled_job (isfile : string -> bool) (now : string) (rc : Z)
    (job : Job.t) : Job.t :=
  let j1 := Job.set_status (exit_status rc) (Some rc) now job in
  match Job.output_files job with
  | Some outs => Job.set_output_files (prune_outputs isfile outs) j1
  | None => j1
  end.


(** ** Effective parameter values *)

(** What the first loop of [build_command] leaves for a parameter. *)
Definition supplied_or_default (p : ParamSpec.t) (params : gmap string pyval)
  : option pyval :=
  match params !! ParamSpec.python_name p with
  | Some v => Some v
  | None =>
      if negb (is_None (ParamSpec.default p)) && ParamSpec.is_output_file p
      then Some (ParamSpec.default p)
      else None
  end.

(** What the second loop does to the value of an output-file parameter. *)
Definition rewrite_output (job_dir : string) (v : pyval) : pyval :=
  match v with
  | PStr s =>
      if truthy_str s && negb (isabs_str s) then PStr (os_path_join job_dir s)
      else v
  | _ => v
  end.



(** ** Two values of one parameter that yield the same tokens *)

(** Two dictionaries that agree, except that under [n] one may hold [v1]
    where the other holds [v2]. *)
Definition alike (n : string) (v1 v2 : pyval) (m1 m2 : gmap string pyval) : Prop :=
  (forall k, k <> n -> m1 !! k = m2 !! k)
  /\ (m1 !! n = m2 !! n \/ (m1 !! n = Some v1 /\ m2 !! n = Some v2)).

Definition alike_result (n : string) (v1 v2 : pyval)
    (r1 r2 : result (gmap string pyval * gmap string string)) : Prop :=
  match r1, r2 with
  | Ok s1, Ok s2 => alike n v1 v2 (fst s1) (fst s2) /\ snd s1 = snd s2
  | Raise e1, Raise e2 => e1 = e2
  | _, _ => False
  end.

(** ** What a job offers to the resolver *)

(** The path a job offers under an output key, if it is not empty. *)
Definition produces (j : Job.t) (k : string) : option string :=
  match Job.output_files j with
  | Some outs =>
      match outs !! k with
      | Some path => if truthy_str path then Some path else None
      | None => None
      end
  | None => None
  end.


Definition by_start (a b : Job.t) : bool :=
  String.leb (Job.start_time a) (Job.start_time b).


(** * Scenarios

    Concrete runs of the model on the sample catalogue, used to apply the
    theorems and to show what the code does. *)

(** ** States without project *)

Definition db_none : Db := {| projects := []; jobs := []; pipeline_steps := [] |}.

Definition st_empty : State := {| db := db_none; active := []; trace := [] |}.

(** A store holding one job whose process could not be tracked. *)
Definition db_untracked : Db :=
  match insert_job db_none "2024-05-01T09:00:00" "j0" None "remove_chimera"
          None ∅ [] "/srv/frogs-mcp/workspaces/standalone/j0" None "" "" "" with
  | Ok d => d
  | Raise _ => db_none
  end.

Definition st_untracked : State :=
  {| db := db_untracked; active := []; trace := [] |}.

(** ** A project and one submission of its second step *)

(** The store after [create_project] made project 3f2a9c1e. *)
Definition db_project : Db :=
  match initialize_pipeline_steps
          {| projects := [Project.mk "3f2a9c1e" "soil_16S" ""
                            "/srv/frogs-mcp/workspaces/3f2a9c1e"
                            "2024-05-01T09:59:00.120000" "{}"];
             jobs := [];
             pipeline_steps := [] |}
          "3f2a9c1e" all_steps_ordered with
  | Ok d => d
  | Raise _ => db_none
  end.

Definition st_project : State := {| db := db_project; active := []; trace := [] |}.

Definition chimera_params : gmap string pyval :=
  <["input_fasta" := PStr "/data/run1/clusters.fasta"]>
    (<["input_biom" := PStr "/data/run1/clusters.biom"]> ∅).

Definition job1 : string := "8d1f0c52-6c1e-4f0a-9d57-2a4b1c3e5f60".

Definition job1_dir : string :=
  "/srv/frogs-mcp/workspaces/3f2a9c1e/8d1f0c52-6c1e-4f0a-9d57-2a4b1c3e5f60".

(** [submit_job("remove_chimera", ..., project_id, step_name)] as issued by
    [submit_pipeline_step]; the process got pid 4242. *)
Definition submitted : result string * State :=
  submit_job cfg_sample TOOLS_sample job1 "2024-05-01T10:00:01.000250" (Some {| proc_pid := 4242 |}) st_project
    "remove_chimera" chimera_params (Some "3f2a9c1e") (Some "remove_chimera").

(** Only the FASTA output was written. *)
Definition only_fasta (path : string) : bool :=
  path =? job1_dir +:+ "/remove_chimera.fasta".

Definition no_file (path : string) : bool := false.

Definition any_file (path : string) : bool := true.

(** The process of the submitted job is sent SIGTERM, which arrives. *)
Definition after_cancel : result bool * State :=
  cancel_job (fun _ => Delivered) "2024-05-01T10:03:12.400000" (snd submitted) job1.

(** ** The parameters built for that submission *)




Definition chimera_outs : gmap string string :=
  match merged_params tool_remove_chimera chimera_params job1_dir with
  | Ok st => snd st
  | Raise _ => ∅
  end.




(** ** The first step of the project, run to completion, then run again *)

Definition amplicon_sizes : gmap string pyval :=
  <["min_amplicon_size" := PInt 400]> (<["max_amplicon_size" := PInt 500]> ∅).

Definition reads_params : gmap string pyval :=
  <["sequencer" := PStr "illumina"]>
    (<["input_archive" := PStr "/data/run1/reads.tar.gz"]> amplicon_sizes).

Definition p_input_R1 : ParamSpec.t :=
  ParamSpec.mk "input_R1" "--input-R1" false "list" PNone true false None
    "R1 sequence files (FASTQ)".

Definition job0 : string := "1b7e4c90-0f3d-4a57-8a35-6e2d9b0c7a11".

Definition job0_dir : string :=
  "/srv/frogs-mcp/workspaces/3f2a9c1e/1b7e4c90-0f3d-4a57-8a35-6e2d9b0c7a11".

Definition reads_submitted : result string * State :=
  submit_job cfg_sample TOOLS_sample job0 "2024-05-01T09:59:30.000100"
    (Some {| proc_pid := 4100 |}) st_project "reads_processing" reads_params
    (Some "3f2a9c1e") (Some "reads_processing").

Definition reads_done : State :=
  poll_tick (fun _ => Some 0%Z) any_file "2024-05-01T10:00:00.000000"
    (snd reads_submitted).

Definition job2 : string := "c04f7a3e-52b1-4e8d-b6f0-91d2a7e4c855".


Definition reads_twice : State :=
  poll_tick (fun _ => Some 0%Z) any_file "2024-05-01T10:31:10.000000"
    (snd (submit_job cfg_sample TOOLS_sample job2 "2024-05-01T10:20:44.310000"
            (Some {| proc_pid := 4300 |}) reads_done "reads_processing"
            reads_params (Some "3f2a9c1e") (Some "reads_processing"))).

Definition later_run : Job.t :=
  match get_job (db reads_twice) job2 with
  | Some j => j
  | None => Job.mk "" None "" None ∅ [] pending None "" None None "" "" "" None "" ""
  end.

(** ** The first two steps of the project, both run to completion *)



(** ** The command built for the first step *)

Definition reads_cmd : list pyval :=
  match build_command cfg_sample tool_reads_processing reads_params job0_dir with
  | Ok r => fst r
  | Raise _ => []
  end.

Definition reads_outs : gmap string string :=
  match build_command cfg_sample tool_reads_processing reads_params job0_dir with
  | Ok r => snd r
  | Raise _ => ∅
  end.

(** ** Values the output loop of the command builder inspects *)

(** A value supplied for an output-file parameter, or declared as the
    default of a parameter of that name. *)
Definition output_value (tool_spec : ToolSpec.t) (params : gmap string pyval)
    (v : pyval) : Prop :=
  exists p,
    p ∈ ToolSpec.params tool_spec
    /\ ParamSpec.is_output_file p = true
    /\ (params !! ParamSpec.python_name p = Some v
        \/ exists q,
             q ∈ ToolSpec.params tool_spec
             /\ ParamSpec.python_name q = ParamSpec.python_name p
             /\ ParamSpec.default q = v).

(** Every value of [merged] is a string the builder made, or was supplied
    under that name, or is the default of a parameter of that name. *)
Definition traced (tool_spec : ToolSpec.t) (params m : gmap string pyval) : Prop :=
  forall k v,
    m !! k = Some v ->
    is_str v = true
    \/ params !! k = Some v
    \/ exists q, q ∈ ToolSpec.params tool_spec
                 /\ ParamSpec.python_name q = k /\ ParamSpec.default q = v.

(** A request giving a number where an output file name is expected. *)
Definition number_as_output : gmap string pyval :=
  <["output_fasta" := PInt 3]> chimera_params.

(** ** The states the server goes through

    One step is one call of a state-changing tool, one tick of the
    completion monitor, or a restart of the server, which keeps the
    database and starts with an empty registry. *)

Definition restart (st : State) : State :=
  {| db := db st; active := []; trace := trace st |}.

Inductive server_step (cfg : Config) (TOOLS : gmap string ToolSpec.t)
    (st : State) : State -> Prop :=
| step_create_project (uuid now name description : string)
    (working_dir : option string) :
    server_step cfg TOOLS st
      (snd (server.create_project cfg uuid now st name description working_dir))
| step_submit_job (uuid now : string) (spawn : option Popen)
    (tool_name : string) (params : gmap string pyval)
    (project_id step_name : option string) :
    server_step cfg TOOLS st
      (snd (submit_job cfg TOOLS uuid now spawn st tool_name params project_id
              step_name))
| step_submit_pipeline_step (uuid now : string) (spawn : option Popen)
    (project_id step_name : string) (params : gmap string pyval)
    (auto_resolve_inputs : bool) :
    server_step cfg TOOLS st
      (snd (server.submit_pipeline_step cfg TOOLS uuid now spawn st project_id
              step_name params auto_resolve_inputs))
| step_cancel_job (kill : Z -> kill_outcome) (now job_id : string) :
    server_step cfg TOOLS st (snd (server.cancel_job kill now st job_id))
| step_poll_tick (poll : Popen -> option Z) (isfile : string -> bool)
    (now : string) :
    server_step cfg TOOLS st (poll_tick poll isfile now st)
| step_restart :
    server_step cfg TOOLS st (restart st).

Inductive reachable (cfg : Config) (TOOLS : gmap string ToolSpec.t)
  : State -> Prop :=
| reachable_empty : reachable cfg TOOLS st_empty
| reachable_next (st st' : State) :
    reachable cfg TOOLS st -> server_step cfg TOOLS st st' ->
    reachable cfg TOOLS st'.

(** What ties a job record to its registry entry and to step records. *)
Definition job_tie (j : Job.t)
  : string * option string * option string * option Z :=
  (Job.job_id j, Job.project_id j, Job.step_name j, Job.pid j).

(** Status and exit code of a job record agree. *)
Definition exit_code_agrees (j : Job.t) : Prop :=
  match Job.status j with
  | pending => False
  | running => Job.exit_code j = None /\ Job.end_time j = None
  | completed => Job.exit_code j = Some 0%Z
  | failed => exists rc, Job.exit_code j = Some rc /\ rc <> 0%Z
  | cancelled => Job.exit_code j = Some (-15)%Z
  end.

(** What the schema and the code keep true of the store. *)
Record store_consistent (d : Db) : Prop := {
  job_ids : NoDup (map Job.job_id (jobs d));
  job_projects :
    forall j p, j ∈ jobs d -> Job.project_id j = Some p ->
                project_exists d p = true;
  job_exit_codes : forall j, j ∈ jobs d -> exit_code_agrees j;
  project_ids : NoDup (map Project.project_id (projects d));
  step_keys :
    NoDup (map (fun r => (Step.project_id r, Step.step_name r))
             (pipeline_steps d));
  step_projects :
    forall r, r ∈ pipeline_steps d ->
              project_exists d (Step.project_id r) = true;
  step_jobs :
    forall r i, r ∈ pipeline_steps d -> Step.job_id r = Some i ->
                exists pid,
                  (i, Some (Step.project_id r), Some (Step.step_name r), pid)
                    ∈ map job_tie (jobs d);
  step_statuses :
    forall r, r ∈ pipeline_steps d ->
              Step.status r = pending \/ Step.status r = completed
              \/ Step.status r = failed
}.

(** The registry holds each job once, and only jobs that are on record
    with the process, project and step registered. *)
Record consistent (st : State) : Prop := {
  registry_keys : NoDup (map fst (active st));
  registry_jobs :
    forall id proc p n,
      (id, (proc, p, n)) ∈ active st ->
      (id, p, n, Some (proc_pid proc)) ∈ map job_tie (jobs (db st));
  store : store_consistent (db st)
}.

(** ** A run of the server from the empty database *)

Definition created : State :=
  snd (server.create_project cfg_sample "3f2a9c1e-7b1d-4c55-9e0a-6d2f8b1c4a37"
         "2024-05-01T09:59:00.120000" st_empty "soil_16S" "" None).

Definition created_submitted : State :=
  snd (server.submit_pipeline_step cfg_sample TOOLS_sample job1
         "2024-05-01T10:00:01.000250" (Some {| proc_pid := 4242 |}) created
         "3f2a9c1e" "remove_chimera" chimera_params true).

Definition created_failed : State :=
  poll_tick (fun _ => Some 1%Z) no_file "2024-05-01T10:07:31.000500"
    created_submitted.

(** * Properties *)

(** ** Strings *)

Lemma append_cons (x : ascii) (a b : string) :
  String x a +:+ b = String x (a +:+ b).
Proof. reflexivity. Qed.

Lemma append_assoc (a b c : string) : (a +:+ b) +:+ c = a +:+ (b +:+ c).
Proof.
  induction a as [|x a IH]; [reflexivity |].
  rewrite !append_cons. now rewrite IH.
Qed.

Lemma length_append (a b : string) :
  String.length (a +:+ b) = String.length a + String.length b.
Proof.
  induction a as [|x a IH]; [reflexivity |].
  rewrite append_cons. simpl. now rewrite IH.
Qed.

(** Two texts whose endings have the same length and start with different
    characters are different. *)
Lemma append_tail_neq (s1 s2 t1 t2 : string) :
  String.length t1 = String.length t2 ->
  String.get 0 t1 <> String.get 0 t2 ->
  s1 +:+ t1 <> s2 +:+ t2.
Proof.
  intros Hlen Hne Heq.
  assert (Hl : String.length s1 = String.length s2).
  { apply (f_equal String.length) in Heq. rewrite !length_append in Heq. lia. }
  apply Hne.
  rewrite (append_correct2 s1 t1 0), (append_correct2 s2 t2 0).
  simpl. now rewrite Heq, Hl.
Qed.

(** ** The store *)

Lemma find_elem_of {A : Type} (f : A -> bool) (l : list A) (x : A) :
  find f l = Some x -> x ∈ l /\ f x = true.
Proof.
  intros H. apply find_some in H. destruct H as [Hin Hf].
  split; [now apply list_elem_of_In | exact Hf].
Qed.

Lemma find_is_Some {A : Type} (f : A -> bool) (l : list A) (x : A) :
  x ∈ l -> f x = true -> exists y, find f l = Some y.
Proof.
  intros Hin Hf. destruct (find f l) as [y|] eqn:E; [now exists y |].
  apply list_elem_of_In in Hin. pose proof (find_none f l E x Hin). congruence.
Qed.

(** ** Cancellation *)

(** C8. Cancelling an identifier without job record fails with the
    job-not-found [ValueError]; cancelling a job whose record holds no
    process id returns [False], sends no signal and leaves the whole state,
    hence the job record and its status, as it was. *)
Theorem cancel_job_without_process
    (kill : Z -> kill_outcome) (now : string) (st : State) (job_id : string) :
  (get_job (db st) job_id = None ->
   cancel_job kill now st job_id
   = (Raise (ValueError (job_not_found_msg job_id)), st))
  /\ (forall job : Job.t,
        get_job (db st) job_id = Some job ->
        Job.pid job = None ->
        cancel_job kill now st job_id = (Ok false, st)
        /\ get_job (db (snd (cancel_job kill now st job_id))) job_id = Some job).
Proof.
  unfold cancel_job. split.
  - intros ->. reflexivity.
  - intros job Hjob Hpid. rewrite Hjob, Hpid. simpl. auto.
Qed.

Lemma cancel_job_without_process_witness :
  cancel_job (fun _ => Delivered) "2024-05-01T09:00:05" st_untracked "j9"
  = (Raise (ValueError "Job 'j9' not found."), st_untracked)
  /\ (cancel_job (fun _ => Delivered) "2024-05-01T09:00:05" st_untracked "j0"
      = (Ok false, st_untracked)
      /\ option_map Job.status
           (get_job (db (snd (cancel_job (fun _ => Delivered)
                                "2024-05-01T09:00:05" st_untracked "j0"))) "j0")
         = Some running).
Proof.
  split.
  - apply (proj1 (cancel_job_without_process _ _ st_untracked "j9")).
    reflexivity.
  - destruct (proj2 (cancel_job_without_process (fun _ => Delivered)
                       "2024-05-01T09:00:05" st_untracked "j0")
                _ eq_refl eq_refl) as [H1 H2].
    split; [exact H1 | now rewrite H2].
Defined.

(** ** Validation at submission *)

Lemma submit_job_invalid
    (cfg : Config) (TOOLS : gmap string ToolSpec.t) (uuid now : string)
    (spawn : option Popen) (st : State) (tool_name : string)
    (params : gmap string pyval) (project_id step_name : option string)
    (e : exn) :
  validate TOOLS tool_name params = Raise e ->
  submit_job cfg TOOLS uuid now spawn st tool_name params project_id step_name
  = (Raise e, st).
Proof. unfold submit_job. now intros ->. Qed.

Lemma has_key_None {V : Type} (k : string) (m : gmap string V) :
  m !! k = None -> has_key k m = false.
Proof. unfold has_key. now intros ->. Qed.

Lemma messages_distinct (a b : string) (p : ParamSpec.t) (t : ToolSpec.t) :
  unknown_tool_msg a <> missing_required_msg b p
  /\ unknown_tool_msg a <> missing_positional_msg b t
  /\ missing_required_msg a p <> missing_positional_msg b t.
Proof.
  unfold unknown_tool_msg, missing_required_msg, missing_positional_msg.
  repeat split.
  - change "'. Run list_tools() to see available tools."
      with ("'. Run list_tools() to see available tool" +:+ "s.").
    change ") is missing." with (") is missin" +:+ "g.").
    rewrite <- !append_assoc. apply append_tail_neq; [reflexivity | discriminate].
  - change "'. Run list_tools() to see available tools."
      with ("'. Run list_tools() to see available tool" +:+ "s.").
    change "' is missing." with ("' is missin" +:+ "g.").
    rewrite <- !append_assoc. apply append_tail_neq; [reflexivity | discriminate].
  - rewrite <- !append_assoc. apply append_tail_neq; [reflexivity | discriminate].
Qed.

(** C4. A submission naming a tool absent from the catalogue, or lacking
    a required non-positional parameter, or lacking the declared
    positional parameter, raises at once a [ValueError] whose message
    tells the three cases apart, and returns the state as it was: no job
    record, no registry entry, no directory and no process. *)
Theorem submit_job_rejects_invalid
    (cfg : Config) (TOOLS : gmap string ToolSpec.t) (uuid now : string)
    (spawn : option Popen) (st : State) (tool_name : string)
    (params : gmap string pyval) (project_id step_name : option string) :
  let outcome :=
    submit_job cfg TOOLS uuid now spawn st tool_name params project_id step_name in
  (TOOLS !! tool_name = None ->
   outcome = (Raise (ValueError (unknown_tool_msg tool_name)), st))
  /\ (forall (tool_spec : ToolSpec.t) (p : ParamSpec.t),
        TOOLS !! tool_name = Some tool_spec ->
        p ∈ ToolSpec.params tool_spec ->
        ParamSpec.required p = true ->
        params !! ParamSpec.python_name p = None ->
        ParamSpec.python_name p <> ToolSpec.subparser_param tool_spec ->
        exists q : ParamSpec.t,
          q ∈ ToolSpec.params tool_spec
          /\ ParamSpec.required q = true
          /\ params !! ParamSpec.python_name q = None
          /\ outcome = (Raise (ValueError (missing_required_msg tool_name q)), st))
  /\ (forall tool_spec : ToolSpec.t,
        TOOLS !! tool_name = Some tool_spec ->
        ToolSpec.has_subparser tool_spec = true ->
        params !! ToolSpec.subparser_param tool_spec = None ->
        (exists q : ParamSpec.t,
            q ∈ ToolSpec.params tool_spec
            /\ ParamSpec.required q = true
            /\ params !! ParamSpec.python_name q = None
            /\ outcome = (Raise (ValueError (missing_required_msg tool_name q)), st))
        \/ outcome
           = (Raise (ValueError (missing_positional_msg tool_name tool_spec)), st))
  /\ (forall (a b : string) (p : ParamSpec.t) (t : ToolSpec.t),
        unknown_tool_msg a <> missing_required_msg b p
        /\ unknown_tool_msg a <> missing_positional_msg b t
        /\ missing_required_msg a p <> missing_positional_msg b t).
Proof.
  intros outcome. subst outcome.
  assert (Hreq : forall tool_spec q,
             TOOLS !! tool_name = Some tool_spec ->
             find (lacks_required tool_spec params) (ToolSpec.params tool_spec)
             = Some q ->
             q ∈ ToolSpec.params tool_spec
             /\ ParamSpec.required q = true
             /\ params !! ParamSpec.python_name q = None
             /\ submit_job cfg TOOLS uuid now spawn st tool_name params
                  project_id step_name
                = (Raise (ValueError (missing_required_msg tool_name q)), st)).
  { intros tool_spec q Ht Hf.
    destruct (find_elem_of _ _ _ Hf) as [Hin Hl].
    unfold lacks_required in Hl.
    apply andb_true_iff in Hl as [Hl _]. apply andb_true_iff in Hl as [Hr Hk].
    repeat split; try assumption.
    - unfold has_key in Hk.
      destruct (params !! ParamSpec.python_name q); [discriminate | reflexivity].
    - apply submit_job_invalid. unfold validate. now rewrite Ht, Hf. }
  repeat split.
  - intros Hnone. apply submit_job_invalid. unfold validate. now rewrite Hnone.
  - intros tool_spec p Ht Hin Hr Hk Hne.
    destruct (find_is_Some (lacks_required tool_spec params) _ p Hin) as [q Hq].
    { unfold lacks_required. rewrite Hr, (has_key_None _ _ Hk). simpl.
      now apply negb_true_iff, String.eqb_neq. }
    exists q. now apply (Hreq tool_spec).
  - intros tool_spec Ht Hsub Hk.
    destruct (find (lacks_required tool_spec params) (ToolSpec.params tool_spec))
      as [q|] eqn:Hf.
    + left. exists q. now apply (Hreq tool_spec).
    + right. apply submit_job_invalid. unfold validate.
      now rewrite Ht, Hf, Hsub, (has_key_None _ _ Hk).
  - exact (proj1 (messages_distinct a b p t)).
  - exact (proj1 (proj2 (messages_distinct a b p t))).
  - exact (proj2 (proj2 (messages_distinct a b p t))).
Qed.

Lemma submit_job_rejects_invalid_witness :
  submit_job cfg_sample TOOLS_sample "j1" "2024-05-01T10:00:01"
    (Some {| proc_pid := 4242 |}) st_empty "blast" ∅ None None
  = (Raise (ValueError
              "Unknown tool: 'blast'. Run list_tools() to see available tools."),
     st_empty)
  /\ (exists q : ParamSpec.t,
        q ∈ ToolSpec.params tool_remove_chimera
        /\ ParamSpec.required q = true
        /\ (∅ : gmap string pyval) !! ParamSpec.python_name q = None
        /\ submit_job cfg_sample TOOLS_sample "j1" "2024-05-01T10:00:01"
             (Some {| proc_pid := 4242 |}) st_empty "remove_chimera" ∅ None None
           = (Raise (ValueError (missing_required_msg "remove_chimera" q)),
              st_empty))
  /\ ((exists q : ParamSpec.t,
          q ∈ ToolSpec.params tool_reads_processing
          /\ ParamSpec.required q = true
          /\ amplicon_sizes !! ParamSpec.python_name q = None
          /\ submit_job cfg_sample TOOLS_sample "j1" "2024-05-01T10:00:01"
               (Some {| proc_pid := 4242 |}) st_empty "reads_processing"
               amplicon_sizes None None
             = (Raise (ValueError (missing_required_msg "reads_processing" q)),
                st_empty))
      \/ submit_job cfg_sample TOOLS_sample "j1" "2024-05-01T10:00:01"
           (Some {| proc_pid := 4242 |}) st_empty "reads_processing"
           amplicon_sizes None None
         = (Raise (ValueError
                     (missing_positional_msg "reads_processing"
                        tool_reads_processing)),
            st_empty)).
Proof.
  split; [| split].
  - apply (proj1 (submit_job_rejects_invalid cfg_sample TOOLS_sample "j1"
                    "2024-05-01T10:00:01" (Some {| proc_pid := 4242 |})
                    st_empty "blast" ∅ None None)).
    reflexivity.
  - apply (proj1 (proj2 (submit_job_rejects_invalid cfg_sample TOOLS_sample "j1"
                           "2024-05-01T10:00:01" (Some {| proc_pid := 4242 |})
                           st_empty "remove_chimera" ∅ None None))
             tool_remove_chimera
             (ParamSpec.mk "input_fasta" "--input-fasta" true "str" PNone
                true false None "Cluster sequences (FASTA)")).
    + reflexivity.
    + apply list_elem_of_In. simpl. tauto.
    + reflexivity.
    + reflexivity.
    + discriminate.
  - apply (proj1 (proj2 (proj2 (submit_job_rejects_invalid cfg_sample
                                  TOOLS_sample "j1" "2024-05-01T10:00:01"
                                  (Some {| proc_pid := 4242 |}) st_empty
                                  "reads_processing" amplicon_sizes None None)))
             tool_reads_processing).
    + reflexivity.
    + reflexivity.
    + reflexivity.
Defined.

(** ** The completion monitor *)

Lemma update_row_eq (j : Job.t) (id : string) (f : Job.t -> Job.t) :
  Job.job_id j = id -> update_row id f j = f j.
Proof. unfold update_row. intros E. apply String.eqb_eq in E. now rewrite E. Qed.

Lemma update_row_ne (j : Job.t) (id : string) (f : Job.t -> Job.t) :
  Job.job_id j <> id -> update_row id f j = j.
Proof. unfold update_row. intros E. apply String.eqb_neq in E. now rewrite E. Qed.

Lemma find_update_row (js : list Job.t) (id id' : string) (f : Job.t -> Job.t) :
  (forall j, Job.job_id (f j) = Job.job_id j) ->
  find (fun j => Job.job_id j =? id') (map (update_row id f) js)
  = if id' =? id then option_map f (find (fun j => Job.job_id j =? id') js)
    else find (fun j => Job.job_id j =? id') js.
Proof.
  intros Hf. induction js as [|j js IH]; simpl.
  - now destruct (id' =? id).
  - destruct (String.eqb_spec (Job.job_id j) id) as [Hj|Hj].
    + rewrite (update_row_eq j id f Hj), Hf.
      destruct (String.eqb_spec (Job.job_id j) id') as [Hj'|Hj'].
      * assert (E : id' = id) by congruence.
        apply String.eqb_eq in E. now rewrite E.
      * exact IH.
    + rewrite (update_row_ne j id f Hj).
      destruct (String.eqb_spec (Job.job_id j) id') as [Hj'|Hj'].
      * assert (E : id' <> id) by congruence.
        apply String.eqb_neq in E. now rewrite E.
      * exact IH.
Qed.

Lemma get_job_update_job_status (d : Db) (now id id' : string) (s : Status)
    (rc : option Z) :
  get_job (update_job_status d now id s rc) id'
  = if id' =? id then option_map (Job.set_status s rc now) (get_job d id')
    else get_job d id'.
Proof. unfold get_job, update_job_status. simpl. now apply find_update_row. Qed.

Lemma get_job_update_job_output_files (d : Db) (id id' : string)
    (m : gmap string string) :
  get_job (update_job_output_files d id m) id'
  = if id' =? id then option_map (Job.set_output_files m) (get_job d id')
    else get_job d id'.
Proof. unfold get_job, update_job_output_files. simpl. now apply find_update_row. Qed.

Lemma jobs_update_pipeline_step (d d' : Db) (p n : string) (s : Status)
    (i : option string) :
  update_pipeline_step d p n s i = Ok d' -> jobs d' = jobs d.
Proof.
  unfold update_pipeline_step. intros H.
  repeat match type of H with
         | (if ?b then _ else _) = _ => destruct b
         end; inversion H; reflexivity.
Qed.

Lemma jobs_settle (isfile : string -> bool) (now : string) (d : Db)
    (job_id : string) (rc : Z) (p n : option string) :
  jobs (settle isfile now d (job_id, rc, p, n))
  = jobs (record_exit isfile now d job_id rc).
Proof.
  unfold settle.
  destruct (truthy_opt p && truthy_opt n); [| reflexivity].
  destruct p as [p|], n as [n|]; try reflexivity.
  destruct (update_pipeline_step _ p n _ _) as [d3|e] eqn:E; [| reflexivity].
  now apply jobs_update_pipeline_step in E.
Qed.

Lemma get_job_jobs (d d' : Db) (id : string) :
  jobs d = jobs d' -> get_job d id = get_job d' id.
Proof. unfold get_job. now intros ->. Qed.

Lemma prune_outputs_empty (isfile : string -> bool) :
  prune_outputs isfile ∅ = ∅.
Proof. unfold prune_outputs. apply map_filter_empty. Qed.

Lemma set_output_files_same (j : Job.t) (m : gmap string string) :
  Job.output_files j = Some m -> Job.set_output_files m j = j.
Proof. destruct j; simpl; now intros ->. Qed.

Lemma get_job_record_exit (isfile : string -> bool) (now : string) (d : Db)
    (id id' : string) (rc : Z) :
  get_job (record_exit isfile now d id rc) id'
  = if id' =? id then option_map (settled_job isfile now rc) (get_job d id')
    else get_job d id'.
Proof.
  unfold record_exit.
  rewrite (get_job_update_job_status d now id id), String.eqb_refl.
  destruct (get_job d id) as [job|] eqn:Hjob; simpl.
  - assert (Hown : get_job (update_job_status d now id (exit_status rc) (Some rc)) id'
                   = if id' =? id
                     then option_map (Job.set_status (exit_status rc) (Some rc) now)
                            (get_job d id')
                     else get_job d id')
      by apply get_job_update_job_status.
    destruct (Job.output_files job) as [outs|] eqn:Houts.
    + destruct (String.eqb_spec id' id) as [->|Hne].
      * rewrite Hjob in *. simpl in *.
        unfold settled_job. rewrite Houts.
        repeat case_bool_decide.
        -- subst outs. rewrite Hown, prune_outputs_empty.
           f_equal. symmetry. now apply set_output_files_same.
        -- rewrite Hown. f_equal. symmetry.
           rewrite H0. now apply set_output_files_same.
        -- rewrite get_job_update_job_output_files, String.eqb_refl, Hown.
           reflexivity.
      * repeat case_bool_decide; try exact Hown.
        rewrite get_job_update_job_output_files.
        apply String.eqb_neq in Hne. now rewrite Hne, Hown.
    + rewrite Hown. destruct (id' =? id) eqn:E; [| reflexivity].
      apply String.eqb_eq in E. subst id'. rewrite Hjob. simpl.
      unfold settled_job. now rewrite Houts.
  - rewrite get_job_update_job_status.
    destruct (id' =? id) eqn:E; [| reflexivity].
    apply String.eqb_eq in E. subst id'. now rewrite Hjob.
Qed.

Lemma get_job_settle (isfile : string -> bool) (now : string) (d : Db)
    (id' : string) (c : string * Z * option string * option string) :
  get_job (settle isfile now d c) id'
  = if id' =? fst (fst (fst c))
    then option_map (settled_job isfile now (snd (fst (fst c)))) (get_job d id')
    else get_job d id'.
Proof.
  destruct c as [[[id rc] p] n]. cbn [fst snd].
  rewrite (get_job_jobs _ _ id' (jobs_settle isfile now d id rc p n)).
  apply get_job_record_exit.
Qed.

Lemma get_job_settle_others (isfile : string -> bool) (now : string)
    (l : list (string * Z * option string * option string)) (d : Db) (id : string) :
  Forall (fun c => fst (fst (fst c)) <> id) l ->
  get_job (foldl (settle isfile now) d l) id = get_job d id.
Proof.
  revert d. induction l as [|c l IH]; intros d Hl; [reflexivity |].
  inversion Hl as [|? ? Hc Hl']; subst. simpl.
  rewrite IH by assumption. rewrite get_job_settle.
  assert (E : id <> fst (fst (fst c))) by congruence.
  apply String.eqb_neq in E. now rewrite E.
Qed.

Lemma exited_keys (poll : Popen -> option Z)
    (d : list (string * (Popen * option string * option string)))
    (c : string * Z * option string * option string) :
  c ∈ exited poll d -> fst (fst (fst c)) ∈ map fst d.
Proof.
  induction d as [|[k [[proc p] n]] d IH]; simpl.
  - intros H. inversion H.
  - intros H. apply elem_of_app in H as [H|H].
    + destruct (poll proc) as [rc|]; [| inversion H].
      apply list_elem_of_singleton in H. subst c. simpl. left.
    + right. now apply IH.
Qed.

Lemma exited_split (poll : Popen -> option Z)
    (d : list (string * (Popen * option string * option string)))
    (id : string) (proc : Popen) (p n : option string) (rc : Z) :
  NoDup (map fst d) ->
  (id, (proc, p, n)) ∈ d ->
  poll proc = Some rc ->
  exists l1 l2,
    exited poll d = (l1 ++ (id, rc, p, n) :: l2)%list
    /\ Forall (fun c => fst (fst (fst c)) <> id) l1
    /\ Forall (fun c => fst (fst (fst c)) <> id) l2.
Proof.
  induction d as [|[k [[proc' p'] n']] d IH]; intros Hnd Hin Hpoll.
  - inversion Hin.
  - simpl in Hnd. apply NoDup_cons in Hnd as [Hk Hnd].
    apply elem_of_cons in Hin as [Heq|Hin].
    + inversion Heq; subst. exists [], (exited poll d). simpl.
      rewrite Hpoll. repeat split; [constructor |].
      apply Forall_forall. intros c Hc Hid.
      apply exited_keys in Hc. rewrite Hid in Hc. contradiction.
    + destruct (IH Hnd Hin Hpoll) as (l1 & l2 & E & H1 & H2).
      assert (Hne : k <> id).
      { intros ->. apply Hk.
        change id with (fst (id, (proc, p, n))). now apply list_elem_of_fmap_2. }
      simpl. rewrite E.
      destruct (poll proc') as [rc'|].
      * exists ((k, rc', p', n') :: l1), l2. repeat split; [| assumption].
        constructor; [exact Hne | assumption].
      * exists l1, l2. repeat split; assumption.
Qed.

(** C5. In a tick, a registered job whose process has exited gets status
    [completed] exactly when its exit code is 0 and [failed] otherwise,
    together with the exit code; its output map becomes the stored map
    restricted to the paths that are regular files at that moment, so no
    entry is added; and the store is written a second time only when that
    restriction differs from the stored map. *)
Theorem poll_tick_records_exit
    (poll : Popen -> option Z) (isfile : string -> bool) (now : string)
    (st : State) (job_id : string) (proc : Popen)
    (project_id step_name : option string) (rc : Z) (job : Job.t) :
  NoDup (map fst (active st)) ->
  (job_id, (proc, project_id, step_name)) ∈ active st ->
  poll proc = Some rc ->
  get_job (db st) job_id = Some job ->
  exists job' : Job.t,
    get_job (db (poll_tick poll isfile now st)) job_id = Some job'
    /\ (Job.status job' = completed <-> rc = 0%Z)
    /\ (Job.status job' = failed <-> rc <> 0%Z)
    /\ Job.exit_code job' = Some rc
    /\ Job.output_files job' = option_map (prune_outputs isfile) (Job.output_files job)
    /\ (forall outs' k v,
          Job.output_files job' = Some outs' ->
          outs' !! k = Some v <->
          (exists outs, Job.output_files job = Some outs /\ outs !! k = Some v)
          /\ isfile v = true)
    /\ (forall (d : Db) (outs : gmap string string),
          get_job d job_id = Some job ->
          Job.output_files job = Some outs ->
          record_exit isfile now d job_id rc
          = if bool_decide (prune_outputs isfile outs = outs)
            then update_job_status d now job_id (exit_status rc) (Some rc)
            else update_job_output_files
                   (update_job_status d now job_id (exit_status rc) (Some rc))
                   job_id (prune_outputs isfile outs)).
Proof.
  intros Hnd Hin Hpoll Hjob.
  destruct (exited_split poll (active st) job_id proc project_id step_name rc
              Hnd Hin Hpoll) as (l1 & l2 & E & H1 & H2).
  exists (settled_job isfile now rc job).
  assert (Hout : Job.output_files (settled_job isfile now rc job)
                 = option_map (prune_outputs isfile) (Job.output_files job)).
  { unfold settled_job. destruct job; simpl. now destruct output_files. }
  assert (Hst : Job.status (settled_job isfile now rc job) = exit_status rc).
  { unfold settled_job. destruct job; simpl. now destruct output_files. }
  repeat split.
  - unfold poll_tick. cbn [db]. rewrite E, foldl_app. cbn [foldl].
    rewrite get_job_settle_others by assumption.
    rewrite get_job_settle. cbn [fst snd]. rewrite String.eqb_refl.
    rewrite get_job_settle_others by assumption.
    now rewrite Hjob.
  - rewrite Hst. unfold exit_status.
    destruct (Z.eqb_spec rc 0); [easy | discriminate].
  - rewrite Hst. unfold exit_status. intros ->. reflexivity.
  - rewrite Hst. unfold exit_status.
    destruct (Z.eqb_spec rc 0); [discriminate | easy].
  - rewrite Hst. unfold exit_status. intros Hrc.
    destruct (Z.eqb_spec rc 0); [contradiction | reflexivity].
  - unfold settled_job. destruct job; simpl. now destruct output_files.
  - exact Hout.
  - rewrite Hout in H. destruct (Job.output_files job) as [outs|]; [| discriminate].
    inversion H; subst outs'. unfold prune_outputs in H0.
    apply map_lookup_filter_Some in H0 as [Hk _]. now exists outs.
  - rewrite Hout in H. destruct (Job.output_files job) as [outs|]; [| discriminate].
    inversion H; subst outs'. unfold prune_outputs in H0.
    now apply map_lookup_filter_Some in H0 as [_ Hf].
  - intros [(outs & Ho & Hk) Hf]. rewrite Hout, Ho in H. inversion H; subst outs'.
    unfold prune_outputs. apply map_lookup_filter_Some. now split.
  - intros d outs Hd Ho. unfold record_exit.
    rewrite get_job_update_job_status, String.eqb_refl, Hd. simpl.
    destruct job; simpl in Ho |- *. rewrite Ho.
    repeat case_bool_decide; try reflexivity.
    subst outs. now rewrite prune_outputs_empty in *.
Qed.

Lemma poll_tick_records_exit_witness :
  exists job' : Job.t,
    get_job (db (poll_tick (fun _ => Some 0%Z) only_fasta
                   "2024-05-01T10:07:31.000500" (snd submitted))) job1
    = Some job'
    /\ Job.status job' = completed
    /\ Job.exit_code job' = Some 0%Z
    /\ Job.output_files job'
       = Some {[ "fasta" := job1_dir +:+ "/remove_chimera.fasta" ]}.
Proof.
  edestruct (poll_tick_records_exit (fun _ => Some 0%Z) only_fasta
               "2024-05-01T10:07:31.000500" (snd submitted) job1
               {| proc_pid := 4242 |} (Some "3f2a9c1e") (Some "remove_chimera")
               0%Z)
    as (job' & Hget & Hdone & _ & Hrc & Hout & _).
  - vm_compute. apply NoDup_singleton.
  - vm_compute. left.
  - reflexivity.
  - vm_compute. reflexivity.
  - exists job'. repeat split.
    + exact Hget.
    + now apply Hdone.
    + exact Hrc.
    + rewrite Hout. vm_compute. reflexivity.
Defined.

(** ** Cancellation and the monitor's registry *)

Lemma cancel_job_keeps_registry
    (kill : Z -> kill_outcome) (now : string) (st : State) (job_id : string) :
  active (snd (cancel_job kill now st job_id)) = active st.
Proof.
  unfold cancel_job.
  destruct (get_job (db st) job_id) as [job|]; [| reflexivity].
  destruct (Job.pid job) as [pid|]; [| reflexivity].
  destruct (pid =? 0)%Z; [reflexivity |].
  now destruct (kill pid).
Qed.

(** C1. What the code does, against the claim: [cancel_job] never touches
    the registry, so the cancelled job stays registered; at the tick that
    finds its process gone, killed by signal 15, the monitor reports the
    job again and replaces the persisted status [cancelled] by [failed]. *)
Theorem cancelled_job_stays_registered :
  (forall (kill : Z -> kill_outcome) (now : string) (st : State) (job_id : string),
      active (snd (cancel_job kill now st job_id)) = active st)
  /\ fst after_cancel = Ok true
  /\ option_map Job.status (get_job (db (snd after_cancel)) job1) = Some cancelled
  /\ option_map Job.exit_code (get_job (db (snd after_cancel)) job1)
     = Some (Some (-15)%Z)
  /\ dict_get job1 (active (snd after_cancel))
     = Some ({| proc_pid := 4242 |}, Some "3f2a9c1e", Some "remove_chimera")
  /\ option_map Job.status
       (get_job (db (poll_tick (fun _ => Some (-15)%Z) no_file
                       "2024-05-01T10:03:20.000000" (snd after_cancel))) job1)
     = Some failed.
Proof.
  split; [exact cancel_job_keeps_registry |].
  repeat split; vm_compute; reflexivity.
Qed.

(** C2. What the code does, against the claim: a job leaves the terminal
    status [cancelled].  The process of the cancelled job handles SIGTERM
    and exits with code 0; the next tick stores [completed]. *)
Theorem cancelled_status_is_overwritten :
  status_at (snd submitted) job1 = Some running
  /\ status_at (snd after_cancel) job1 = Some cancelled
  /\ status_at (poll_tick (fun _ => Some 0%Z) only_fasta
                  "2024-05-01T10:03:20.000000" (snd after_cancel)) job1
     = Some completed
  /\ option_map Job.exit_code
       (get_job (db (poll_tick (fun _ => Some 0%Z) only_fasta
                       "2024-05-01T10:03:20.000000" (snd after_cancel))) job1)
     = Some (Some 0%Z).
Proof. repeat split; vm_compute; reflexivity. Qed.

(** ** Pipeline step records *)

Lemma submit_job_keeps_steps
    (cfg : Config) (TOOLS : gmap string ToolSpec.t) (uuid now : string)
    (spawn : option Popen) (st : State) (tool_name : string)
    (params : gmap string pyval) (project_id step_name : option string) :
  pipeline_steps (db (snd (submit_job cfg TOOLS uuid now spawn st tool_name
                             params project_id step_name)))
  = pipeline_steps (db st).
Proof.
  unfold submit_job.
  destruct (validate TOOLS tool_name params) as [tool_spec|e]; [| reflexivity].
  destruct (build_command _ _ _ _) as [[cmd outs]|e]; [| reflexivity].
  destruct (negb (forallb is_str cmd)); [reflexivity |].
  destruct spawn as [proc|]; [| reflexivity].
  destruct (insert_job _ _ _ _ _ _ _ _ _ _ _ _ _) as [d1|e] eqn:E; [| reflexivity].
  unfold insert_job in E. simpl in E.
  destruct (get_job _ _); [discriminate |].
  destruct (match project_id with Some p => _ | None => _ end); [| discriminate].
  inversion E; subst d1. simpl. now case_bool_decide.
Qed.

Lemma cancel_job_keeps_steps
    (kill : Z -> kill_outcome) (now : string) (st : State) (job_id : string) :
  pipeline_steps (db (snd (cancel_job kill now st job_id)))
  = pipeline_steps (db st).
Proof.
  unfold cancel_job.
  destruct (get_job (db st) job_id) as [job|]; [| reflexivity].
  destruct (Job.pid job) as [pid|]; [| reflexivity].
  destruct (pid =? 0)%Z; [reflexivity |].
  now destruct (kill pid).
Qed.

(** C3. What the code does, against the claim: neither [submit_job] nor
    [cancel_job] writes a pipeline step record.  The step of the submitted
    job stays [pending] without linked job while the job is [running],
    and stays so when the job becomes [cancelled]; only the monitor's tick
    updates it. *)
Theorem step_record_follows_monitor_only :
  (forall (cfg : Config) (TOOLS : gmap string ToolSpec.t) (uuid now : string)
          (spawn : option Popen) (st : State) (tool_name : string)
          (params : gmap string pyval) (project_id step_name : option string),
      pipeline_steps (db (snd (submit_job cfg TOOLS uuid now spawn st tool_name
                                 params project_id step_name)))
      = pipeline_steps (db st))
  /\ (forall (kill : Z -> kill_outcome) (now : string) (st : State)
             (job_id : string),
        pipeline_steps (db (snd (cancel_job kill now st job_id)))
        = pipeline_steps (db st))
  /\ fst submitted = Ok job1
  /\ status_at (snd submitted) job1 = Some running
  /\ step_view (snd submitted) "3f2a9c1e" "remove_chimera" = Some (pending, None)
  /\ status_at (snd after_cancel) job1 = Some cancelled
  /\ step_view (snd after_cancel) "3f2a9c1e" "remove_chimera" = Some (pending, None)
  /\ step_view (poll_tick (fun _ => Some 0%Z) only_fasta
                  "2024-05-01T10:07:31.000500" (snd submitted))
       "3f2a9c1e" "remove_chimera"
     = Some (completed, Some job1).
Proof.
  split; [exact submit_job_keeps_steps |].
  split; [exact cancel_job_keeps_steps |].
  repeat split; vm_compute; reflexivity.
Qed.

(** ** Sorting *)

Lemma insert_by_perm {A : Type} (le : A -> A -> bool) (x : A) (l : list A) :
  insert_by le x l ≡ₚ x :: l.
Proof.
  induction l as [|y l IH]; simpl; [reflexivity |].
  destruct (le x y); [reflexivity |].
  rewrite IH. apply Permutation_swap.
Qed.

Lemma sort_by_perm {A : Type} (le : A -> A -> bool) (l : list A) :
  sort_by le l ≡ₚ l.
Proof.
  induction l as [|x l IH]; simpl; [reflexivity |].
  rewrite insert_by_perm. now rewrite IH.
Qed.

Lemma elem_of_sort_by {A : Type} (le : A -> A -> bool) (l : list A) (x : A) :
  x ∈ sort_by le l <-> x ∈ l.
Proof. now rewrite sort_by_perm. Qed.

(** ** The resolver on a project without usable output *)


Lemma status_eqb_completed (s : Status) :
  status_eqb s completed = true -> s = completed.
Proof. now destruct s. Qed.



(** ** Effective parameter values *)

Lemma merge_step_other (tool_spec : ToolSpec.t) (params m : gmap string pyval)
    (q : ParamSpec.t) (n : string) :
  ParamSpec.python_name q <> n ->
  merge_step tool_spec params m q !! n = m !! n.
Proof.
  intros Hne. unfold merge_step.
  destruct (_ =? _); [reflexivity |].
  destruct (params !! _).
  - now rewrite lookup_insert_ne.
  - destruct (_ && _); [now rewrite lookup_insert_ne | reflexivity].
Qed.

Lemma merge_loop_other (tool_spec : ToolSpec.t) (params : gmap string pyval)
    (l : list ParamSpec.t) (m : gmap string pyval) (n : string) :
  n ∉ map ParamSpec.python_name l ->
  foldl (merge_step tool_spec params) m l !! n = m !! n.
Proof.
  revert m. induction l as [|q l IH]; intros m Hn; [reflexivity |].
  simpl in *. apply not_elem_of_cons in Hn as [Hq Hl].
  rewrite IH by assumption. now apply merge_step_other.
Qed.

Lemma merge_step_self (tool_spec : ToolSpec.t) (params m : gmap string pyval)
    (p : ParamSpec.t) :
  ParamSpec.python_name p <> ToolSpec.subparser_param tool_spec ->
  merge_step tool_spec params m p !! ParamSpec.python_name p
  = match supplied_or_default p params with
    | Some v => Some v
    | None => m !! ParamSpec.python_name p
    end.
Proof.
  intros Hne. unfold merge_step, supplied_or_default.
  apply String.eqb_neq in Hne. rewrite Hne.
  destruct (params !! _).
  - now rewrite lookup_insert_eq.
  - destruct (_ && _); [now rewrite lookup_insert_eq | reflexivity].
Qed.

Lemma merge_loop_self (tool_spec : ToolSpec.t) (params : gmap string pyval)
    (l : list ParamSpec.t) (m : gmap string pyval) (p : ParamSpec.t) :
  NoDup (map ParamSpec.python_name l) ->
  p ∈ l ->
  ParamSpec.python_name p <> ToolSpec.subparser_param tool_spec ->
  foldl (merge_step tool_spec params) m l !! ParamSpec.python_name p
  = match supplied_or_default p params with
    | Some v => Some v
    | None => m !! ParamSpec.python_name p
    end.
Proof.
  revert m. induction l as [|q l IH]; intros m Hnd Hin Hne.
  - inversion Hin.
  - simpl in *. apply NoDup_cons in Hnd as [Hq Hnd].
    apply elem_of_cons in Hin as [->|Hin].
    + rewrite merge_loop_other by assumption. now apply merge_step_self.
    + rewrite IH by assumption.
      destruct (supplied_or_default p params); [reflexivity |].
      apply merge_step_other. intros E. apply Hq. rewrite E.
      now apply list_elem_of_fmap_2.
Qed.

Lemma resolve_step_Ok (job_dir : string) (m m' : gmap string pyval)
    (o o' : gmap string string) (q : ParamSpec.t) :
  resolve_step job_dir (m, o) q = Ok (m', o') ->
  (forall n, n <> ParamSpec.python_name q -> m' !! n = m !! n)
  /\ m' !! ParamSpec.python_name q
     = (if ParamSpec.is_output_file q
        then option_map (rewrite_output job_dir) (m !! ParamSpec.python_name q)
        else m !! ParamSpec.python_name q)
  /\ (forall k,
        (ParamSpec.is_output_file q = true -> ParamSpec.output_key q <> Some k) ->
        o' !! k = o !! k)
  /\ (forall s k,
        ParamSpec.is_output_file q = true ->
        m' !! ParamSpec.python_name q = Some (PStr s) ->
        s <> "" ->
        ParamSpec.output_key q = Some k ->
        k <> "" ->
        o' !! k = Some s).
Proof.
  unfold resolve_step. intros H.
  destruct (ParamSpec.is_output_file q) eqn:Hout; simpl in H.
  2:{ inversion H; subst. repeat split; try reflexivity. discriminate. }
  destruct (m !! ParamSpec.python_name q) as [val|] eqn:Hval.
  2:{ inversion H; subst. repeat split; try reflexivity.
      - now rewrite Hval.
      - intros s k _ Hs. rewrite Hval in Hs. discriminate. }
  destruct (truthy val) eqn:Ht.
  2:{ inversion H; subst. repeat split; try reflexivity.
      - rewrite Hval. simpl. f_equal. destruct val; try reflexivity.
        simpl in Ht. unfold rewrite_output, truthy_str. now rewrite Ht.
      - intros s k _ Hs Hne. rewrite Hval in Hs. inversion Hs; subst val.
        simpl in Ht. apply negb_false_iff, String.eqb_eq in Ht. contradiction. }
  destruct val as [| | | |s|]; try discriminate.
  assert (Hrw : rewrite_output job_dir (PStr s)
                = PStr (if isabs_str s then s else os_path_join job_dir s)).
  { unfold rewrite_output, truthy_str. simpl in Ht. rewrite Ht.
    now destruct (isabs_str s). }
  assert (Hm : forall mm oo,
             Ok ((if isabs_str s then m
                  else <[ParamSpec.python_name q :=
                           PStr (if isabs_str s then s else os_path_join job_dir s)]> m),
                 oo) = Ok (mm, o') ->
             (forall n, n <> ParamSpec.python_name q -> mm !! n = m !! n)
             /\ mm !! ParamSpec.python_name q
                = Some (PStr (if isabs_str s then s else os_path_join job_dir s))
             /\ oo = o').
  { intros mm oo E. inversion E; subst. repeat split.
    - intros n Hn. destruct (isabs_str s); [reflexivity |].
      now rewrite lookup_insert_ne.
    - destruct (isabs_str s); [exact Hval | now rewrite lookup_insert_eq]. }
  destruct (ParamSpec.output_key q) as [k0|] eqn:Hk.
  - destruct (truthy_str k0) eqn:Htk.
    + destruct (Hm _ _ H) as (H1 & H2 & H3). subst o'.
      repeat split; try assumption.
      * rewrite H2. cbn [option_map]. now rewrite Hrw.
      * intros k Hne. rewrite lookup_insert_ne; [reflexivity |].
        intros ->. now apply Hne.
      * intros s' k _ Hs _ Hk' _. inversion Hk'; subst k0.
        rewrite H2 in Hs. inversion Hs; subst s'. now rewrite lookup_insert_eq.
    + destruct (Hm _ _ H) as (H1 & H2 & H3). subst o'.
      repeat split; try assumption; try reflexivity.
      * rewrite H2. cbn [option_map]. now rewrite Hrw.
      * intros s' k _ _ _ Hk' Hne. inversion Hk'; subst k0.
        unfold truthy_str in Htk. apply negb_false_iff, String.eqb_eq in Htk.
        contradiction.
  - destruct (Hm _ _ H) as (H1 & H2 & H3). subst o'.
    repeat split; try assumption; try reflexivity.
    + rewrite H2. cbn [option_map]. now rewrite Hrw.
    + discriminate.
Qed.

Lemma foldM_cons {A S : Type} (body : S -> A -> result S) (x : A)
    (l : list A) (s : S) :
  foldM body (x :: l) s = bind (body s x) (fun s' => foldM body l s').
Proof. reflexivity. Qed.

Lemma foldM_cons_Ok {A S : Type} (body : S -> A -> result S) (x : A)
    (l : list A) (s s' : S) :
  foldM body (x :: l) s = Ok s' ->
  exists s1, body s x = Ok s1 /\ foldM body l s1 = Ok s'.
Proof.
  simpl. destruct (body s x) as [s1|e]; simpl; [| discriminate].
  intros H. now exists s1.
Qed.

Lemma resolve_loop_other (job_dir : string) (l : list ParamSpec.t)
    (st st' : gmap string pyval * gmap string string) (n : string) :
  foldM (resolve_step job_dir) l st = Ok st' ->
  n ∉ map ParamSpec.python_name l ->
  fst st' !! n = fst st !! n.
Proof.
  revert st. induction l as [|q l IH]; intros st H Hn.
  - simpl in H. now inversion H.
  - apply foldM_cons_Ok in H as (s1 & H1 & H2).
    simpl in Hn. apply not_elem_of_cons in Hn as [Hq Hl].
    rewrite (IH s1 H2 Hl).
    destruct st as [m o], s1 as [m1 o1].
    apply resolve_step_Ok in H1 as (Ho & _). now apply Ho.
Qed.

Lemma resolve_loop_outs_other (job_dir : string) (l : list ParamSpec.t)
    (st st' : gmap string pyval * gmap string string) (k : string) :
  foldM (resolve_step job_dir) l st = Ok st' ->
  (forall q, q ∈ l -> ParamSpec.is_output_file q = true ->
             ParamSpec.output_key q <> Some k) ->
  snd st' !! k = snd st !! k.
Proof.
  revert st. induction l as [|q l IH]; intros st H Hk.
  - simpl in H. now inversion H.
  - apply foldM_cons_Ok in H as (s1 & H1 & H2).
    rewrite (IH s1 H2) by (intros q' Hq'; apply Hk; now right).
    destruct st as [m o], s1 as [m1 o1].
    apply resolve_step_Ok in H1 as (_ & _ & Ho & _).
    apply Ho. apply Hk. left.
Qed.

Lemma resolve_loop_self (job_dir : string) (l : list ParamSpec.t)
    (st st' : gmap string pyval * gmap string string) (p : ParamSpec.t) :
  foldM (resolve_step job_dir) l st = Ok st' ->
  NoDup (map ParamSpec.python_name l) ->
  p ∈ l ->
  fst st' !! ParamSpec.python_name p
  = (if ParamSpec.is_output_file p
     then option_map (rewrite_output job_dir) (fst st !! ParamSpec.python_name p)
     else fst st !! ParamSpec.python_name p)
  /\ (forall s k,
        ParamSpec.is_output_file p = true ->
        fst st' !! ParamSpec.python_name p = Some (PStr s) ->
        s <> "" ->
        ParamSpec.output_key p = Some k ->
        k <> "" ->
        (forall q, q ∈ l -> q <> p -> ParamSpec.is_output_file q = true ->
                   ParamSpec.output_key q <> Some k) ->
        snd st' !! k = Some s).
Proof.
  revert st. induction l as [|q l IH]; intros st H Hnd Hin.
  - inversion Hin.
  - apply foldM_cons_Ok in H as (s1 & H1 & H2).
    simpl in Hnd. apply NoDup_cons in Hnd as [Hq Hnd].
    destruct (decide (ParamSpec.python_name q = ParamSpec.python_name p))
      as [Hname|Hname].
    + assert (q = p) as ->.
      { apply elem_of_cons in Hin as [->|Hin]; [reflexivity |].
        exfalso. apply Hq. rewrite Hname. now apply list_elem_of_fmap_2. }
      pose proof (resolve_loop_other job_dir l s1 st' _ H2 Hq) as Hsame.
      destruct st as [m o], s1 as [m1 o1].
      apply resolve_step_Ok in H1 as (_ & Hself & _ & Hrec).
      simpl in *. rewrite Hsame. split; [exact Hself |].
      intros s k Hout Hs Hne Hk Hkne Huniq.
      rewrite (resolve_loop_outs_other job_dir l (m1, o1) st' k H2).
      * simpl. apply Hrec; try assumption; now rewrite <- Hsame.
      * intros q' Hq' Hout'. apply Huniq; [now right | | assumption].
        intros ->. apply Hq. now apply list_elem_of_fmap_2.
    + apply elem_of_cons in Hin as [->|Hin]; [contradiction |].
      destruct (IH s1 H2 Hnd Hin) as [IH1 IH2].
      destruct st as [m o], s1 as [m1 o1].
      apply resolve_step_Ok in H1 as (Hoth & _).
      simpl in *. split; [rewrite IH1, Hoth by congruence; reflexivity |].
      intros s k Hout Hs Hne Hk Hkne Huniq.
      apply IH2; try assumption.
      intros q' Hq'. apply Huniq. now right.
Qed.

Lemma declares_elem (tool_spec : ToolSpec.t) (p : ParamSpec.t) :
  p ∈ ToolSpec.params tool_spec ->
  declares tool_spec (ParamSpec.python_name p) = true.
Proof.
  intros Hin. unfold declares. apply existsb_exists. exists p. split.
  - now apply list_elem_of_In.
  - apply String.eqb_refl.
Qed.

Lemma prefix_cons (c d : ascii) (s1 s2 : string) :
  String.prefix (String c s1) (String d s2)
  = if ascii_dec c d then String.prefix s1 s2 else false.
Proof. reflexivity. Qed.

Lemma isabs_str_inv (s : string) :
  isabs_str s = true -> exists s', s = String "/" s'.
Proof.
  unfold isabs_str. destruct s as [|c s]; [discriminate |].
  rewrite prefix_cons.
  destruct (ascii_dec "/" c) as [<-|]; [| discriminate].
  intros _. now exists s.
Qed.

Lemma prefix_nil (s : string) : String.prefix "" s = true.
Proof. now destruct s. Qed.

Lemma isabs_str_append (a b : string) :
  isabs_str a = true -> isabs_str (a +:+ b) = true.
Proof.
  intros H. apply isabs_str_inv in H as [a' ->].
  unfold isabs_str. rewrite append_cons, prefix_cons.
  destruct (ascii_dec "/" "/"); [apply prefix_nil | contradiction].
Qed.

Lemma os_path_join_abs (job_dir s : string) :
  isabs_str job_dir = true -> isabs_str (os_path_join job_dir s) = true.
Proof.
  intros H. unfold os_path_join.
  destruct (String.prefix "/" s) eqn:E; [exact E |].
  destruct (_ || _); now apply isabs_str_append.
Qed.



Lemma merged_params_lookup (tool_spec : ToolSpec.t) (params : gmap string pyval)
    (job_dir : string) (merged : gmap string pyval) (outs : gmap string string)
    (p : ParamSpec.t) :
  merged_params tool_spec params job_dir = Ok (merged, outs) ->
  NoDup (map ParamSpec.python_name (ToolSpec.params tool_spec)) ->
  p ∈ ToolSpec.params tool_spec ->
  ParamSpec.python_name p <> ToolSpec.subparser_param tool_spec ->
  exists st1 : gmap string pyval * gmap string string,
    foldM (resolve_step job_dir) (ToolSpec.params tool_spec)
      (foldl (merge_step tool_spec params) ∅ (ToolSpec.params tool_spec), ∅)
    = Ok st1
    /\ outs = snd st1
    /\ fst st1 !! ParamSpec.python_name p
       = (if ParamSpec.is_output_file p
          then option_map (rewrite_output job_dir) (supplied_or_default p params)
          else supplied_or_default p params)
    /\ merged !! ParamSpec.python_name p
       = match fst st1 !! ParamSpec.python_name p with
         | Some v => Some v
         | None =>
             if ParamSpec.python_name p =? "nb_cpus"
             then Some (PInt DEFAULT_NB_CPUS) else None
         end.
Proof.
  intros H Hnd Hin Hne. unfold merged_params in H.
  destruct (foldM _ _ _) as [st1|e] eqn:E; simpl in H; [| discriminate].
  inversion H; subst. exists st1. split; [reflexivity |]. split; [reflexivity |].
  destruct (resolve_loop_self job_dir _ _ st1 p E Hnd Hin) as [Hself _].
  simpl in Hself.
  rewrite (merge_loop_self tool_spec params _ ∅ p Hnd Hin Hne) in Hself.
  rewrite lookup_empty in Hself.
  assert (Hsd : match supplied_or_default p params with
                | Some v => Some v
                | None => None
                end = supplied_or_default p params)
    by now destruct (supplied_or_default p params).
  rewrite Hsd in Hself. split; [exact Hself |].
  unfold nb_cpus_default.
  destruct (String.eqb_spec (ParamSpec.python_name p) "nb_cpus") as [Hn|Hn].
  - rewrite <- Hn, (declares_elem tool_spec p Hin).
    destruct (fst st1 !! ParamSpec.python_name p) as [v|] eqn:Ev.
    + exact Ev.
    + now rewrite lookup_insert_eq.
  - destruct (declares tool_spec "nb_cpus").
    + destruct (fst st1 !! "nb_cpus").
      * now destruct (fst st1 !! ParamSpec.python_name p).
      * rewrite lookup_insert_ne by congruence.
        now destruct (fst st1 !! ParamSpec.python_name p).
    + now destruct (fst st1 !! ParamSpec.python_name p).
Qed.


Lemma same_name_same_param (l : list ParamSpec.t) (p q : ParamSpec.t) :
  NoDup (map ParamSpec.python_name l) ->
  p ∈ l -> q ∈ l ->
  ParamSpec.python_name q = ParamSpec.python_name p ->
  q = p.
Proof.
  induction l as [|x l IH]; intros Hnd Hp Hq E; [inversion Hp |].
  simpl in Hnd. apply NoDup_cons in Hnd as [Hx Hnd].
  apply elem_of_cons in Hp as [->|Hp], Hq as [->|Hq].
  - reflexivity.
  - exfalso. apply Hx. rewrite <- E. now apply list_elem_of_fmap_2.
  - exfalso. apply Hx. rewrite E. now apply list_elem_of_fmap_2.
  - now apply IH.
Qed.







(** ** Two values of one parameter that yield the same tokens *)

Section SameTokens.

Variables (tool_spec : ToolSpec.t) (n : string) (v1 v2 : pyval).

Hypothesis v1_not_None : is_None v1 = false.
Hypothesis v2_not_None : is_None v2 = false.
Hypothesis same_tokens :
  forall q, q ∈ ToolSpec.params tool_spec -> ParamSpec.python_name q = n ->
            flag_tokens q v1 = flag_tokens q v2.
Hypothesis not_output :
  forall q, q ∈ ToolSpec.params tool_spec -> ParamSpec.python_name q = n ->
            ParamSpec.is_output_file q = false.

Lemma alike_refl (m : gmap string pyval) : alike n v1 v2 m m.
Proof. split; auto. Qed.

Lemma alike_lookup (m1 m2 : gmap string pyval) (k : string) :
  alike n v1 v2 m1 m2 -> k <> n -> m1 !! k = m2 !! k.
Proof. intros [H _]. apply H. Qed.

Lemma alike_insert_ne (m1 m2 : gmap string pyval) (k : string) (x : pyval) :
  alike n v1 v2 m1 m2 -> k <> n -> alike n v1 v2 (<[k := x]> m1) (<[k := x]> m2).
Proof.
  intros [H1 H2] Hk. split.
  - intros k' Hk'. destruct (decide (k = k')) as [->|Hne].
    + now rewrite !lookup_insert_eq.
    + rewrite !lookup_insert_ne by assumption. now apply H1.
  - now rewrite !lookup_insert_ne by assumption.
Qed.

Lemma alike_insert_same (m1 m2 : gmap string pyval) (x : pyval) :
  alike n v1 v2 m1 m2 -> alike n v1 v2 (<[n := x]> m1) (<[n := x]> m2).
Proof.
  intros [H1 _]. split.
  - intros k Hk. rewrite !lookup_insert_ne by congruence. now apply H1.
  - left. now rewrite !lookup_insert_eq.
Qed.

Lemma alike_insert_values (m1 m2 : gmap string pyval) :
  alike n v1 v2 m1 m2 -> alike n v1 v2 (<[n := v1]> m1) (<[n := v2]> m2).
Proof.
  intros [H1 _]. split.
  - intros k Hk. rewrite !lookup_insert_ne by congruence. now apply H1.
  - right. now rewrite !lookup_insert_eq.
Qed.

Lemma alike_merge_step (params m1 m2 : gmap string pyval) (q : ParamSpec.t) :
  alike n v1 v2 m1 m2 ->
  alike n v1 v2 (merge_step tool_spec (<[n := v1]> params) m1 q)
        (merge_step tool_spec (<[n := v2]> params) m2 q).
Proof.
  intros H. unfold merge_step.
  destruct (_ =? _); [exact H |].
  destruct (decide (ParamSpec.python_name q = n)) as [->|Hne].
  - rewrite !lookup_insert_eq. now apply alike_insert_values.
  - rewrite !lookup_insert_ne by congruence.
    destruct (params !! _); [now apply alike_insert_ne |].
    destruct (_ && _); [now apply alike_insert_ne | exact H].
Qed.

Lemma alike_merge_loop (params : gmap string pyval) (l : list ParamSpec.t)
    (m1 m2 : gmap string pyval) :
  alike n v1 v2 m1 m2 ->
  alike n v1 v2 (foldl (merge_step tool_spec (<[n := v1]> params)) m1 l)
        (foldl (merge_step tool_spec (<[n := v2]> params)) m2 l).
Proof.
  revert m1 m2. induction l as [|q l IH]; intros m1 m2 H; [exact H |].
  simpl. apply IH. now apply alike_merge_step.
Qed.

Lemma alike_resolve_step (job_dir : string) (m1 m2 : gmap string pyval)
    (o : gmap string string) (q : ParamSpec.t) :
  alike n v1 v2 m1 m2 ->
  (ParamSpec.python_name q = n -> ParamSpec.is_output_file q = false) ->
  alike_result n v1 v2 (resolve_step job_dir (m1, o) q) (resolve_step job_dir (m2, o) q).
Proof.
  intros H Hq. unfold resolve_step.
  destruct (ParamSpec.is_output_file q) eqn:Hout; simpl; [| now split].
  assert (Hne : ParamSpec.python_name q <> n).
  { intros E. apply Hq in E. congruence. }
  rewrite <- (alike_lookup m1 m2 _ H Hne).
  destruct (m1 !! ParamSpec.python_name q) as [val|]; [| now split].
  destruct (truthy val); [| now split].
  destruct val; try reflexivity.
  assert (Hm : alike n v1 v2 (if isabs_str s then m1
                      else <[ParamSpec.python_name q :=
                               PStr (if isabs_str s then s
                                     else os_path_join job_dir s)]> m1)
                     (if isabs_str s then m2
                      else <[ParamSpec.python_name q :=
                               PStr (if isabs_str s then s
                                     else os_path_join job_dir s)]> m2)).
  { destruct (isabs_str s); [exact H | now apply alike_insert_ne]. }
  destruct (ParamSpec.output_key q) as [k|]; [| now split].
  destruct (truthy_str k); now split.
Qed.

Lemma alike_resolve_loop (job_dir : string) (l : list ParamSpec.t)
    (m1 m2 : gmap string pyval) (o : gmap string string) :
  alike n v1 v2 m1 m2 ->
  (forall q, q ∈ l -> ParamSpec.python_name q = n ->
             ParamSpec.is_output_file q = false) ->
  alike_result n v1 v2 (foldM (resolve_step job_dir) l (m1, o))
               (foldM (resolve_step job_dir) l (m2, o)).
Proof.
  revert m1 m2 o. induction l as [|q l IH]; intros m1 m2 o H Hl.
  - now split.
  - rewrite !foldM_cons.
    pose proof (alike_resolve_step job_dir m1 m2 o q H (Hl q ltac:(left))) as Hs.
    destruct (resolve_step job_dir (m1, o) q) as [[a1 o1]|e1],
             (resolve_step job_dir (m2, o) q) as [[a2 o2]|e2];
      unfold bind; simpl in Hs; try contradiction; [| exact Hs].
    destruct Hs as [Ha ->]. apply IH; [exact Ha |].
    intros q' Hq'. apply Hl. now right.
Qed.

Lemma alike_nb_cpus_default (m1 m2 : gmap string pyval) :
  alike n v1 v2 m1 m2 ->
  alike n v1 v2 (nb_cpus_default tool_spec m1) (nb_cpus_default tool_spec m2).
Proof.
  intros H. unfold nb_cpus_default.
  destruct (declares tool_spec "nb_cpus"); [| exact H].
  destruct (decide ("nb_cpus" = n)) as [E|E].
  - destruct H as [H1 [H2|[H2 H3]]].
    + rewrite E, H2. destruct (m2 !! n) eqn:E2.
      * split; auto. left. congruence.
      * apply alike_insert_same. split; auto. left. congruence.
    + rewrite E, H2, H3. split; auto.
  - rewrite (alike_lookup m1 m2 _ H E).
    destruct (m2 !! "nb_cpus"); [exact H | now apply alike_insert_ne].
Qed.

Lemma alike_flag_step (m1 m2 : gmap string pyval) (cmd : list pyval)
    (q : ParamSpec.t) :
  alike n v1 v2 m1 m2 ->
  q ∈ ToolSpec.params tool_spec ->
  flag_step tool_spec m1 cmd q = flag_step tool_spec m2 cmd q.
Proof.
  intros H Hq. unfold flag_step.
  destruct (_ =? _); [reflexivity |].
  destruct (negb _); [reflexivity |].
  destruct (decide (ParamSpec.python_name q = n)) as [E|E].
  - rewrite E. destruct H as [_ [H|[H1 H2]]].
    + now rewrite H.
    + rewrite H1, H2, (same_tokens q Hq E).
      destruct v1, v2; try discriminate; reflexivity.
  - now rewrite (alike_lookup m1 m2 _ H E).
Qed.

Lemma alike_flag_loop (m1 m2 : gmap string pyval) (l : list ParamSpec.t)
    (cmd : list pyval) :
  alike n v1 v2 m1 m2 ->
  (forall q, q ∈ l -> q ∈ ToolSpec.params tool_spec) ->
  foldl (flag_step tool_spec m1) cmd l = foldl (flag_step tool_spec m2) cmd l.
Proof.
  intros H. revert cmd. induction l as [|q l IH]; intros cmd Hl; [reflexivity |].
  simpl. rewrite (alike_flag_step m1 m2 cmd q H) by (apply Hl; left).
  apply IH. intros q' Hq'. apply Hl. now right.
Qed.

Lemma command_tail_alike (params : gmap string pyval) (job_dir : string)
    (cmd : list pyval) :
  bind (merged_params tool_spec (<[n := v1]> params) job_dir)
       (fun st => Ok (foldl (flag_step tool_spec (fst st)) cmd
                        (ToolSpec.params tool_spec), snd st))
  = bind (merged_params tool_spec (<[n := v2]> params) job_dir)
         (fun st => Ok (foldl (flag_step tool_spec (fst st)) cmd
                          (ToolSpec.params tool_spec), snd st)).
Proof.
  unfold merged_params.
  pose proof (alike_resolve_loop job_dir (ToolSpec.params tool_spec) _ _ ∅
                (alike_merge_loop params (ToolSpec.params tool_spec) ∅ ∅
                   (alike_refl ∅))
                not_output) as Hr.
  destruct (foldM (resolve_step job_dir) (ToolSpec.params tool_spec)
              (foldl (merge_step tool_spec (<[n := v1]> params)) ∅
                 (ToolSpec.params tool_spec), ∅)) as [[a1 o1]|e1],
           (foldM (resolve_step job_dir) (ToolSpec.params tool_spec)
              (foldl (merge_step tool_spec (<[n := v2]> params)) ∅
                 (ToolSpec.params tool_spec), ∅)) as [[a2 o2]|e2];
    unfold bind; simpl in Hr; try contradiction; [| now rewrite Hr].
  destruct Hr as [Ha ->]. cbn [fst snd]. f_equal. f_equal.
  apply alike_flag_loop; [now apply alike_nb_cpus_default | auto].
Qed.

Lemma build_command_alike (cfg : Config) (params : gmap string pyval)
    (job_dir : string) :
  (ToolSpec.has_subparser tool_spec = true ->
   ToolSpec.subparser_param tool_spec <> n) ->
  build_command cfg tool_spec (<[n := v1]> params) job_dir
  = build_command cfg tool_spec (<[n := v2]> params) job_dir.
Proof.
  intros Hsub. unfold build_command. cbv zeta.
  destruct (ToolSpec.has_subparser tool_spec) eqn:Hs.
  - rewrite !lookup_insert_ne by (apply not_eq_sym; now apply Hsub).
    destruct (negb (truthy _)); [reflexivity |].
    unfold bind at 1 3. apply command_tail_alike.
  - unfold bind at 1 3. apply command_tail_alike.
Qed.

End SameTokens.

(** ** The tokens of one parameter within the built command *)

Lemma flag_step_app (tool_spec : ToolSpec.t) (merged : gmap string pyval)
    (cmd : list pyval) (q : ParamSpec.t) :
  flag_step tool_spec merged cmd q
  = (cmd ++ flag_step tool_spec merged [] q)%list.
Proof.
  unfold flag_step.
  destruct (_ =? _); [now rewrite app_nil_r |].
  destruct (negb _); [now rewrite app_nil_r |].
  destruct (merged !! _) as [v|]; [| now rewrite app_nil_r].
  destruct v; try reflexivity. now rewrite app_nil_r.
Qed.

Lemma flag_loop_concat (tool_spec : ToolSpec.t) (merged : gmap string pyval)
    (l : list ParamSpec.t) (cmd : list pyval) :
  foldl (flag_step tool_spec merged) cmd l
  = (cmd ++ concat (map (flag_step tool_spec merged []) l))%list.
Proof.
  revert cmd. induction l as [|q l IH]; intros cmd; cbn [foldl map concat].
  - now rewrite app_nil_r.
  - rewrite IH, (flag_step_app tool_spec merged cmd q). now rewrite <- app_assoc.
Qed.

Lemma flag_step_agree (tool_spec : ToolSpec.t) (m1 m2 : gmap string pyval)
    (q : ParamSpec.t) :
  m1 !! ParamSpec.python_name q = m2 !! ParamSpec.python_name q ->
  flag_step tool_spec m1 [] q = flag_step tool_spec m2 [] q.
Proof. intros H. unfold flag_step. now rewrite H. Qed.

Lemma flag_step_supplied (tool_spec : ToolSpec.t) (merged : gmap string pyval)
    (q : ParamSpec.t) (v : pyval) :
  ParamSpec.python_name q <> ToolSpec.subparser_param tool_spec ->
  ParamSpec.cli_flag q <> "" ->
  merged !! ParamSpec.python_name q = Some v ->
  is_None v = false ->
  flag_step tool_spec merged [] q = flag_tokens q v.
Proof.
  intros Hsub Hflag Hv Hn. unfold flag_step.
  apply String.eqb_neq in Hsub, Hflag. rewrite Hsub.
  unfold truthy_str. rewrite Hflag. cbn [negb]. rewrite Hv.
  now destruct v.
Qed.

Lemma merged_params_alike (tool_spec : ToolSpec.t) (n : string) (v1 v2 : pyval)
    (params : gmap string pyval) (job_dir : string) :
  (forall q, q ∈ ToolSpec.params tool_spec -> ParamSpec.python_name q = n ->
             ParamSpec.is_output_file q = false) ->
  alike_result n v1 v2 (merged_params tool_spec (<[n := v1]> params) job_dir)
    (merged_params tool_spec (<[n := v2]> params) job_dir).
Proof.
  intros Hout. unfold merged_params.
  pose proof (alike_resolve_loop n v1 v2 job_dir
                (ToolSpec.params tool_spec) _ _ ∅
                (alike_merge_loop tool_spec n v1 v2 params
                   (ToolSpec.params tool_spec) ∅ ∅ (alike_refl n v1 v2 ∅))
                Hout) as Hr.
  destruct (foldM (resolve_step job_dir) (ToolSpec.params tool_spec)
              (foldl (merge_step tool_spec (<[n := v1]> params)) ∅
                 (ToolSpec.params tool_spec), ∅)) as [[a1 o1]|e1],
           (foldM (resolve_step job_dir) (ToolSpec.params tool_spec)
              (foldl (merge_step tool_spec (<[n := v2]> params)) ∅
                 (ToolSpec.params tool_spec), ∅)) as [[a2 o2]|e2];
    unfold bind; cbn [alike_result fst snd] in *; try contradiction;
    [| exact Hr].
  destruct Hr as [Ha ->]. split; [| reflexivity].
  now apply alike_nb_cpus_default.
Qed.

Lemma names_apart (l1 l2 : list ParamSpec.t) (p q : ParamSpec.t) :
  NoDup (map ParamSpec.python_name (l1 ++ p :: l2)) ->
  q ∈ l1 \/ q ∈ l2 ->
  ParamSpec.python_name q <> ParamSpec.python_name p.
Proof.
  rewrite map_app. cbn [map]. intros Hnd Hq E.
  apply NoDup_app in Hnd as (_ & Hx & Hnd2).
  apply NoDup_cons in Hnd2 as [Hp _].
  destruct Hq as [Hq|Hq].
  - apply (Hx (ParamSpec.python_name q)).
    + now apply list_elem_of_fmap_2.
    + rewrite E. apply list_elem_of_here.
  - apply Hp. rewrite <- E. now apply list_elem_of_fmap_2.
Qed.

(** The command built with a value [v] for a list parameter, against the
    command built with the empty list for it. *)
Lemma build_command_list_value
    (cfg : Config) (tool_spec : ToolSpec.t) (params : gmap string pyval)
    (job_dir : string) (p : ParamSpec.t)
    (cmd0 : list pyval) (outs : gmap string string) :
  p ∈ ToolSpec.params tool_spec ->
  NoDup (map ParamSpec.python_name (ToolSpec.params tool_spec)) ->
  ParamSpec.type p = "list" ->
  ParamSpec.is_output_file p = false ->
  ParamSpec.python_name p <> ToolSpec.subparser_param tool_spec ->
  ParamSpec.cli_flag p <> "" ->
  build_command cfg tool_spec (<[ParamSpec.python_name p := PList []]> params)
    job_dir = Ok (cmd0, outs) ->
  exists head tail,
    cmd0 = (head ++ tail)%list
    /\ forall v',
         is_None v' = false ->
         build_command cfg tool_spec (<[ParamSpec.python_name p := v']> params)
           job_dir
         = Ok (head ++ flag_tokens p v' ++ tail, outs)%list.
Proof.
  intros Hin Hnd Hty Hout Hsub Hflag H0.
  set (n := ParamSpec.python_name p) in *.
  apply list_elem_of_split in Hin as (pre & post & Hsplit).
  assert (Hin : p ∈ ToolSpec.params tool_spec)
    by (rewrite Hsplit; apply elem_of_app; right; apply list_elem_of_here).
  assert (Hnot : forall q, q ∈ ToolSpec.params tool_spec ->
                           ParamSpec.python_name q = n ->
                           ParamSpec.is_output_file q = false).
  { intros q Hq E. now rewrite (same_name_same_param _ p q Hnd Hin Hq E). }
  unfold build_command in H0 |- *. cbv zeta in H0 |- *.
  assert (Hpos : forall w, (<[n := w]> params) !! ToolSpec.subparser_param tool_spec
                           = params !! ToolSpec.subparser_param tool_spec)
    by (intros w; now rewrite lookup_insert_ne by exact Hsub).
  rewrite Hpos in H0.
  set (pos := if ToolSpec.has_subparser tool_spec
              then
                if negb (truthy match params !! ToolSpec.subparser_param tool_spec with
                                | Some v0 => v0
                                | None => PNone
                                end)
                then Raise (ValueError (positional_argument_msg tool_spec))
                else Ok ([PStr (FROGS_PYTHON cfg); PStr (script_path cfg tool_spec)]
                         ++ [match params !! ToolSpec.subparser_param tool_spec with
                             | Some v0 => v0
                             | None => PNone
                             end])%list
              else Ok [PStr (FROGS_PYTHON cfg); PStr (script_path cfg tool_spec)])
    in *.
  destruct pos as [base|e] eqn:Epos; [| discriminate].
  unfold bind at 1 in H0.
  destruct (merged_params tool_spec (<[n := PList []]> params) job_dir)
    as [[m0 o0]|e0] eqn:E0; [| discriminate].
  unfold bind in H0. cbn [fst snd] in H0. injection H0 as <- <-.
  assert (Hm0 : m0 !! n = Some (PList [])).
  { destruct (merged_params_lookup tool_spec _ job_dir m0 o0 p E0 Hnd Hin Hsub)
      as (st1 & _ & _ & H1 & H2).
    fold n in H1, H2. rewrite Hout in H1.
    unfold supplied_or_default in H1. fold n in H1.
    rewrite lookup_insert_eq in H1. now rewrite H1 in H2. }
  assert (Hvar : forall w,
             is_None w = false ->
             exists mw,
               merged_params tool_spec (<[n := w]> params) job_dir = Ok (mw, o0)
               /\ mw !! n = Some w
               /\ forall k, k <> n -> m0 !! k = mw !! k).
  { intros w Hw.
    pose proof (merged_params_alike tool_spec n (PList []) w params job_dir Hnot)
      as Ha.
    rewrite E0 in Ha.
    destruct (merged_params tool_spec (<[n := w]> params) job_dir)
      as [[mw ow]|ew] eqn:Ew; cbn [alike_result fst snd] in Ha; [| contradiction].
    destruct Ha as [[Hk _] <-]. exists mw. split; [reflexivity |].
    split; [| exact Hk].
    destruct (merged_params_lookup tool_spec _ job_dir mw o0 p Ew Hnd Hin Hsub)
      as (st1 & _ & _ & H1 & H2).
    fold n in H1, H2. rewrite Hout in H1.
    unfold supplied_or_default in H1. fold n in H1.
    rewrite lookup_insert_eq in H1. now rewrite H1 in H2. }
  assert (Hcmd : forall w mw,
             is_None w = false ->
             mw !! n = Some w ->
             (forall k, k <> n -> m0 !! k = mw !! k) ->
             foldl (flag_step tool_spec mw) base (ToolSpec.params tool_spec)
             = ((base ++ concat (map (flag_step tool_spec m0 []) pre))
                ++ flag_tokens p w
                ++ concat (map (flag_step tool_spec m0 []) post))%list).
  { intros w mw Hw Hmw Hk. rewrite flag_loop_concat, Hsplit.
    rewrite map_app, concat_app. cbn [map concat].
    rewrite (flag_step_supplied tool_spec mw p w Hsub Hflag Hmw Hw).
    rewrite <- !app_assoc. f_equal. f_equal; [| f_equal].
    - f_equal. apply map_ext_in. intros q Hq. symmetry.
      apply flag_step_agree, Hk.
      apply (names_apart pre post p q); [now rewrite <- Hsplit |].
      left. now apply list_elem_of_In.
    - f_equal. apply map_ext_in. intros q Hq. symmetry.
      apply flag_step_agree, Hk.
      apply (names_apart pre post p q); [now rewrite <- Hsplit |].
      right. now apply list_elem_of_In. }
  exists (base ++ concat (map (flag_step tool_spec m0 []) pre))%list,
         (concat (map (flag_step tool_spec m0 []) post)).
  split.
  - rewrite (Hcmd (PList []) m0 eq_refl Hm0 (fun k _ => eq_refl)).
    unfold flag_tokens. rewrite Hty. reflexivity.
  - intros w Hw. rewrite Hpos. fold pos. rewrite Epos. unfold bind at 1.
    destruct (Hvar w Hw) as (mw & -> & Hmw & Hk). unfold bind. cbn [fst snd].
    now rewrite (Hcmd w mw Hw Hmw Hk).
Qed.

(** C9. For a list-typed parameter the list ["a","b"] and the string
    "a b" both yield the flag followed by a and b, so that, when the
    parameter is neither an output file nor the positional one, the two
    built commands are the same; an empty list, or a string without any
    word, yields no token at all.  In the built command itself: when the
    parameter has a flag, the command built with ["a","b"] or with "a b"
    is the command built with the empty list with the flag, a and b, in
    this order and next to each other, put in at one place, and the
    command built with a string without any word is the command built
    with the empty list. *)
Theorem list_parameter_tokens
    (cfg : Config) (tool_spec : ToolSpec.t) (params : gmap string pyval)
    (job_dir : string) (p : ParamSpec.t) :
  p ∈ ToolSpec.params tool_spec ->
  NoDup (map ParamSpec.python_name (ToolSpec.params tool_spec)) ->
  ParamSpec.type p = "list" ->
  (flag_tokens p (PList [PStr "a"; PStr "b"])
   = [PStr (ParamSpec.cli_flag p); PStr "a"; PStr "b"]
   /\ flag_tokens p (PStr "a b")
      = [PStr (ParamSpec.cli_flag p); PStr "a"; PStr "b"])
  /\ (flag_tokens p (PList []) = []
      /\ forall s, str_split s = [] -> flag_tokens p (PStr s) = [])
  /\ (ParamSpec.is_output_file p = false ->
      (ToolSpec.has_subparser tool_spec = true ->
       ToolSpec.subparser_param tool_spec <> ParamSpec.python_name p) ->
      build_command cfg tool_spec
        (<[ParamSpec.python_name p := PList [PStr "a"; PStr "b"]]> params) job_dir
      = build_command cfg tool_spec
          (<[ParamSpec.python_name p := PStr "a b"]> params) job_dir)
  /\ (ParamSpec.is_output_file p = false ->
      ParamSpec.python_name p <> ToolSpec.subparser_param tool_spec ->
      ParamSpec.cli_flag p <> "" ->
      forall cmd0 outs,
        build_command cfg tool_spec
          (<[ParamSpec.python_name p := PList []]> params) job_dir
        = Ok (cmd0, outs) ->
        exists head tail,
          cmd0 = (head ++ tail)%list
          /\ build_command cfg tool_spec
               (<[ParamSpec.python_name p := PList [PStr "a"; PStr "b"]]> params)
               job_dir
             = Ok ((head ++ [PStr (ParamSpec.cli_flag p); PStr "a"; PStr "b"]
                    ++ tail)%list, outs)
          /\ build_command cfg tool_spec
               (<[ParamSpec.python_name p := PStr "a b"]> params) job_dir
             = Ok ((head ++ [PStr (ParamSpec.cli_flag p); PStr "a"; PStr "b"]
                    ++ tail)%list, outs)
          /\ forall s,
               str_split s = [] ->
               build_command cfg tool_spec
                 (<[ParamSpec.python_name p := PStr s]> params) job_dir
               = Ok ((head ++ tail)%list, outs)).
Proof.
  intros Hin Hnd Hty.
  assert (Hab : flag_tokens p (PList [PStr "a"; PStr "b"])
                = [PStr (ParamSpec.cli_flag p); PStr "a"; PStr "b"]
                /\ flag_tokens p (PStr "a b")
                   = [PStr (ParamSpec.cli_flag p); PStr "a"; PStr "b"]).
  { unfold flag_tokens. rewrite Hty. split; reflexivity. }
  assert (Hnone : flag_tokens p (PList []) = []
                  /\ forall s, str_split s = [] -> flag_tokens p (PStr s) = []).
  { unfold flag_tokens. rewrite Hty. split; [reflexivity |].
    intros s Hs. simpl. now rewrite Hs. }
  split; [exact Hab |]. split; [exact Hnone |]. split.
  - intros Hout Hsub.
    apply build_command_alike; try reflexivity; try assumption.
    + intros q Hq E.
      rewrite (same_name_same_param _ p q Hnd Hin Hq E).
      destruct Hab as [-> ->]. reflexivity.
    + intros q Hq E.
      now rewrite (same_name_same_param _ p q Hnd Hin Hq E).
  - intros Hout Hsub Hflag cmd0 outs H0.
    destruct (build_command_list_value cfg tool_spec params job_dir p cmd0 outs
                Hin Hnd Hty Hout Hsub Hflag H0) as (head & tail & Hcmd0 & Hv).
    exists head, tail. split; [exact Hcmd0 |].
    destruct Hab as [Ha Hb]. destruct Hnone as [_ Hs].
    split; [| split].
    + rewrite (Hv (PList [PStr "a"; PStr "b"]) eq_refl). now rewrite Ha.
    + rewrite (Hv (PStr "a b") eq_refl). now rewrite Hb.
    + intros s Hsplit. rewrite (Hv (PStr s) eq_refl).
      now rewrite (Hs s Hsplit).
Qed.

Lemma list_parameter_tokens_witness :
  flag_tokens p_input_R1 (PStr "a b") = [PStr "--input-R1"; PStr "a"; PStr "b"]
  /\ flag_tokens p_input_R1 (PStr "   ") = []
  /\ build_command cfg_sample tool_reads_processing
       (<["input_R1" := PList [PStr "a"; PStr "b"]]> reads_params) job0_dir
     = build_command cfg_sample tool_reads_processing
         (<["input_R1" := PStr "a b"]> reads_params) job0_dir
  /\ exists head tail,
       build_command cfg_sample tool_reads_processing
         (<["input_R1" := PList []]> reads_params) job0_dir
       = Ok ((head ++ tail)%list, reads_outs)
       /\ build_command cfg_sample tool_reads_processing
            (<["input_R1" := PStr "a b"]> reads_params) job0_dir
          = Ok ((head ++ [PStr "--input-R1"; PStr "a"; PStr "b"] ++ tail)%list,
                reads_outs).
Proof.
  destruct (list_parameter_tokens cfg_sample tool_reads_processing reads_params
              job0_dir p_input_R1)
    as ((_ & Hstr) & (_ & Hnone) & Hcmd & Hplace).
  - apply list_elem_of_In. simpl. tauto.
  - apply (bool_decide_unpack _). vm_compute. reflexivity.
  - reflexivity.
  - split; [exact Hstr |]. split; [apply Hnone; reflexivity |].
    split; [apply Hcmd; [reflexivity | discriminate] |].
    destruct (Hplace eq_refl ltac:(discriminate) ltac:(discriminate)
                (match build_command cfg_sample tool_reads_processing
                         (<["input_R1" := PList []]> reads_params) job0_dir with
                 | Ok r => fst r
                 | Raise _ => []
                 end)
                reads_outs)
      as (head & tail & H0 & _ & Hb & _).
    + vm_compute. reflexivity.
    + exists head, tail. split; [| exact Hb].
      rewrite <- H0. vm_compute. reflexivity.
Defined.

(** ** Sortedness of [sort_by] *)

Section Sorted.

Context {A : Type} (le : A -> A -> bool).

Hypothesis le_total : forall x y, le x y = true \/ le y x = true.
Hypothesis le_trans : forall x y z, le x y = true -> le y z = true -> le x z = true.

Lemma insert_by_sorted (x : A) (l : list A) :
  StronglySorted (fun a b => le a b = true) l ->
  StronglySorted (fun a b => le a b = true) (insert_by le x l).
Proof.
  induction l as [|y l IH]; intros Hs; simpl.
  - constructor; constructor.
  - apply StronglySorted_inv in Hs as [Hs Hy].
    destruct (le x y) eqn:E.
    + constructor; [now constructor |].
      constructor; [exact E |].
      eapply Forall_impl; [exact Hy |]. intros z Hz. now apply (le_trans x y z).
    + constructor; [now apply IH |].
      assert (Hyx : le y x = true) by (destruct (le_total x y); congruence).
      rewrite insert_by_perm. now constructor.
Qed.

Lemma sort_by_sorted (l : list A) :
  StronglySorted (fun a b => le a b = true) (sort_by le l).
Proof.
  induction l as [|x l IH]; simpl; [constructor | now apply insert_by_sorted].
Qed.

End Sorted.

Lemma leb_trans (a b c : string) :
  String.leb a b = true -> String.leb b c = true -> String.leb a c = true.
Proof.
  intros H1 H2. apply Is_true_true.
  apply Is_true_true in H1, H2.
  exact (transitivity (R := String.le) H1 H2).
Qed.


(** ** The two indexes of the resolver *)

Lemma index_job_key (ix : gmap string string * gmap string string)
    (job : Job.t) (k : string) :
  snd (index_job ix job) !! k
  = match produces job k with
    | Some path => Some path
    | None => snd ix !! k
    end.
Proof.
  unfold index_job, produces.
  destruct (Job.output_files job) as [outs|]; [| now rewrite map_fold_empty].
  revert k.
  apply (map_fold_weak_ind
           (fun r m => forall k,
                snd r !! k
                = match match m !! k with
                        | Some path => if truthy_str path then Some path else None
                        | None => None
                        end with
                  | Some path => Some path
                  | None => snd ix !! k
                  end)).
  - intros k. now rewrite lookup_empty.
  - intros i x m r Hi IH k. unfold index_entry.
    destruct (decide (i = k)) as [->|Hne].
    + rewrite lookup_insert_eq.
      destruct (truthy_str x); simpl.
      * now rewrite lookup_insert_eq.
      * now rewrite IH, Hi.
    + rewrite lookup_insert_ne by assumption.
      destruct (truthy_str x); simpl; [rewrite lookup_insert_ne by assumption |];
        apply IH.
Qed.

Lemma full_key_inj (s : option string) (k k' : string) :
  full_key s k = full_key s k' -> k = k'.
Proof.
  unfold full_key. intros H.
  apply (inj (String.append _)) in H. now apply (inj (String.append ".")) in H.
Qed.

(** Either the job writes the fully-qualified key, and then its path is
    what the index holds afterwards, or the entry is as before. *)
Lemma index_job_full (ix : gmap string string * gmap string string)
    (job : Job.t) (fk : string) :
  (exists k path,
      fk = full_key (Job.step_name job) k
      /\ produces job k = Some path
      /\ fst (index_job ix job) !! fk = Some path)
  \/ ((forall k, fk = full_key (Job.step_name job) k -> produces job k = None)
      /\ fst (index_job ix job) !! fk = fst ix !! fk).
Proof.
  unfold index_job, produces.
  destruct (Job.output_files job) as [outs|];
    [| rewrite map_fold_empty; right; split; [reflexivity | reflexivity]].
  revert fk.
  apply (map_fold_weak_ind
           (fun r m =>
              forall fk,
                (exists k path,
                    fk = full_key (Job.step_name job) k
                    /\ match m !! k with
                       | Some path => if truthy_str path then Some path else None
                       | None => None
                       end = Some path
                    /\ fst r !! fk = Some path)
                \/ ((forall k, fk = full_key (Job.step_name job) k ->
                                match m !! k with
                                | Some path => if truthy_str path then Some path else None
                                | None => None
                                end = None)
                    /\ fst r !! fk = fst ix !! fk))).
  - intros fk. right. split; [| reflexivity]. intros k _. now rewrite lookup_empty.
  - intros i x m r Hi IH fk. unfold index_entry.
    destruct (decide (fk = full_key (Job.step_name job) i)) as [->|Hne].
    + destruct (truthy_str x) eqn:Hx; simpl.
      * left. exists i, x. rewrite !lookup_insert_eq, Hx. auto.
      * destruct (IH (full_key (Job.step_name job) i))
          as [(k & path & Hk & Hp & _)|[_ Hr]].
        -- apply full_key_inj in Hk. subst k. rewrite Hi in Hp. discriminate.
        -- right. split; [| exact Hr]. intros k Hk.
           apply full_key_inj in Hk. subst k. now rewrite lookup_insert_eq, Hx.
    + assert (Hr : fst (if truthy_str x
                        then (<[full_key (Job.step_name job) i := x]> (fst r),
                              <[i := x]> (snd r))
                        else r) !! fk = fst r !! fk).
      { destruct (truthy_str x); [| reflexivity]. simpl.
        now rewrite lookup_insert_ne by congruence. }
      rewrite Hr.
      destruct (IH fk) as [(k & path & Hk & Hp & Hl)|[Hn Hl]].
      * left. exists k, path. repeat split; try assumption.
        rewrite lookup_insert_ne; [exact Hp |]. intros ->. contradiction.
      * right. split; [| exact Hl]. intros k Hk.
        rewrite lookup_insert_ne; [now apply Hn |]. intros ->. contradiction.
Qed.

Section Indexes.

Variables (k : string) (path : string).





Variable fk : string.





End Indexes.

(** ** Application of the transition rules *)

Section Rules.

Variables (tip : list string) (full_index key_index : gmap string string).






End Rules.




Lemma resolve_inputs_for_step_unfold
    (TOOLS : gmap string ToolSpec.t) (d : Db) (project_id step_name : string)
    (tool_spec : ToolSpec.t) :
  TOOLS !! step_name = Some tool_spec ->
  get_completed_jobs_for_project d project_id <> [] ->
  resolve_inputs_for_step TOOLS d project_id step_name
  = foldl (shorthand (snd (build_indexes
                             (get_completed_jobs_for_project d project_id))))
      (foldl (apply_rule (input_params tool_spec)
                (fst (build_indexes (get_completed_jobs_for_project d project_id)))
                (snd (build_indexes (get_completed_jobs_for_project d project_id))))
         ∅ (rules_for step_name))
      (input_params tool_spec).
Proof.
  intros Htool Hne. unfold resolve_inputs_for_step. rewrite Htool.
  destruct (get_completed_jobs_for_project d project_id) as [|j l];
    [contradiction |].
  now destruct (build_indexes (j :: l)).
Qed.

(** ** The rules of a step, and what tells their lookups apart *)

Lemma group_rules_lookup (l : list (string * string * string * string))
    (m : gmap string (list (string * string * string))) (t : string) :
  foldl group_rule m l !! t
  = match map (fun r => (fst (fst (fst r)), snd (fst (fst r)), snd r))
            (filter (fun r => snd (fst r) = t) l) with
    | [] => m !! t
    | new => Some (match m !! t with Some old => old | None => [] end ++ new)%list
    end.
Proof.
  revert m. induction l as [|[[[src out] tgt] param] l IH]; intros m;
    [reflexivity |].
  cbn [foldl]. rewrite IH. unfold group_rule. rewrite filter_cons.
  cbn [fst snd]. destruct (decide (tgt = t)) as [->|Hne].
  - rewrite lookup_insert_eq. cbn [map fst snd].
    destruct (map _ (filter _ l)) as [|x new]; [reflexivity |].
    now rewrite <- app_assoc.
  - now rewrite lookup_insert_ne by exact Hne.
Qed.










(** * Further properties of the code *)

(** ** The command builder: shape of the command *)

Lemma forallb_is_str_map {A : Type} (f : A -> string) (l : list A) :
  forallb is_str (map (fun i => PStr (f i)) l) = true.
Proof. induction l as [|x l IH]; simpl; [reflexivity | exact IH]. Qed.

Lemma flag_tokens_strings (p : ParamSpec.t) (v : pyval) :
  forallb is_str (flag_tokens p v) = true.
Proof.
  unfold flag_tokens.
  destruct (ParamSpec.type p =? "bool"); [now destruct (truthy v) |].
  destruct (ParamSpec.type p =? "list"); [| reflexivity].
  destruct (match v with PList l => l | _ => map PStr (str_split (py_str v)) end)
    as [|i items]; [reflexivity |].
  simpl. apply forallb_is_str_map.
Qed.

Lemma flag_loop_appends (tool_spec : ToolSpec.t) (merged : gmap string pyval)
    (l : list ParamSpec.t) (cmd : list pyval) :
  exists rest,
    foldl (flag_step tool_spec merged) cmd l = (cmd ++ rest)%list
    /\ forallb is_str rest = true.
Proof.
  revert cmd. induction l as [|p l IH]; intros cmd.
  - exists []. now rewrite app_nil_r.
  - cbn [foldl].
    assert (Hstep : exists t, flag_step tool_spec merged cmd p = (cmd ++ t)%list
                              /\ forallb is_str t = true).
    { unfold flag_step.
      destruct (_ =? _); [exists []; now rewrite app_nil_r |].
      destruct (negb _); [exists []; now rewrite app_nil_r |].
      destruct (merged !! _) as [v|]; [| exists []; now rewrite app_nil_r].
      destruct v; try (eexists; split; [reflexivity | apply flag_tokens_strings]).
      exists []. now rewrite app_nil_r. }
    destruct Hstep as (t & -> & Ht).
    destruct (IH (cmd ++ t)%list) as (rest & -> & Hrest).
    exists (t ++ rest)%list. split; [now rewrite app_assoc |].
    rewrite forallb_app. now rewrite Ht, Hrest.
Qed.

(** X1. A built command starts with the interpreter and the script path,
    then holds the positional value when the tool has one, which is then
    supplied and true as a Python object, and then only strings. *)
Theorem build_command_shape
    (cfg : Config) (tool_spec : ToolSpec.t) (params : gmap string pyval)
    (job_dir : string) (cmd : list pyval) (outs : gmap string string) :
  build_command cfg tool_spec params job_dir = Ok (cmd, outs) ->
  exists rest,
    forallb is_str rest = true
    /\ if ToolSpec.has_subparser tool_spec
       then exists v,
           params !! ToolSpec.subparser_param tool_spec = Some v
           /\ truthy v = true
           /\ cmd = (PStr (FROGS_PYTHON cfg) :: PStr (script_path cfg tool_spec)
                     :: v :: rest)
       else cmd = (PStr (FROGS_PYTHON cfg) :: PStr (script_path cfg tool_spec)
                   :: rest).
Proof.
  unfold build_command. cbv zeta. intros H.
  destruct (ToolSpec.has_subparser tool_spec).
  - destruct (params !! ToolSpec.subparser_param tool_spec) as [v|];
      [| discriminate].
    destruct (truthy v) eqn:Hv; [| discriminate].
    unfold bind at 1 in H. cbn [negb] in H.
    destruct (merged_params tool_spec params job_dir) as [st|e];
      [| discriminate].
    unfold bind in H. injection H as Hc _.
    destruct (flag_loop_appends tool_spec (fst st) (ToolSpec.params tool_spec)
                ([PStr (FROGS_PYTHON cfg); PStr (script_path cfg tool_spec)] ++ [v])%list)
      as (rest & E & Hrest).
    exists rest. split; [exact Hrest |]. exists v.
    split; [reflexivity |]. split; [exact Hv |]. rewrite <- Hc. exact E.
  - unfold bind at 1 in H.
    destruct (merged_params tool_spec params job_dir) as [st|e];
      [| discriminate].
    unfold bind in H. injection H as Hc _.
    destruct (flag_loop_appends tool_spec (fst st) (ToolSpec.params tool_spec)
                [PStr (FROGS_PYTHON cfg); PStr (script_path cfg tool_spec)])
      as (rest & E & Hrest).
    exists rest. split; [exact Hrest |]. rewrite <- Hc. exact E.
Qed.

Lemma reads_build_command :
  build_command cfg_sample tool_reads_processing reads_params job0_dir
  = Ok (reads_cmd, reads_outs).
Proof. vm_compute. reflexivity. Defined.

Lemma build_command_shape_witness :
  exists rest,
    forallb is_str rest = true
    /\ reads_cmd
       = PStr "/usr/bin/python3"
         :: PStr "/srv/frogs-mcp/FROGS/tools/reads_processing/reads_processing.py"
         :: PStr "illumina" :: rest.
Proof.
  destruct (build_command_shape cfg_sample tool_reads_processing reads_params
              job0_dir reads_cmd reads_outs reads_build_command)
    as (rest & Hrest & Hshape).
  change (ToolSpec.has_subparser tool_reads_processing) with true in Hshape.
  cbv iota in Hshape. destruct Hshape as (v & Hv & _ & Hcmd).
  vm_compute in Hv. injection Hv as <-.
  exists rest. split; [exact Hrest |]. rewrite Hcmd. reflexivity.
Defined.

(** ** The command builder: failures *)

Section BuilderValues.

Variables (tool_spec : ToolSpec.t) (params : gmap string pyval).

Lemma traced_insert (m : gmap string pyval) (k : string) (v : pyval) :
  traced tool_spec params m ->
  (is_str v = true
   \/ params !! k = Some v
   \/ exists q, q ∈ ToolSpec.params tool_spec
                /\ ParamSpec.python_name q = k /\ ParamSpec.default q = v) ->
  traced tool_spec params (<[k := v]> m).
Proof.
  intros Hm Hv k' v' H. destruct (decide (k = k')) as [->|Hne].
  - rewrite lookup_insert_eq in H. injection H as <-. exact Hv.
  - rewrite lookup_insert_ne in H by assumption. now apply Hm.
Qed.

Lemma traced_merge_loop (l : list ParamSpec.t) (m : gmap string pyval) :
  (forall q, q ∈ l -> q ∈ ToolSpec.params tool_spec) ->
  traced tool_spec params m ->
  traced tool_spec params (foldl (merge_step tool_spec params) m l).
Proof.
  revert m. induction l as [|p l IH]; intros m Hl Hm; [exact Hm |].
  cbn [foldl]. apply IH; [intros q Hq; apply Hl; now right |].
  unfold merge_step.
  destruct (_ =? _); [exact Hm |].
  destruct (params !! ParamSpec.python_name p) as [v|] eqn:E.
  - apply traced_insert; auto.
  - destruct (_ && _); [| exact Hm].
    apply traced_insert; [exact Hm |]. right. right.
    exists p. split; [apply Hl; left | auto].
Qed.

Lemma traced_resolve_loop (job_dir : string) (l : list ParamSpec.t)
    (m : gmap string pyval) (o : gmap string string) (e : exn) :
  (forall q, q ∈ l -> q ∈ ToolSpec.params tool_spec) ->
  traced tool_spec params m ->
  foldM (resolve_step job_dir) l (m, o) = Raise e ->
  e = TypeError
  /\ exists v, output_value tool_spec params v
               /\ truthy v = true /\ is_str v = false.
Proof.
  revert m o. induction l as [|p l IH]; intros m o Hl Hm H; [discriminate |].
  rewrite foldM_cons in H.
  destruct (resolve_step job_dir (m, o) p) as [[m' o']|e'] eqn:E.
  - unfold bind in H. apply (IH m' o'); [intros q Hq; apply Hl; now right | | exact H].
    unfold resolve_step in E.
    destruct (negb (ParamSpec.is_output_file p)); [now injection E as <- _ |].
    destruct (m !! ParamSpec.python_name p) as [val|]; [| now injection E as <- _].
    destruct (truthy val); [| now injection E as <- _].
    destruct val; try discriminate.
    assert (Hm' : traced tool_spec params (if isabs_str s then m
                          else <[ParamSpec.python_name p :=
                                   PStr (if isabs_str s then s
                                         else os_path_join job_dir s)]> m)).
    { destruct (isabs_str s); [exact Hm | apply traced_insert; auto]. }
    destruct (ParamSpec.output_key p) as [k|];
      [destruct (truthy_str k) |]; now injection E as <- _.
  - unfold bind in H. injection H as <-.
    unfold resolve_step in E.
    destruct (ParamSpec.is_output_file p) eqn:Hout; [| discriminate].
    cbn [negb] in E.
    destruct (m !! ParamSpec.python_name p) as [val|] eqn:Hval; [| discriminate].
    destruct (truthy val) eqn:Ht; [| discriminate].
    assert (Hns : is_str val = false /\ e' = TypeError).
    { destruct val; try (split; [reflexivity | congruence]).
      destruct (ParamSpec.output_key p) as [k|];
        [destruct (truthy_str k) |]; discriminate. }
    destruct Hns as [Hns ->]. split; [reflexivity |].
    exists val. split; [| auto].
    exists p. split; [apply Hl; left |]. split; [exact Hout |].
    destruct (Hm _ _ Hval) as [Hs|[Hs|Hs]]; [congruence | now left | now right].
Qed.

End BuilderValues.

(** X2. The command builder fails in two ways only: with the [ValueError]
    naming the positional argument, when the tool has one and it is not
    supplied with a true value; and with [TypeError], and then some value
    supplied or declared for an output-file parameter is true but not a
    string.  So it succeeds whenever the positional value, if the tool has
    one, is supplied and true, and every true value supplied or declared
    for an output-file parameter is a string. *)
Theorem build_command_outcome
    (cfg : Config) (tool_spec : ToolSpec.t) (params : gmap string pyval)
    (job_dir : string) :
  (forall e,
      build_command cfg tool_spec params job_dir = Raise e ->
      (e = ValueError (positional_argument_msg tool_spec)
       /\ ToolSpec.has_subparser tool_spec = true
       /\ forall v, params !! ToolSpec.subparser_param tool_spec = Some v ->
                    truthy v = false)
      \/ (e = TypeError
          /\ exists v, output_value tool_spec params v
                       /\ truthy v = true /\ is_str v = false))
  /\ ((ToolSpec.has_subparser tool_spec = true ->
       exists v, params !! ToolSpec.subparser_param tool_spec = Some v
                 /\ truthy v = true) ->
      (forall v, output_value tool_spec params v -> truthy v = true ->
                 is_str v = true) ->
      exists cmd outs,
        build_command cfg tool_spec params job_dir = Ok (cmd, outs)).
Proof.
  assert (Hraise : forall e,
             build_command cfg tool_spec params job_dir = Raise e ->
             (e = ValueError (positional_argument_msg tool_spec)
              /\ ToolSpec.has_subparser tool_spec = true
              /\ forall v, params !! ToolSpec.subparser_param tool_spec = Some v ->
                           truthy v = false)
             \/ (e = TypeError
                 /\ exists v, output_value tool_spec params v
                              /\ truthy v = true /\ is_str v = false)).
  { intros e. unfold build_command. cbv zeta. intros H.
    assert (Htail : forall cmd,
               bind (merged_params tool_spec params job_dir)
                 (fun st => Ok (foldl (flag_step tool_spec (fst st)) cmd
                                  (ToolSpec.params tool_spec), snd st))
               = Raise e ->
               e = TypeError
               /\ exists v, output_value tool_spec params v
                            /\ truthy v = true /\ is_str v = false).
    { intros cmd Hb. unfold merged_params in Hb.
      destruct (foldM _ _ _) as [st|e'] eqn:E; [discriminate |].
      unfold bind in Hb. injection Hb as ->.
      apply (traced_resolve_loop tool_spec params job_dir _ _ _ e) in E; auto.
      apply traced_merge_loop; [auto |]. intros k v Hk.
      rewrite lookup_empty in Hk. discriminate. }
    destruct (ToolSpec.has_subparser tool_spec).
    - destruct (params !! ToolSpec.subparser_param tool_spec) as [v|].
      + destruct (truthy v) eqn:Hv; cbn [negb] in H.
        * right. unfold bind at 1 in H. now apply Htail in H.
        * left. unfold bind in H. injection H as <-.
          split; [reflexivity |]. split; [reflexivity |].
          intros v' Hv'. now injection Hv' as <-.
      + left. unfold bind in H. cbn in H. injection H as <-.
        split; [reflexivity |]. split; [reflexivity |]. discriminate.
    - right. unfold bind at 1 in H. now apply Htail in H. }
  split; [exact Hraise |].
  intros Hpos Hstr.
  destruct (build_command cfg tool_spec params job_dir) as [[cmd outs]|e] eqn:E;
    [now exists cmd, outs |].
  exfalso.
  destruct (Hraise e eq_refl) as [(_ & Hsub & Hfalsy)|(_ & v & Hv & Ht & Hs)].
  - destruct (Hpos Hsub) as (v & Hv & Ht). rewrite (Hfalsy v Hv) in Ht. discriminate.
  - rewrite (Hstr v Hv Ht) in Hs. discriminate.
Qed.

Lemma build_command_outcome_witness :
  (exists v, output_value tool_remove_chimera number_as_output v
             /\ truthy v = true /\ is_str v = false)
  /\ exists cmd outs,
       build_command cfg_sample tool_remove_chimera chimera_params job1_dir
       = Ok (cmd, outs).
Proof.
  split.
  - destruct (proj1 (build_command_outcome cfg_sample tool_remove_chimera
                       number_as_output job1_dir) TypeError)
      as [[E _]|[_ H]].
    + vm_compute. reflexivity.
    + discriminate E.
    + exact H.
  - apply (proj2 (build_command_outcome cfg_sample tool_remove_chimera
                    chimera_params job1_dir)).
    + discriminate.
    + intros v (p & Hp & Hout & Hv) _.
      apply list_elem_of_In in Hp. simpl in Hp.
      repeat (destruct Hp as [<-|Hp]; [try discriminate Hout |]);
        try contradiction;
        (destruct Hv as [Hv|(q & Hq & Hn & <-)];
         [vm_compute in Hv; discriminate Hv |];
         apply list_elem_of_In in Hq; simpl in Hq;
         repeat (destruct Hq as [<-|Hq]; [try discriminate Hn; reflexivity |]);
         contradiction).
Defined.

(** ** The command builder: the resolved outputs *)

Lemma append_eq_nil (a b : string) : a +:+ b = "" -> a = "" /\ b = "".
Proof.
  destruct a as [|c a]; [intros H; split; [reflexivity | exact H] |].
  rewrite append_cons. discriminate.
Qed.

Lemma resolve_step_outs (job_dir : string) (m m' : gmap string pyval)
    (o o' : gmap string string) (q : ParamSpec.t) (k path : string) :
  resolve_step job_dir (m, o) q = Ok (m', o') ->
  o' !! k = Some path ->
  o !! k = Some path
  \/ (ParamSpec.is_output_file q = true
      /\ ParamSpec.output_key q = Some k
      /\ k <> "" /\ path <> ""
      /\ (isabs_str job_dir = true -> isabs_str path = true)).
Proof.
  unfold resolve_step. intros E Hk.
  destruct (ParamSpec.is_output_file q) eqn:Hout; cbn [negb] in E;
    [| injection E as _ <-; now left].
  destruct (m !! ParamSpec.python_name q) as [val|];
    [| injection E as _ <-; now left].
  destruct (truthy val) eqn:Ht; [| injection E as _ <-; now left].
  destruct val; try discriminate.
  destruct (ParamSpec.output_key q) as [k0|];
    [| injection E as _ <-; now left].
  destruct (truthy_str k0) eqn:Hk0; [| injection E as _ <-; now left].
  injection E as _ <-.
  destruct (decide (k0 = k)) as [->|Hne];
    [| rewrite lookup_insert_ne in Hk by assumption; now left].
  rewrite lookup_insert_eq in Hk. injection Hk as <-. right.
  split; [reflexivity |]. split; [reflexivity |].
  split; [intros ->; discriminate Hk0 |].
  simpl in Ht. split.
  - destruct (isabs_str s) eqn:Ha.
    + intros ->. discriminate Ht.
    + unfold os_path_join. fold (isabs_str s). rewrite Ha.
      intros Hj. destruct (_ || _).
      * apply append_eq_nil in Hj as [_ ->]. discriminate Ht.
      * apply append_eq_nil in Hj as [_ Hj].
        apply append_eq_nil in Hj as [Hj _]. discriminate Hj.
  - intros Hjd. destruct (isabs_str s) eqn:Ha; [exact Ha |].
    now apply os_path_join_abs.
Qed.

(** X3. Every entry of the output map returned by the command builder has
    a non-empty key and a non-empty path, absolute when the job directory
    is, and its key is the output key of an output-file parameter of the
    tool. *)
Theorem build_command_outputs
    (cfg : Config) (tool_spec : ToolSpec.t) (params : gmap string pyval)
    (job_dir : string) (cmd : list pyval) (outs : gmap string string)
    (k path : string) :
  build_command cfg tool_spec params job_dir = Ok (cmd, outs) ->
  outs !! k = Some path ->
  k <> "" /\ path <> ""
  /\ (isabs_str job_dir = true -> isabs_str path = true)
  /\ exists p, p ∈ ToolSpec.params tool_spec
               /\ ParamSpec.is_output_file p = true
               /\ ParamSpec.output_key p = Some k.
Proof.
  intros H Hk.
  assert (Houts : exists st,
             foldM (resolve_step job_dir) (ToolSpec.params tool_spec)
               (foldl (merge_step tool_spec params) ∅ (ToolSpec.params tool_spec), ∅)
             = Ok st /\ snd st = outs).
  { unfold build_command in H. cbv zeta in H.
    destruct (if ToolSpec.has_subparser tool_spec then _ else _) as [c|e];
      [| discriminate].
    unfold bind at 1 in H. unfold merged_params in H.
    destruct (foldM _ _ _) as [st|e]; [| discriminate].
    unfold bind in H. injection H as _ <-. now exists st. }
  destruct Houts as (st & E & <-).
  assert (Hloop : forall l m o st',
             (forall q, q ∈ l -> q ∈ ToolSpec.params tool_spec) ->
             foldM (resolve_step job_dir) l (m, o) = Ok st' ->
             snd st' !! k = Some path ->
             o !! k = Some path
             \/ (k <> "" /\ path <> ""
                 /\ (isabs_str job_dir = true -> isabs_str path = true)
                 /\ exists p, p ∈ ToolSpec.params tool_spec
                              /\ ParamSpec.is_output_file p = true
                              /\ ParamSpec.output_key p = Some k)).
  { induction l as [|q l IH]; intros m o st' Hl Hf Hs.
    - injection Hf as <-. now left.
    - apply foldM_cons_Ok in Hf as ([m1 o1] & H1 & H2).
      destruct (IH m1 o1 st' ltac:(intros x Hx; apply Hl; now right) H2 Hs)
        as [Ho1|Hdone]; [| now right].
      destruct (resolve_step_outs job_dir m m1 o o1 q k path H1 Ho1)
        as [Ho|(Hout & Hkey & Hk1 & Hp & Ha)]; [now left |].
      right. repeat split; try assumption.
      exists q. split; [apply Hl; left | auto]. }
  destruct (Hloop _ _ _ st (fun q Hq => Hq) E Hk) as [Hempty|Hdone];
    [| exact Hdone].
  rewrite lookup_empty in Hempty. discriminate.
Qed.

Lemma build_command_outputs_witness :
  reads_outs !! "biom" = Some (job0_dir +:+ "/reads_processing_abundance.biom")
  /\ isabs_str (job0_dir +:+ "/reads_processing_abundance.biom") = true.
Proof.
  assert (Hk : reads_outs !! "biom"
               = Some (job0_dir +:+ "/reads_processing_abundance.biom"))
    by (vm_compute; reflexivity).
  split; [exact Hk |].
  destruct (build_command_outputs cfg_sample tool_reads_processing reads_params
              job0_dir reads_cmd reads_outs "biom" _ reads_build_command Hk)
    as (_ & _ & Habs & _).
  apply Habs. reflexivity.
Defined.

(** ** The store: job records *)

Lemma find_app_last {A : Type} (f : A -> bool) (l : list A) (x : A) :
  find f (l ++ [x])%list
  = match find f l with
    | Some y => Some y
    | None => if f x then Some x else None
    end.
Proof.
  induction l as [|y l IH]; simpl; [reflexivity |].
  destruct (f y); [reflexivity | exact IH].
Qed.

(** X4. Inserting a job whose identifier is new and whose project, if
    any, exists succeeds; the job can then be read back, with status
    [running], the given process id, start and creation time now, and
    neither end time, exit code nor output map; every other job, the
    projects and the pipeline steps are as before. *)
Theorem insert_job_get_job
    (d : Db) (now job_id : string) (project_id : option string)
    (tool_name : string) (step_name : option string)
    (params : gmap string pyval) (command : list pyval) (working_dir : string)
    (pid : option Z) (stdout_file stderr_file log_file : string) :
  get_job d job_id = None ->
  (forall p, project_id = Some p -> project_exists d p = true) ->
  exists d',
    insert_job d now job_id project_id tool_name step_name params command
      working_dir pid stdout_file stderr_file log_file = Ok d'
    /\ get_job d' job_id
       = Some (Job.mk job_id project_id tool_name step_name params command
                 running pid now None None stdout_file stderr_file log_file
                 None working_dir now)
    /\ (forall id', id' <> job_id -> get_job d' id' = get_job d id')
    /\ projects d' = projects d
    /\ pipeline_steps d' = pipeline_steps d.
Proof.
  intros Hnew Hproj. unfold insert_job. rewrite Hnew.
  assert (Hp : match project_id with
               | Some p => project_exists d p
               | None => true
               end = true)
    by (destruct project_id as [p|]; [now apply Hproj | reflexivity]).
  rewrite Hp. eexists. split; [reflexivity |].
  unfold get_job in *. cbn [jobs with_jobs projects pipeline_steps].
  repeat split.
  - rewrite find_app_last, Hnew. cbn [Job.job_id]. now rewrite String.eqb_refl.
  - intros id' Hne. rewrite find_app_last. cbn [Job.job_id].
    apply not_eq_sym, String.eqb_neq in Hne. rewrite Hne.
    now destruct (find (fun j => Job.job_id j =? id') (jobs d)).
Qed.

Lemma insert_job_get_job_witness :
  exists d',
    insert_job db_project "2024-05-01T10:00:01.000250" job1 (Some "3f2a9c1e")
      "remove_chimera" (Some "remove_chimera") chimera_params [] job1_dir
      (Some 4242%Z) "" "" "" = Ok d'
    /\ option_map Job.status (get_job d' job1) = Some running.
Proof.
  destruct (insert_job_get_job db_project "2024-05-01T10:00:01.000250" job1
              (Some "3f2a9c1e") "remove_chimera" (Some "remove_chimera")
              chimera_params [] job1_dir (Some 4242%Z) "" "" "")
    as (d' & Hins & Hget & _).
  - reflexivity.
  - intros p Hp. injection Hp as <-. reflexivity.
  - exists d'. split; [exact Hins |]. now rewrite Hget.
Defined.

(** X5. Inserting a job fails exactly when its identifier is already in
    the table or its project is not in the projects table, and then with
    an integrity error. *)
Theorem insert_job_constraints
    (d : Db) (now job_id : string) (project_id : option string)
    (tool_name : string) (step_name : option string)
    (params : gmap string pyval) (command : list pyval) (working_dir : string)
    (pid : option Z) (stdout_file stderr_file log_file : string) (e : exn) :
  insert_job d now job_id project_id tool_name step_name params command
    working_dir pid stdout_file stderr_file log_file = Raise e
  <-> e = IntegrityError
      /\ (is_Some (get_job d job_id)
          \/ exists p, project_id = Some p /\ project_exists d p = false).
Proof.
  unfold insert_job. split.
  - intros H. destruct (get_job d job_id) as [j|].
    + injection H as <-. split; [reflexivity |]. left. eauto.
    + destruct project_id as [p|].
      * destruct (project_exists d p) eqn:E; [discriminate |].
        injection H as <-. split; [reflexivity |]. right. eauto.
      * discriminate.
  - intros [-> [[j Hj]|(p & -> & Hp)]].
    + now rewrite Hj.
    + rewrite Hp. now destruct (get_job d job_id).
Qed.

Lemma insert_job_constraints_witness :
  insert_job db_untracked "2024-05-01T09:00:07" "j0" None "remove_chimera"
    None ∅ [] "" None "" "" "" = Raise IntegrityError
  /\ insert_job db_untracked "2024-05-01T09:00:07" "j1" (Some "3f2a9c1e")
       "remove_chimera" None ∅ [] "" None "" "" "" = Raise IntegrityError.
Proof.
  split.
  - apply (proj2 (insert_job_constraints db_untracked "2024-05-01T09:00:07" "j0"
                    None "remove_chimera" None ∅ [] "" None "" "" ""
                    IntegrityError)).
    split; [reflexivity |]. left. vm_compute. eauto.
  - apply (proj2 (insert_job_constraints db_untracked "2024-05-01T09:00:07" "j1"
                    (Some "3f2a9c1e") "remove_chimera" None ∅ [] "" None "" ""
                    "" IntegrityError)).
    split; [reflexivity |]. right. exists "3f2a9c1e". split; reflexivity.
Defined.

Lemma rows_unchanged (id : string) (f : Job.t -> Job.t) (js : list Job.t) :
  find (fun j => Job.job_id j =? id) js = None ->
  map (update_row id f) js = js.
Proof.
  induction js as [|j js IH]; simpl; [reflexivity |].
  destruct (Job.job_id j =? id) eqn:E; [discriminate |].
  intros H. unfold update_row at 1. rewrite E. now rewrite IH.
Qed.

Lemma job_ids_update_row (id : string) (f : Job.t -> Job.t) (js : list Job.t) :
  (forall j, Job.job_id (f j) = Job.job_id j) ->
  map Job.job_id (map (update_row id f) js) = map Job.job_id js.
Proof.
  intros Hf. induction js as [|j js IH]; simpl; [reflexivity |].
  rewrite IH. f_equal. unfold update_row. now destruct (_ =? _).
Qed.

(** X6. Updating the status of a job changes, in the record of that job,
    the status, the exit code and the end time and nothing else; it
    changes no other job, neither adds nor removes a record, and on an
    identifier without record it leaves the store as it is. *)
Theorem update_job_status_effect
    (d : Db) (now job_id : string) (s : Status) (exit_code : option Z) :
  (get_job d job_id = None -> update_job_status d now job_id s exit_code = d)
  /\ (forall j,
        get_job d job_id = Some j ->
        get_job (update_job_status d now job_id s exit_code) job_id
        = Some (Job.mk (Job.job_id j) (Job.project_id j) (Job.tool_name j)
                  (Job.step_name j) (Job.params j) (Job.command j) s
                  (Job.pid j) (Job.start_time j) (Some now) exit_code
                  (Job.stdout_file j) (Job.stderr_file j) (Job.log_file j)
                  (Job.output_files j) (Job.working_dir j) (Job.created_at j)))
  /\ (forall id', id' <> job_id ->
                  get_job (update_job_status d now job_id s exit_code) id'
                  = get_job d id')
  /\ map Job.job_id (jobs (update_job_status d now job_id s exit_code))
     = map Job.job_id (jobs d)
  /\ projects (update_job_status d now job_id s exit_code) = projects d
  /\ pipeline_steps (update_job_status d now job_id s exit_code)
     = pipeline_steps d.
Proof.
  repeat split.
  - intros Hnone. unfold update_job_status, with_jobs.
    unfold get_job in Hnone. rewrite rows_unchanged by exact Hnone.
    now destruct d.
  - intros j Hj. rewrite get_job_update_job_status, String.eqb_refl, Hj.
    reflexivity.
  - intros id' Hne. rewrite get_job_update_job_status.
    apply String.eqb_neq in Hne. now rewrite Hne.
  - unfold update_job_status. cbn [jobs with_jobs].
    now apply job_ids_update_row.
Qed.

Lemma update_job_status_effect_witness :
  update_job_status db_untracked "2024-05-01T09:00:07" "j9" failed (Some 1%Z)
  = db_untracked
  /\ option_map Job.status
       (get_job (update_job_status db_untracked "2024-05-01T09:00:07" "j0"
                   failed (Some 1%Z)) "j0") = Some failed.
Proof.
  pose proof (update_job_status_effect db_untracked "2024-05-01T09:00:07" "j9"
                failed (Some 1%Z)) as (H9 & _).
  pose proof (update_job_status_effect db_untracked "2024-05-01T09:00:07" "j0"
                failed (Some 1%Z)) as (_ & H0 & _).
  split.
  - apply H9. reflexivity.
  - erewrite H0; [reflexivity |]. vm_compute. reflexivity.
Defined.

(** X7. Storing an output map for a job replaces the output map of that
    job and nothing else: its other fields, the other jobs and the set of
    records are as before, and on an identifier without record the store
    is left as it is. *)
Theorem update_job_output_files_effect
    (d : Db) (job_id : string) (m : gmap string string) :
  (get_job d job_id = None -> update_job_output_files d job_id m = d)
  /\ (forall j,
        get_job d job_id = Some j ->
        get_job (update_job_output_files d job_id m) job_id
        = Some (Job.mk (Job.job_id j) (Job.project_id j) (Job.tool_name j)
                  (Job.step_name j) (Job.params j) (Job.command j)
                  (Job.status j) (Job.pid j) (Job.start_time j)
                  (Job.end_time j) (Job.exit_code j) (Job.stdout_file j)
                  (Job.stderr_file j) (Job.log_file j) (Some m)
                  (Job.working_dir j) (Job.created_at j)))
  /\ (forall id', id' <> job_id ->
                  get_job (update_job_output_files d job_id m) id'
                  = get_job d id')
  /\ map Job.job_id (jobs (update_job_output_files d job_id m))
     = map Job.job_id (jobs d).
Proof.
  repeat split.
  - intros Hnone. unfold update_job_output_files, with_jobs.
    unfold get_job in Hnone. rewrite rows_unchanged by exact Hnone.
    now destruct d.
  - intros j Hj. rewrite get_job_update_job_output_files, String.eqb_refl, Hj.
    reflexivity.
  - intros id' Hne. rewrite get_job_update_job_output_files.
    apply String.eqb_neq in Hne. now rewrite Hne.
  - unfold update_job_output_files. cbn [jobs with_jobs].
    now apply job_ids_update_row.
Qed.

Lemma update_job_output_files_effect_witness :
  update_job_output_files db_untracked "j9" {[ "fasta" := "/tmp/a.fasta" ]}
  = db_untracked
  /\ option_map Job.output_files
       (get_job (update_job_output_files db_untracked "j0"
                   {[ "fasta" := "/tmp/a.fasta" ]}) "j0")
     = Some (Some {[ "fasta" := "/tmp/a.fasta" ]}).
Proof.
  pose proof (update_job_output_files_effect db_untracked "j9"
                {[ "fasta" := "/tmp/a.fasta" ]}) as (H9 & _).
  pose proof (update_job_output_files_effect db_untracked "j0"
                {[ "fasta" := "/tmp/a.fasta" ]}) as (_ & H0 & _).
  split.
  - apply H9. reflexivity.
  - erewrite H0; [reflexivity |]. vm_compute. reflexivity.
Defined.

(** X8. The listing of jobs holds each stored job of the asked project
    once (each stored job, when no project or the empty identifier is
    asked for), and no job of the listing was created after one that
    stands before it. *)
Theorem list_jobs_newest_first (d : Db) (project_id : option string) :
  StronglySorted
    (fun a b => String.leb (Job.created_at b) (Job.created_at a) = true)
    (list_jobs d project_id)
  /\ list_jobs d project_id
     ≡ₚ (if truthy_opt project_id
         then filter (fun j => Job.project_id j = project_id) (jobs d)
         else jobs d)
  /\ (forall j,
        j ∈ list_jobs d project_id
        <-> j ∈ jobs d
            /\ (truthy_opt project_id = true -> Job.project_id j = project_id)).
Proof.
  unfold list_jobs. split; [| split].
  - apply (sort_by_sorted
             (fun a b => String.leb (Job.created_at b) (Job.created_at a))).
    + intros x y. apply String.leb_total.
    + intros x y z H1 H2. exact (leb_trans _ _ _ H2 H1).
  - apply sort_by_perm.
  - intros j. rewrite elem_of_sort_by.
    destruct (truthy_opt project_id).
    + rewrite list_elem_of_filter. split.
      * intros [H1 H2]. split; [exact H2 | intros _; exact H1].
      * intros [H1 H2]. split; [now apply H2 | exact H1].
    + split; [intros H; split; [exact H | discriminate] | now intros [H _]].
Qed.

Lemma list_jobs_newest_first_witness :
  map Job.job_id (list_jobs (db reads_twice) (Some "3f2a9c1e")) = [job2; job0]
  /\ (later_run ∈ list_jobs (db reads_twice) (Some "3f2a9c1e")).
Proof.
  split; [vm_compute; reflexivity |].
  apply (proj2 (proj2 (list_jobs_newest_first (db reads_twice) (Some "3f2a9c1e")))).
  split.
  - apply list_elem_of_In. vm_compute. right. left. reflexivity.
  - intros _. vm_compute. reflexivity.
Defined.

(** ** The store: pipeline step records *)

Lemma existsb_is_Some_find {A : Type} (f : A -> bool) (l : list A) :
  existsb f l = true <-> is_Some (find f l).
Proof.
  induction l as [|x l IH]; simpl.
  - split; [discriminate | intros [y Hy]; discriminate].
  - destruct (f x); simpl; [| exact IH]. split; eauto.
Qed.

Lemma step_matches_eq (p n : string) (r : Step.t) :
  step_matches p n r = true <-> Step.project_id r = p /\ Step.step_name r = n.
Proof.
  unfold step_matches. rewrite andb_true_iff, !String.eqb_eq. reflexivity.
Qed.

Lemma existsb_step_matches (p n : string) (rows : list Step.t) :
  existsb (step_matches p n) rows = false <->
  (p, n) ∉ map (fun r => (Step.project_id r, Step.step_name r)) rows.
Proof.
  induction rows as [|r rows IH]; simpl.
  - split; [intros _; apply not_elem_of_nil | reflexivity].
  - rewrite not_elem_of_cons, orb_false_iff, IH.
    split; intros [H1 H2]; split; try exact H2.
    + intros E. injection E as -> ->.
      unfold step_matches in H1. now rewrite !String.eqb_refl in H1.
    + destruct (step_matches p n r) eqn:E; [| reflexivity].
      apply step_matches_eq in E as [<- <-]. contradiction.
Qed.

Lemma init_loop_rows (p : string) (steps : list (string * Z * bool))
    (rows : list Step.t) :
  exists new,
    foldl (insert_step_or_ignore p) rows steps = (rows ++ new)%list
    /\ Forall (fun r =>
                 Step.project_id r = p
                 /\ Step.status r = pending
                 /\ Step.job_id r = None
                 /\ (Step.step_name r, Step.step_order r, Step.is_optional r)
                      ∈ steps
                 /\ existsb (step_matches p (Step.step_name r)) rows = false)
         new
    /\ (forall s, s ∈ steps ->
                  existsb (step_matches p (fst (fst s))) (rows ++ new) = true)
    /\ NoDup (map Step.step_name new).
Proof.
  revert rows. induction steps as [|[[n o] opt] steps IH]; intros rows.
  - exists []. rewrite app_nil_r. repeat split.
    + constructor.
    + intros s Hs. inversion Hs.
    + constructor.
  - cbn [foldl]. unfold insert_step_or_ignore at 2.
    destruct (existsb (step_matches p n) rows) eqn:E.
    + destruct (IH rows) as (new & Heq & Hnew & Hcov & Hnd).
      exists new. repeat split; try assumption.
      * eapply Forall_impl; [exact Hnew |].
        intros r (H1 & H2 & H3 & H4 & H5). repeat split; try assumption.
        now apply list_elem_of_further.
      * intros s Hs. apply elem_of_cons in Hs as [->|Hs]; [| now apply Hcov].
        cbn [fst]. rewrite existsb_app, E. reflexivity.
    + set (r0 := Step.mk (Z.of_nat (length rows) + 1) p n o None pending opt).
      destruct (IH (rows ++ [r0])%list) as (new & Heq & Hnew & Hcov & Hnd).
      assert (Hnames : Forall (fun r => Step.step_name r <> n) new).
      { eapply Forall_impl; [exact Hnew |].
        intros r (H1 & _ & _ & _ & H5) Hn.
        rewrite existsb_app, orb_false_iff in H5. destruct H5 as [_ H5].
        cbn [existsb] in H5. rewrite orb_false_r in H5.
        unfold step_matches, r0 in H5. cbn [Step.project_id Step.step_name] in H5.
        now rewrite Hn, !String.eqb_refl in H5. }
      exists (r0 :: new). repeat split.
      * rewrite Heq, <- app_assoc. reflexivity.
      * constructor.
        -- repeat split; try reflexivity; [apply list_elem_of_here | exact E].
        -- eapply Forall_impl; [exact Hnew |].
           intros r (H1 & H2 & H3 & H4 & H5). repeat split; try assumption.
           ++ now apply list_elem_of_further.
           ++ rewrite existsb_app, orb_false_iff in H5. tauto.
      * intros s Hs.
        replace (rows ++ r0 :: new)%list with ((rows ++ [r0]) ++ new)%list
          by (now rewrite <- app_assoc).
        apply elem_of_cons in Hs as [->|Hs]; [| now apply Hcov].
        cbn [fst]. rewrite !existsb_app. cbn [existsb].
        unfold step_matches at 2. unfold r0.
        cbn [Step.project_id Step.step_name]. rewrite !String.eqb_refl.
        cbn [andb orb]. now rewrite orb_true_r.
      * cbn [map]. apply NoDup_cons. split; [| exact Hnd].
        intros Hin. apply list_elem_of_fmap in Hin as (r & Hr & Hin).
        rewrite Forall_forall in Hnames. apply (Hnames r); [| now symmetry].
        exact Hin.
Qed.

Lemma init_loop_covered (p : string) (steps : list (string * Z * bool))
    (rows : list Step.t) :
  (forall s, s ∈ steps -> existsb (step_matches p (fst (fst s))) rows = true) ->
  foldl (insert_step_or_ignore p) rows steps = rows.
Proof.
  induction steps as [|[[n o] opt] steps IH]; intros H; [reflexivity |].
  cbn [foldl]. unfold insert_step_or_ignore at 2.
  pose proof (H (n, o, opt) ltac:(apply list_elem_of_here)) as H0.
  cbn [fst] in H0. rewrite H0.
  apply IH. intros s Hs. apply H. now apply list_elem_of_further.
Qed.

Lemma step_keys_app (p : string) (rows new : list Step.t) :
  NoDup (map (fun r => (Step.project_id r, Step.step_name r)) rows) ->
  Forall (fun r => Step.project_id r = p
                   /\ existsb (step_matches p (Step.step_name r)) rows = false)
    new ->
  NoDup (map Step.step_name new) ->
  NoDup (map (fun r => (Step.project_id r, Step.step_name r)) (rows ++ new)).
Proof.
  intros Hd Hnew Hnd. rewrite map_app.
  apply NoDup_app. split; [exact Hd | split].
  - intros k Hk Hk'. apply list_elem_of_fmap in Hk' as (r & -> & Hr).
    rewrite Forall_forall in Hnew. destruct (Hnew r Hr) as (H1 & H5).
    apply existsb_step_matches in H5. apply H5. now rewrite <- H1.
  - clear - Hnew Hnd. induction new as [|r new IH]; [constructor |].
    cbn [map] in *. apply NoDup_cons in Hnd as [Hn Hnd].
    apply Forall_cons in Hnew as [Hr Hnew].
    apply NoDup_cons. split; [| now apply IH].
    intros Hin. apply Hn. apply list_elem_of_fmap in Hin as (r' & E & Hr').
    injection E as _ E. rewrite E. now apply list_elem_of_fmap_2.
Qed.

(** X9. On an existing project, initialising the pipeline steps
    succeeds and only appends step records: the records already stored
    stay, in place and unchanged; each appended record belongs to the
    project, is pending, is tied to no job, takes its name, order and
    optional mark from one of the given steps, and has a name that had
    no record of the project before; afterwards every given step has a
    record.  Jobs and projects are untouched.  Without the project, a
    step that has no record yet makes the call fail. *)
Theorem initialize_pipeline_steps_rows
    (d : Db) (project_id : string) (steps : list (string * Z * bool)) :
  (project_exists d project_id = true ->
   exists new,
     initialize_pipeline_steps d project_id steps
     = Ok {| projects := projects d; jobs := jobs d;
             pipeline_steps := (pipeline_steps d ++ new)%list |}
     /\ Forall (fun r =>
                  Step.project_id r = project_id
                  /\ Step.status r = pending
                  /\ Step.job_id r = None
                  /\ (Step.step_name r, Step.step_order r, Step.is_optional r)
                       ∈ steps
                  /\ get_step d project_id (Step.step_name r) = None)
          new
     /\ NoDup (map Step.step_name new)
     /\ (forall n o opt,
           (n, o, opt) ∈ steps ->
           is_Some (find (step_matches project_id n) (pipeline_steps d ++ new))))
  /\ (project_exists d project_id = false ->
      (exists n o opt, (n, o, opt) ∈ steps /\ get_step d project_id n = None) ->
      initialize_pipeline_steps d project_id steps = Raise IntegrityError).
Proof.
  unfold initialize_pipeline_steps. split.
  - intros Hp. rewrite Hp. cbn [orb].
    destruct (init_loop_rows project_id steps (pipeline_steps d))
      as (new & Heq & Hnew & Hcov & Hnd).
    exists new. rewrite Heq. repeat split; try assumption.
    + eapply Forall_impl; [exact Hnew |].
      intros r (H1 & H2 & H3 & H4 & H5). repeat split; try assumption.
      unfold get_step.
      destruct (find _ (pipeline_steps d)) as [x|] eqn:E; [| reflexivity].
      assert (Hs : is_Some (find (step_matches project_id (Step.step_name r))
                              (pipeline_steps d))) by (rewrite E; eauto).
      apply existsb_is_Some_find in Hs. congruence.
    + intros n o opt Hs. apply existsb_is_Some_find.
      exact (Hcov (n, o, opt) Hs).
  - intros Hp (n & o & opt & Hs & _). rewrite Hp.
    destruct steps; [inversion Hs | reflexivity].
Qed.

Lemma initialize_pipeline_steps_rows_witness :
  (exists new,
      initialize_pipeline_steps db_project "3f2a9c1e"
        [("reads_processing", 1%Z, false); ("itsx", 2%Z, true)]
      = Ok {| projects := projects db_project; jobs := jobs db_project;
              pipeline_steps := (pipeline_steps db_project ++ new)%list |})
  /\ initialize_pipeline_steps db_none "3f2a9c1e"
       [("reads_processing", 1%Z, false)] = Raise IntegrityError.
Proof.
  split.
  - destruct (proj1 (initialize_pipeline_steps_rows db_project "3f2a9c1e"
                       [("reads_processing", 1%Z, false); ("itsx", 2%Z, true)]))
      as (new & H & _); [reflexivity |].
    exists new. exact H.
  - apply (proj2 (initialize_pipeline_steps_rows db_none "3f2a9c1e"
                    [("reads_processing", 1%Z, false)])); [reflexivity |].
    exists "reads_processing", 1%Z, false. split; [apply list_elem_of_here |].
    reflexivity.
Defined.

(** X10. Initialising the pipeline steps twice with the same steps is the
    same as doing it once, and it keeps the store free of two records
    with the same project and step name. *)
Theorem initialize_pipeline_steps_again
    (d d1 : Db) (project_id : string) (steps : list (string * Z * bool)) :
  initialize_pipeline_steps d project_id steps = Ok d1 ->
  initialize_pipeline_steps d1 project_id steps = Ok d1
  /\ (NoDup (map (fun r => (Step.project_id r, Step.step_name r))
               (pipeline_steps d)) ->
      NoDup (map (fun r => (Step.project_id r, Step.step_name r))
               (pipeline_steps d1))).
Proof.
  unfold initialize_pipeline_steps. intros H.
  destruct (project_exists d project_id || _) eqn:E; [| discriminate].
  injection H as <-.
  destruct (init_loop_rows project_id steps (pipeline_steps d))
    as (new & Heq & Hnew & Hcov & Hnd).
  split.
  - unfold project_exists in *. cbn [projects with_steps pipeline_steps].
    rewrite E, Heq.
    rewrite (init_loop_covered project_id steps (pipeline_steps d ++ new)%list)
      by exact Hcov.
    reflexivity.
  - intros Hd. cbn [pipeline_steps with_steps]. rewrite Heq.
    apply (step_keys_app project_id); [exact Hd | | exact Hnd].
    eapply Forall_impl; [exact Hnew |]. intros r (H1 & _ & _ & _ & H5). auto.
Qed.

Lemma initialize_pipeline_steps_again_witness :
  initialize_pipeline_steps db_project "3f2a9c1e" all_steps_ordered
  = Ok db_project
  /\ NoDup (map (fun r => (Step.project_id r, Step.step_name r))
              (pipeline_steps db_project)).
Proof.
  pose proof (initialize_pipeline_steps_again
                {| projects := projects db_project; jobs := [];
                   pipeline_steps := [] |}
                db_project "3f2a9c1e" all_steps_ordered) as H.
  destruct H as [H1 H2]; [vm_compute; reflexivity |].
  split; [exact H1 | apply H2; constructor].
Defined.

Lemma find_map_same {A : Type} (f : A -> bool) (h : A -> A) (l : list A) :
  (forall x, f (h x) = f x) ->
  find f (map h l) = option_map h (find f l).
Proof.
  intros Hf. induction l as [|x l IH]; simpl; [reflexivity |].
  rewrite Hf. destruct (f x); [reflexivity | exact IH].
Qed.

Lemma map_unmatched {A : Type} (f : A -> bool) (g : A -> A) (l : list A) :
  find f l = None -> map (fun x => if f x then g x else x) l = l.
Proof.
  induction l as [|x l IH]; simpl; [reflexivity |].
  destruct (f x); [discriminate |]. intros H. now rewrite IH.
Qed.

Lemma truthy_opt_Some (o : option string) :
  truthy_opt o = true <-> exists i, o = Some i /\ i <> "".
Proof.
  destruct o as [i|]; simpl.
  - unfold truthy_str. rewrite negb_true_iff, String.eqb_neq.
    split; [eauto | now intros (i' & [= <-] & H)].
  - split; [discriminate | now intros (i & H & _)].
Qed.

Lemma update_pipeline_step_Ok
    (d d1 : Db) (project_id step_name : string) (s : Status)
    (job_id : option string) :
  update_pipeline_step d project_id step_name s job_id = Ok d1 ->
  d1 = with_steps d
         (map (fun r =>
                 if step_matches project_id step_name r
                 then Step.mk (Step.id r) (Step.project_id r)
                        (Step.step_name r) (Step.step_order r)
                        (if truthy_opt job_id then job_id else Step.job_id r)
                        s (Step.is_optional r)
                 else r)
            (pipeline_steps d)).
Proof.
  unfold update_pipeline_step. intros H.
  destruct (truthy_opt job_id).
  - destruct (_ && _); [discriminate | now injection H as <-].
  - now injection H as <-.
Qed.

Lemma get_step_update_pipeline_step
    (d d1 : Db) (project_id step_name : string) (s : Status)
    (job_id : option string) (p n : string) :
  update_pipeline_step d project_id step_name s job_id = Ok d1 ->
  get_step d1 p n
  = option_map
      (fun r =>
         if step_matches project_id step_name r
         then Step.mk (Step.id r) (Step.project_id r)
                (Step.step_name r) (Step.step_order r)
                (if truthy_opt job_id then job_id else Step.job_id r)
                s (Step.is_optional r)
         else r)
      (get_step d p n).
Proof.
  intros H. apply update_pipeline_step_Ok in H. subst d1.
  unfold get_step. cbn [pipeline_steps with_steps].
  apply find_map_same. intros r.
  now destruct (step_matches project_id step_name r).
Qed.

(** X11. Updating a pipeline step fails, with an integrity error, exactly
    when a job identifier that is not empty is given, the step has a
    record, and no job has that identifier.  Otherwise it succeeds, leaves
    jobs and projects as they are, and changes the records of that
    project and step only: their status becomes the given one, and their
    job becomes the given one unless none or the empty identifier is
    given, in which case the job they had is kept.  When the step has no
    record the store is left as it is. *)
Theorem update_pipeline_step_effect
    (d : Db) (project_id step_name : string) (s : Status)
    (job_id : option string) :
  (forall e,
      update_pipeline_step d project_id step_name s job_id = Raise e
      <-> e = IntegrityError
          /\ is_Some (get_step d project_id step_name)
          /\ exists i, job_id = Some i /\ i <> "" /\ get_job d i = None)
  /\ (forall d1,
        update_pipeline_step d project_id step_name s job_id = Ok d1 ->
        jobs d1 = jobs d
        /\ projects d1 = projects d
        /\ (get_step d project_id step_name = None -> d1 = d)
        /\ (forall p n,
              get_step d1 p n
              = option_map
                  (fun r =>
                     if step_matches project_id step_name r
                     then Step.mk (Step.id r) (Step.project_id r)
                            (Step.step_name r) (Step.step_order r)
                            (if truthy_opt job_id then job_id else Step.job_id r)
                            s (Step.is_optional r)
                     else r)
                  (get_step d p n))).
Proof.
  unfold update_pipeline_step, get_step. split.
  - intros e. rewrite <- existsb_is_Some_find.
    destruct (truthy_opt job_id) eqn:T.
    + apply truthy_opt_Some in T as (i & -> & Hi).
      destruct (existsb _ _); cbn [andb].
      * destruct (get_job d i) eqn:G; cbn [negb]; split.
        -- discriminate.
        -- intros (_ & _ & i' & [= <-] & _ & H). congruence.
        -- intros [= <-]. repeat split. exists i. auto.
        -- now intros (-> & _).
      * split; [discriminate | now intros (_ & H & _)].
    + split; [discriminate |].
      intros (_ & _ & i & -> & Hi & _).
      assert (truthy_opt (Some i) = true) by (apply truthy_opt_Some; eauto).
      congruence.
  - intros d1 H. pose proof (update_pipeline_step_Ok _ _ _ _ _ _ H) as Hd1.
    repeat split.
    + now subst d1.
    + now subst d1.
    + intros Hnone. subst d1. rewrite map_unmatched by exact Hnone.
      now destruct d.
    + intros p n. fold (get_step d1 p n). fold (get_step d p n).
      now apply get_step_update_pipeline_step.
Qed.

Lemma update_pipeline_step_effect_witness :
  update_pipeline_step db_project "3f2a9c1e" "remove_chimera" running
    (Some job1) = Raise IntegrityError
  /\ update_pipeline_step db_project "3f2a9c1e" "blast" running None
     = Ok db_project.
Proof.
  pose proof (update_pipeline_step_effect db_project "3f2a9c1e"
                "remove_chimera" running (Some job1)) as [H1 _].
  pose proof (update_pipeline_step_effect db_project "3f2a9c1e" "blast"
                running None) as [_ H2].
  split.
  - apply H1. split; [reflexivity |]. split; [vm_compute; eauto |].
    exists job1. repeat split. discriminate.
  - destruct (update_pipeline_step db_project "3f2a9c1e" "blast" running None)
      as [d1|e] eqn:E; [| vm_compute in E; discriminate].
    destruct (H2 d1 eq_refl) as (_ & _ & H & _).
    rewrite H; reflexivity.
Defined.

(** ** The completion monitor: registry and frame *)

Lemma exited_inv (poll : Popen -> option Z)
    (d : list (string * (Popen * option string * option string)))
    (id : string) (rc : Z) (p n : option string) :
  (id, rc, p, n) ∈ exited poll d ->
  exists proc, (id, (proc, p, n)) ∈ d /\ poll proc = Some rc.
Proof.
  induction d as [|[k [[proc' p'] n']] d IH]; simpl.
  - intros H. inversion H.
  - intros H. apply elem_of_app in H as [H|H].
    + destruct (poll proc') as [rc'|] eqn:E; [| inversion H].
      apply list_elem_of_singleton in H. injection H as -> -> -> ->.
      exists proc'. split; [apply list_elem_of_here | exact E].
    + destruct (IH H) as (proc & Hin & Hp).
      exists proc. split; [now apply list_elem_of_further | exact Hp].
Qed.

Lemma exited_elem (poll : Popen -> option Z)
    (d : list (string * (Popen * option string * option string)))
    (id : string) (proc : Popen) (rc : Z) (p n : option string) :
  (id, (proc, p, n)) ∈ d -> poll proc = Some rc ->
  (id, rc, p, n) ∈ exited poll d.
Proof.
  induction d as [|[k [[proc' p'] n']] d IH]; intros Hin Hp.
  - inversion Hin.
  - simpl. apply elem_of_app. apply elem_of_cons in Hin as [Heq|Hin].
    + injection Heq as <- <- <- <-. left. rewrite Hp.
      apply list_elem_of_here.
    + right. now apply IH.
Qed.

Lemma exited_nil (poll : Popen -> option Z)
    (d : list (string * (Popen * option string * option string))) :
  (forall e, e ∈ d -> poll (fst (fst (snd e))) = None) ->
  exited poll d = [].
Proof.
  induction d as [|[k [[proc p] n]] d IH]; intros H; [reflexivity |].
  pose proof (H (k, (proc, p, n)) ltac:(apply list_elem_of_here)) as H0.
  cbn [fst snd] in H0. simpl. rewrite H0.
  apply IH. intros e He. apply H. now apply list_elem_of_further.
Qed.

Lemma NoDup_keys_value {V : Type} (d : list (string * V)) (k : string) (v v' : V) :
  NoDup (map fst d) -> (k, v) ∈ d -> (k, v') ∈ d -> v = v'.
Proof.
  induction d as [|[k0 v0] d IH]; intros Hnd H1 H2.
  - inversion H1.
  - cbn [map fst] in Hnd. apply NoDup_cons in Hnd as [Hk Hnd].
    apply elem_of_cons in H1 as [E1|H1], H2 as [E2|H2].
    + congruence.
    + injection E1 as -> ->. exfalso. apply Hk.
      change k0 with (fst (k0, v')). now apply list_elem_of_fmap_2.
    + injection E2 as -> ->. exfalso. apply Hk.
      change k0 with (fst (k0, v)). now apply list_elem_of_fmap_2.
    + now apply IH.
Qed.

Lemma filter_iff_elem {A : Type} (P Q : A -> Prop)
    `{!forall x, Decision (P x)} `{!forall x, Decision (Q x)} (l : list A) :
  (forall x, x ∈ l -> P x <-> Q x) -> filter P l = filter Q l.
Proof.
  induction l as [|x l IH]; intros Hl; [reflexivity |].
  rewrite !filter_cons.
  rewrite IH by (intros y Hy; apply Hl; now apply list_elem_of_further).
  pose proof (Hl x ltac:(apply list_elem_of_here)) as Hx.
  destruct (decide (P x)), (decide (Q x)); tauto.
Qed.

Lemma del_loop_filter {V : Type}
    (l : list (string * Z * option string * option string))
    (a : list (string * V)) :
  foldl (fun d c => dict_del (fst (fst (fst c))) d) a l
  = filter (fun e => fst e ∉ map (fun c => fst (fst (fst c))) l) a.
Proof.
  revert a. induction l as [|c l IH]; intros a; cbn [foldl map].
  - induction a as [|e a IHa]; [reflexivity |].
    rewrite filter_cons_True by apply not_elem_of_nil. now f_equal.
  - rewrite IH. unfold dict_del. rewrite list_filter_filter.
    apply list_filter_iff. intros e. rewrite not_elem_of_cons.
    destruct (fst e =? fst (fst (fst c))) eqn:E; cbn [negb Is_true].
    + apply String.eqb_eq in E. tauto.
    + apply String.eqb_neq in E. tauto.
Qed.

Lemma NoDup_keys_filter {V : Type} (P : string * V -> Prop)
    `{!forall x, Decision (P x)} (d : list (string * V)) :
  NoDup (map fst d) -> NoDup (map fst (filter P d)).
Proof.
  intros Hnd. eapply sublist_NoDup; [exact Hnd |].
  apply (fmap_sublist fst). apply sublist_filter.
Qed.

(** X12. A tick removes from the registry exactly the entries whose
    process has exited and keeps the others in their order; the keys of
    the registry stay distinct.  A tick in which no registered process has
    exited changes nothing at all. *)
Theorem poll_tick_registry
    (poll : Popen -> option Z) (isfile : string -> bool) (now : string)
    (st : State) :
  (NoDup (map fst (active st)) ->
   active (poll_tick poll isfile now st)
   = filter (fun e => poll (fst (fst (snd e))) = None) (active st)
   /\ NoDup (map fst (active (poll_tick poll isfile now st))))
  /\ ((forall e, e ∈ active st -> poll (fst (fst (snd e))) = None) ->
      poll_tick poll isfile now st = st).
Proof.
  split.
  - intros Hnd.
    assert (E : active (poll_tick poll isfile now st)
                = filter (fun e => poll (fst (fst (snd e))) = None) (active st)).
    { unfold poll_tick. cbn [active]. rewrite del_loop_filter.
      apply filter_iff_elem. intros [k [[proc p] n]] Hin. cbn [fst snd].
      split.
      - intros Hk. destruct (poll proc) as [rc|] eqn:Hp; [| reflexivity].
        exfalso. apply Hk.
        change k with (fst (fst (fst (k, rc, p, n)))).
        apply (list_elem_of_fmap_2 (fun c => fst (fst (fst c)))).
        now apply exited_elem with proc.
      - intros Hp Hk.
        apply list_elem_of_fmap in Hk as ([[[id rc] p'] n'] & Hid & Hc).
        cbn [fst] in Hid. subst id.
        apply exited_inv in Hc as (proc' & Hin' & Hp').
        pose proof (NoDup_keys_value _ _ _ _ Hnd Hin Hin') as Hv.
        injection Hv as -> _ _. congruence. }
    split; [exact E |]. rewrite E. now apply NoDup_keys_filter.
  - intros Hidle. unfold poll_tick. rewrite exited_nil by exact Hidle.
    cbn [foldl]. now destruct st.
Qed.

Lemma poll_tick_registry_witness :
  active (poll_tick (fun _ => Some 0%Z) only_fasta "2024-05-01T10:07:31.000500"
            (snd submitted)) = []
  /\ poll_tick (fun _ => None) only_fasta "2024-05-01T10:07:31.000500"
       (snd submitted) = snd submitted.
Proof.
  split.
  - destruct (proj1 (poll_tick_registry (fun _ => Some 0%Z) only_fasta
                       "2024-05-01T10:07:31.000500" (snd submitted)))
      as [E _].
    + vm_compute. repeat constructor. intros H. inversion H.
    + rewrite E. vm_compute. reflexivity.
  - apply (proj2 (poll_tick_registry (fun _ => None) only_fasta
                    "2024-05-01T10:07:31.000500" (snd submitted))).
    reflexivity.
Defined.

Lemma record_exit_frame (isfile : string -> bool) (now : string) (d : Db)
    (job_id : string) (rc : Z) :
  projects (record_exit isfile now d job_id rc) = projects d
  /\ pipeline_steps (record_exit isfile now d job_id rc) = pipeline_steps d
  /\ map Job.job_id (jobs (record_exit isfile now d job_id rc))
     = map Job.job_id (jobs d).
Proof.
  unfold record_exit.
  assert (H1 : map Job.job_id
                 (jobs (update_job_status d now job_id (exit_status rc) (Some rc)))
               = map Job.job_id (jobs d))
    by (unfold update_job_status; cbn [jobs with_jobs];
        now apply job_ids_update_row).
  destruct (get_job _ job_id) as [job|]; [| now repeat split].
  destruct (Job.output_files job) as [outs|]; [| now repeat split].
  destruct (bool_decide (outs = ∅)); [now repeat split |].
  destruct (bool_decide (_ = outs)); [now repeat split |].
  repeat split.
  unfold update_job_output_files. cbn [jobs with_jobs].
  rewrite job_ids_update_row by reflexivity. exact H1.
Qed.

Lemma settle_frame (isfile : string -> bool) (now : string) (d : Db)
    (c : string * Z * option string * option string) :
  projects (settle isfile now d c) = projects d
  /\ map Job.job_id (jobs (settle isfile now d c)) = map Job.job_id (jobs d)
  /\ map (fun r => (Step.id r, Step.project_id r, Step.step_name r,
                    Step.step_order r, Step.is_optional r))
       (pipeline_steps (settle isfile now d c))
     = map (fun r => (Step.id r, Step.project_id r, Step.step_name r,
                      Step.step_order r, Step.is_optional r))
         (pipeline_steps d).
Proof.
  destruct c as [[[id rc] p] n].
  destruct (record_exit_frame isfile now d id rc) as (H1 & H2 & H3).
  unfold settle.
  destruct (truthy_opt p && truthy_opt n); [| now rewrite H1, H2, H3].
  destruct p as [p|], n as [n|]; try now rewrite H1, H2, H3.
  destruct (update_pipeline_step _ p n _ _) as [d3|e] eqn:E;
    [| now rewrite H1, H2, H3].
  apply update_pipeline_step_Ok in E. subst d3.
  cbn [projects jobs pipeline_steps with_steps]. rewrite H1, H2, H3.
  repeat split. rewrite map_map. apply map_ext. intros r.
  now destruct (step_matches p n r).
Qed.

Lemma settle_loop_frame (isfile : string -> bool) (now : string)
    (l : list (string * Z * option string * option string)) (d : Db) :
  projects (foldl (settle isfile now) d l) = projects d
  /\ map Job.job_id (jobs (foldl (settle isfile now) d l))
     = map Job.job_id (jobs d)
  /\ map (fun r => (Step.id r, Step.project_id r, Step.step_name r,
                    Step.step_order r, Step.is_optional r))
       (pipeline_steps (foldl (settle isfile now) d l))
     = map (fun r => (Step.id r, Step.project_id r, Step.step_name r,
                      Step.step_order r, Step.is_optional r))
         (pipeline_steps d).
Proof.
  revert d. induction l as [|c l IH]; intros d; [now repeat split |].
  cbn [foldl]. destruct (IH (settle isfile now d c)) as (H1 & H2 & H3).
  destruct (settle_frame isfile now d c) as (G1 & G2 & G3).
  rewrite H1, H2, H3. now repeat split.
Qed.

(** X13. A tick writes nothing to the host and leaves the projects as
    they are; it neither adds nor removes a job record or a step record,
    and of a step record it changes at most the status and the job; the
    record of a job that is not registered, or whose process is still
    running, is not touched. *)
Theorem poll_tick_frame
    (poll : Popen -> option Z) (isfile : string -> bool) (now : string)
    (st : State) :
  trace (poll_tick poll isfile now st) = trace st
  /\ projects (db (poll_tick poll isfile now st)) = projects (db st)
  /\ map Job.job_id (jobs (db (poll_tick poll isfile now st)))
     = map Job.job_id (jobs (db st))
  /\ map (fun r => (Step.id r, Step.project_id r, Step.step_name r,
                    Step.step_order r, Step.is_optional r))
       (pipeline_steps (db (poll_tick poll isfile now st)))
     = map (fun r => (Step.id r, Step.project_id r, Step.step_name r,
                      Step.step_order r, Step.is_optional r))
         (pipeline_steps (db st))
  /\ (forall job_id,
        (forall proc p n,
            (job_id, (proc, p, n)) ∈ active st -> poll proc = None) ->
        get_job (db (poll_tick poll isfile now st)) job_id
        = get_job (db st) job_id).
Proof.
  unfold poll_tick. cbn [db trace].
  destruct (settle_loop_frame isfile now (exited poll (active st)) (db st))
    as (H1 & H2 & H3).
  repeat split; try assumption.
  intros job_id Hrun. apply get_job_settle_others.
  apply Forall_forall. intros [[[id rc] p] n] Hc Hid. cbn [fst] in Hid.
  subst id. apply exited_inv in Hc as (proc & Hin & Hp).
  rewrite (Hrun proc p n Hin) in Hp. discriminate.
Qed.

Lemma poll_tick_frame_witness :
  get_job (db (poll_tick (fun _ => Some 0%Z) any_file
                 "2024-05-01T10:31:10.000000" reads_done)) job0
  = get_job (db reads_done) job0.
Proof.
  apply (proj2 (proj2 (proj2 (proj2
           (poll_tick_frame (fun _ => Some 0%Z) any_file
              "2024-05-01T10:31:10.000000" reads_done))))).
  intros proc p n H. vm_compute in H. inversion H.
Defined.

Lemma get_step_record_exit (isfile : string -> bool) (now : string) (d : Db)
    (job_id : string) (rc : Z) (p n : string) :
  get_step (record_exit isfile now d job_id rc) p n = get_step d p n.
Proof.
  unfold get_step.
  now rewrite (proj1 (proj2 (record_exit_frame isfile now d job_id rc))).
Qed.

Lemma get_step_settle_other (isfile : string -> bool) (now : string) (d : Db)
    (c : string * Z * option string * option string) (p n : string) :
  (snd (fst c), snd c) <> (Some p, Some n) ->
  get_step (settle isfile now d c) p n = get_step d p n.
Proof.
  destruct c as [[[id rc] p'] n']. cbn [fst snd]. intros Hne.
  unfold settle.
  destruct (truthy_opt p' && truthy_opt n'); [| apply get_step_record_exit].
  destruct p' as [p'|], n' as [n'|]; try apply get_step_record_exit.
  destruct (update_pipeline_step _ p' n' _ _) as [d3|e] eqn:E;
    [| apply get_step_record_exit].
  rewrite (get_step_update_pipeline_step _ _ _ _ _ _ p n E).
  rewrite get_step_record_exit.
  destruct (get_step d p n) as [r|] eqn:G; [| reflexivity].
  cbn [option_map]. apply find_elem_of in G as [_ G].
  apply step_matches_eq in G as [G1 G2].
  destruct (step_matches p' n' r) eqn:M; [| reflexivity].
  apply step_matches_eq in M as [M1 M2]. congruence.
Qed.

Lemma get_step_settle_others (isfile : string -> bool) (now : string)
    (l : list (string * Z * option string * option string)) (d : Db)
    (p n : string) :
  Forall (fun c => (snd (fst c), snd c) <> (Some p, Some n)) l ->
  get_step (foldl (settle isfile now) d l) p n = get_step d p n.
Proof.
  revert d. induction l as [|c l IH]; intros d Hl; [reflexivity |].
  apply Forall_cons in Hl as [Hc Hl]. cbn [foldl].
  rewrite IH by exact Hl. now apply get_step_settle_other.
Qed.

(** X14. In a tick, when the process of a registered job that is tied to
    a project and a step has exited, the job is on record, and no other
    job tied to that step exits in the same tick, the record of the step,
    if there is one, gets the status of the job ([completed] for exit
    code 0, [failed] otherwise) and the job itself; a step without record
    stays without. *)
Theorem poll_tick_updates_step
    (poll : Popen -> option Z) (isfile : string -> bool) (now : string)
    (st : State) (job_id : string) (proc : Popen) (p n : string) (rc : Z)
    (job : Job.t) :
  NoDup (map fst (active st)) ->
  (job_id, (proc, Some p, Some n)) ∈ active st ->
  job_id <> "" -> p <> "" -> n <> "" ->
  poll proc = Some rc ->
  get_job (db st) job_id = Some job ->
  (forall id' proc',
      (id', (proc', Some p, Some n)) ∈ active st ->
      id' = job_id \/ poll proc' = None) ->
  get_step (db (poll_tick poll isfile now st)) p n
  = option_map
      (fun r => Step.mk (Step.id r) (Step.project_id r) (Step.step_name r)
                  (Step.step_order r) (Some job_id) (exit_status rc)
                  (Step.is_optional r))
      (get_step (db st) p n).
Proof.
  intros Hnd Hin Hid Hp Hn Hpoll Hjob Hsole.
  destruct (exited_split poll (active st) job_id proc (Some p) (Some n) rc
              Hnd Hin Hpoll) as (l1 & l2 & E & H1 & H2).
  assert (Hother : forall l,
             (forall c, c ∈ l -> c ∈ exited poll (active st)) ->
             Forall (fun c => fst (fst (fst c)) <> job_id) l ->
             Forall (fun c => (snd (fst c), snd c) <> (Some p, Some n)) l).
  { intros l Hsub Hl. apply Forall_forall. intros [[[id' rc'] p'] n'] Hc.
    cbn [fst snd]. intros Heq. injection Heq as -> ->.
    rewrite Forall_forall in Hl. specialize (Hl _ Hc). cbn [fst] in Hl.
    apply Hsub, exited_inv in Hc as (proc' & Hin' & Hp').
    destruct (Hsole id' proc' Hin') as [->|Hnone]; [now apply Hl | congruence]. }
  assert (Hl1 : Forall (fun c => (snd (fst c), snd c) <> (Some p, Some n)) l1).
  { apply Hother; [| exact H1]. intros c Hc. rewrite E.
    apply elem_of_app. now left. }
  assert (Hl2 : Forall (fun c => (snd (fst c), snd c) <> (Some p, Some n)) l2).
  { apply Hother; [| exact H2]. intros c Hc. rewrite E.
    apply elem_of_app. right. now apply list_elem_of_further. }
  unfold poll_tick. cbn [db]. rewrite E, foldl_app. cbn [foldl].
  rewrite get_step_settle_others by exact Hl2.
  set (d1 := foldl (settle isfile now) (db st) l1).
  assert (Hs1 : get_step d1 p n = get_step (db st) p n)
    by (now apply get_step_settle_others).
  assert (Hj1 : get_job d1 job_id = Some job)
    by (unfold d1; now rewrite get_job_settle_others).
  rewrite <- Hs1. clearbody d1.
  unfold settle. unfold truthy_opt, truthy_str.
  apply String.eqb_neq in Hp, Hn. rewrite Hp, Hn. cbn [negb andb].
  destruct (update_pipeline_step _ p n _ _) as [d3|e] eqn:U.
  - rewrite (get_step_update_pipeline_step _ _ _ _ _ _ p n U).
    rewrite get_step_record_exit.
    destruct (get_step d1 p n) as [r|] eqn:G; [| reflexivity].
    cbn [option_map]. apply find_elem_of in G as [_ G]. rewrite G.
    unfold truthy_opt, truthy_str. apply String.eqb_neq in Hid.
    now rewrite Hid.
  - exfalso. unfold update_pipeline_step in U.
    unfold truthy_opt, truthy_str in U. apply String.eqb_neq in Hid.
    rewrite Hid in U. cbn [negb] in U.
    rewrite get_job_record_exit, String.eqb_refl, Hj1 in U.
    cbn [option_map negb] in U. rewrite andb_false_r in U. discriminate.
Qed.

Lemma poll_tick_updates_step_witness :
  step_view (poll_tick (fun _ => Some 2%Z) no_file "2024-05-01T10:07:31.000500"
               (snd submitted)) "3f2a9c1e" "remove_chimera"
  = Some (failed, Some job1).
Proof.
  unfold step_view.
  rewrite (poll_tick_updates_step (fun _ => Some 2%Z) no_file
             "2024-05-01T10:07:31.000500" (snd submitted) job1
             {| proc_pid := 4242 |} "3f2a9c1e" "remove_chimera" 2%Z
             (match get_job (db (snd submitted)) job1 with
              | Some j => j
              | None => later_run
              end)).
  - vm_compute. reflexivity.
  - vm_compute. repeat constructor. intros H. inversion H.
  - vm_compute. left.
  - discriminate.
  - discriminate.
  - discriminate.
  - reflexivity.
  - vm_compute. reflexivity.
  - intros id' proc' H. left. vm_compute in H.
    apply list_elem_of_singleton in H. now injection H as ->.
Defined.

(** ** Submission *)

Lemma dict_get_set_eq {V : Type} (k : string) (v : V) (d : list (string * V)) :
  dict_get k (dict_set k v d) = Some v.
Proof.
  unfold dict_get. induction d as [|[k' v'] d IH]; cbn [dict_set find fst].
  - now rewrite String.eqb_refl.
  - destruct (k' =? k) eqn:E; cbn [find fst].
    + now rewrite String.eqb_refl.
    + rewrite E. exact IH.
Qed.

Lemma dict_get_set_ne {V : Type} (k k0 : string) (v : V) (d : list (string * V)) :
  k0 <> k -> dict_get k0 (dict_set k v d) = dict_get k0 d.
Proof.
  intros Hne. unfold dict_get.
  induction d as [|[k' v'] d IH]; cbn [dict_set find fst].
  - apply not_eq_sym, String.eqb_neq in Hne. now rewrite Hne.
  - destruct (k' =? k) eqn:E; cbn [find fst].
    + apply String.eqb_eq in E. subst k'.
      apply not_eq_sym, String.eqb_neq in Hne. now rewrite Hne.
    + destruct (k' =? k0); [reflexivity | exact IH].
Qed.

Lemma dict_set_keys {V : Type} (k : string) (v : V) (d : list (string * V)) :
  map fst (dict_set k v d)
  = if bool_decide (k ∈ map fst d) then map fst d else (map fst d ++ [k])%list.
Proof.
  induction d as [|[k' v'] d IH]; cbn [dict_set map fst].
  - rewrite bool_decide_eq_false_2 by apply not_elem_of_nil. reflexivity.
  - destruct (k' =? k) eqn:E.
    + apply String.eqb_eq in E. subst k'.
      rewrite bool_decide_eq_true_2 by apply list_elem_of_here. reflexivity.
    + apply String.eqb_neq in E. cbn [map fst]. rewrite IH.
      destruct (bool_decide (k ∈ map fst d)) eqn:B.
      * apply bool_decide_eq_true_1 in B.
        rewrite bool_decide_eq_true_2 by (now apply list_elem_of_further).
        reflexivity.
      * apply bool_decide_eq_false_1 in B.
        rewrite bool_decide_eq_false_2; [reflexivity |].
        rewrite not_elem_of_cons. split; [congruence | exact B].
Qed.

Lemma dict_set_NoDup {V : Type} (k : string) (v : V) (d : list (string * V)) :
  NoDup (map fst d) -> NoDup (map fst (dict_set k v d)).
Proof.
  intros Hnd. rewrite dict_set_keys.
  destruct (bool_decide (k ∈ map fst d)) eqn:B; [exact Hnd |].
  apply bool_decide_eq_false_1 in B.
  apply NoDup_app. repeat split; [exact Hnd | | apply NoDup_singleton].
  intros x Hx Hk. apply list_elem_of_singleton in Hk. now subst x.
Qed.

(** X15. A submission that passes validation, whose command is built and
    consists of strings, whose process starts, whose job identifier is
    new and whose project, if given, exists, returns the job identifier
    and leaves: a job record with status [running], the process id, the
    parameters as given, the command, the job directory, the two capture
    files in it, the log file (the resolved "log" output or frogs.log in the
    job directory) and the resolved outputs when there are any; the job in
    the monitor's registry with its process, project and step; the
    directory creation and the process start, in this order, as the only
    new effects on the host.  Other jobs, other registry entries and the
    projects are as before. *)
Theorem submit_job_success
    (cfg : Config) (TOOLS : gmap string ToolSpec.t) (uuid now : string)
    (proc : Popen) (st : State) (tool_name : string)
    (params : gmap string pyval) (project_id step_name : option string)
    (tool_spec : ToolSpec.t) (cmd : list pyval) (outs : gmap string string) :
  let job_dir :=
    os_path_join
      (os_path_join (WORKSPACE_ROOT cfg)
         (if truthy_opt project_id
          then match project_id with Some p => p | None => "standalone" end
          else "standalone"))
      uuid in
  validate TOOLS tool_name params = Ok tool_spec ->
  build_command cfg tool_spec params job_dir = Ok (cmd, outs) ->
  forallb is_str cmd = true ->
  get_job (db st) uuid = None ->
  (forall p, project_id = Some p -> project_exists (db st) p = true) ->
  exists st',
    submit_job cfg TOOLS uuid now (Some proc) st tool_name params project_id
      step_name = (Ok uuid, st')
    /\ get_job (db st') uuid
       = Some (Job.mk uuid project_id tool_name step_name params cmd running
                 (Some (proc_pid proc)) now None None
                 (os_path_join job_dir "stdout.txt")
                 (os_path_join job_dir "stderr.txt")
                 (match outs !! "log" with
                  | Some l => l
                  | None => os_path_join job_dir "frogs.log"
                  end)
                 (if bool_decide (outs = ∅) then None else Some outs)
                 job_dir now)
    /\ (forall id, id <> uuid -> get_job (db st') id = get_job (db st) id)
    /\ dict_get uuid (active st') = Some (proc, project_id, step_name)
    /\ (forall id, id <> uuid -> dict_get id (active st') = dict_get id (active st))
    /\ (NoDup (map fst (active st)) -> NoDup (map fst (active st')))
    /\ trace st' = (trace st ++ [Makedirs job_dir; Spawn cmd job_dir])%list
    /\ projects (db st') = projects (db st)
    /\ pipeline_steps (db st') = pipeline_steps (db st).
Proof.
  intros job_dir Hval Hcmd Hstr Hnew Hproj.
  unfold submit_job. rewrite Hval. fold job_dir. rewrite Hcmd, Hstr.
  cbn [negb]. unfold insert_job. cbn [db log_event]. rewrite Hnew.
  assert (Hp : match project_id with
               | Some p => project_exists (db st) p
               | None => true
               end = true)
    by (destruct project_id as [p|]; [now apply Hproj | reflexivity]).
  rewrite Hp. eexists. split; [reflexivity |].
  unfold register. cbn [db active trace].
  repeat split.
  - destruct (bool_decide (outs = ∅)).
    + unfold get_job. cbn [jobs with_jobs]. unfold get_job in Hnew.
      rewrite find_app_last, Hnew. cbn [Job.job_id].
      now rewrite String.eqb_refl.
    + rewrite get_job_update_job_output_files, String.eqb_refl.
      unfold get_job. cbn [jobs with_jobs]. unfold get_job in Hnew.
      rewrite find_app_last, Hnew. cbn [Job.job_id].
      now rewrite String.eqb_refl.
  - intros id Hne.
    assert (E : get_job (with_jobs (db st)
                           (jobs (db st) ++
                            [Job.mk uuid project_id tool_name step_name params
                               cmd running (Some (proc_pid proc)) now None None
                               (os_path_join job_dir "stdout.txt")
                               (os_path_join job_dir "stderr.txt")
                               (match outs !! "log" with
                                | Some l => l
                                | None => os_path_join job_dir "frogs.log"
                                end) None job_dir now])%list) id
                = get_job (db st) id).
    { unfold get_job. cbn [jobs with_jobs]. rewrite find_app_last.
      cbn [Job.job_id]. apply not_eq_sym, String.eqb_neq in Hne.
      rewrite Hne. now destruct (find (fun j => Job.job_id j =? id) (jobs (db st))). }
    destruct (bool_decide (outs = ∅)); [exact E |].
    rewrite get_job_update_job_output_files.
    apply String.eqb_neq in Hne. now rewrite Hne.
  - apply dict_get_set_eq.
  - intros id Hne. now apply dict_get_set_ne.
  - apply dict_set_NoDup.
  - unfold log_event. cbn [trace]. now rewrite <- app_assoc.
  - now destruct (bool_decide (outs = ∅)).
  - now destruct (bool_decide (outs = ∅)).
Qed.

Lemma submit_job_success_witness :
  fst submitted = Ok job1
  /\ status_at (snd submitted) job1 = Some running
  /\ dict_get job1 (active (snd submitted))
     = Some ({| proc_pid := 4242 |}, Some "3f2a9c1e", Some "remove_chimera").
Proof.
  destruct (submit_job_success cfg_sample TOOLS_sample job1
              "2024-05-01T10:00:01.000250" {| proc_pid := 4242 |} st_project
              "remove_chimera" chimera_params (Some "3f2a9c1e")
              (Some "remove_chimera") tool_remove_chimera
              (match build_command cfg_sample tool_remove_chimera chimera_params
                       job1_dir with
               | Ok r => fst r
               | Raise _ => []
               end)
              chimera_outs)
    as (st' & Hs & Hjob & _ & Hreg & _).
  - reflexivity.
  - vm_compute. reflexivity.
  - vm_compute. reflexivity.
  - reflexivity.
  - intros p Hp. injection Hp as <-. reflexivity.
  - unfold submitted, status_at. rewrite Hs. cbn [fst snd].
    rewrite Hjob, Hreg. repeat split.
Defined.

(** X16. A submission that fails changes neither the store nor the
    monitor's registry.  It has touched the host only by creating the job
    directory, unless validation failed, in which case it has done
    nothing; and it has started a process exactly when the store then
    refused the job record (identifier taken or project unknown), so that
    this process runs without record and without being monitored. *)
Theorem submit_job_failure
    (cfg : Config) (TOOLS : gmap string ToolSpec.t) (uuid now : string)
    (spawn : option Popen) (st : State) (tool_name : string)
    (params : gmap string pyval) (project_id step_name : option string)
    (e : exn) :
  fst (submit_job cfg TOOLS uuid now spawn st tool_name params project_id
         step_name) = Raise e ->
  db (snd (submit_job cfg TOOLS uuid now spawn st tool_name params project_id
             step_name)) = db st
  /\ active (snd (submit_job cfg TOOLS uuid now spawn st tool_name params
                    project_id step_name)) = active st
  /\ (validate TOOLS tool_name params = Raise e
      /\ trace (snd (submit_job cfg TOOLS uuid now spawn st tool_name params
                       project_id step_name)) = trace st
      \/ (exists tool_spec dir,
             validate TOOLS tool_name params = Ok tool_spec
             /\ trace (snd (submit_job cfg TOOLS uuid now spawn st tool_name
                              params project_id step_name))
                = (trace st ++ [Makedirs dir])%list)
      \/ (exists tool_spec dir cmd proc,
             validate TOOLS tool_name params = Ok tool_spec
             /\ spawn = Some proc
             /\ trace (snd (submit_job cfg TOOLS uuid now spawn st tool_name
                              params project_id step_name))
                = (trace st ++ [Makedirs dir; Spawn cmd dir])%list
             /\ e = IntegrityError
             /\ (is_Some (get_job (db st) uuid)
                 \/ exists p, project_id = Some p
                              /\ project_exists (db st) p = false))).
Proof.
  unfold submit_job.
  destruct (validate TOOLS tool_name params) as [tool_spec|e0] eqn:V.
  2:{ cbn [fst snd]. intros [= <-]. repeat split. now left. }
  match goal with
  | |- context [build_command cfg tool_spec params ?d] => set (job_dir := d)
  end.
  destruct (build_command cfg tool_spec params job_dir) as [[cmd outs]|e1].
  2:{ cbn [fst snd]. intros _. repeat split. right. left.
      now exists tool_spec, job_dir. }
  destruct (forallb is_str cmd); cbn [negb].
  2:{ cbn [fst snd]. intros _. repeat split. right. left.
      now exists tool_spec, job_dir. }
  destruct spawn as [proc|].
  2:{ cbn [fst snd]. intros _. repeat split. right. left.
      now exists tool_spec, job_dir. }
  unfold insert_job. cbn [db log_event].
  destruct (get_job (db st) uuid) as [j|] eqn:G.
  { cbn [fst snd db active trace]. intros [= <-]. repeat split. right. right.
    exists tool_spec, job_dir, cmd, proc.
    split; [reflexivity |]. split; [reflexivity |].
    split; [unfold log_event; cbn [trace]; now rewrite <- app_assoc |]. split; [reflexivity |].
    left. eauto. }
  destruct project_id as [p|].
  - destruct (project_exists (db st) p) eqn:P; [discriminate |].
    cbn [fst snd db active trace]. intros [= <-]. repeat split. right. right.
    exists tool_spec, job_dir, cmd, proc.
    split; [reflexivity |]. split; [reflexivity |].
    split; [unfold log_event; cbn [trace]; now rewrite <- app_assoc |]. split; [reflexivity |].
    right. eauto.
  - discriminate.
Qed.

Lemma submit_job_failure_witness :
  db (snd (submit_job cfg_sample TOOLS_sample job1 "2024-05-01T10:00:01.000250"
             (Some {| proc_pid := 4242 |}) st_empty "remove_chimera"
             chimera_params (Some "3f2a9c1e") (Some "remove_chimera")))
  = db_none
  /\ active (snd (submit_job cfg_sample TOOLS_sample job1
                    "2024-05-01T10:00:01.000250" (Some {| proc_pid := 4242 |})
                    st_empty "remove_chimera" chimera_params (Some "3f2a9c1e")
                    (Some "remove_chimera"))) = [].
Proof.
  destruct (submit_job_failure cfg_sample TOOLS_sample job1
              "2024-05-01T10:00:01.000250" (Some {| proc_pid := 4242 |})
              st_empty "remove_chimera" chimera_params (Some "3f2a9c1e")
              (Some "remove_chimera") IntegrityError) as (H1 & H2 & _).
  - vm_compute. reflexivity.
  - split; [exact H1 | exact H2].
Defined.

(** ** Cancellation of a job that has a process *)

(** X17. Cancelling a job whose record holds a process id: for process id
    0 nothing is signalled and the answer is false; otherwise exactly one
    signal is sent, to that process id.  When the signal arrives the
    answer is true and the record gets status [cancelled], exit code -15
    and an end time, its other fields and all other records staying as
    they are; when the process is gone the answer is false and when the
    signal is not permitted a permission error is raised, the store
    staying as it is in both cases. *)
Theorem cancel_job_with_process
    (kill : Z -> kill_outcome) (now : string) (st : State) (job_id : string)
    (job : Job.t) (pid : Z) :
  get_job (db st) job_id = Some job ->
  Job.pid job = Some pid ->
  (pid = 0%Z -> cancel_job kill now st job_id = (Ok false, st))
  /\ (pid <> 0%Z ->
      trace (snd (cancel_job kill now st job_id))
      = (trace st ++ [Kill pid])%list
      /\ (kill pid = Delivered ->
          fst (cancel_job kill now st job_id) = Ok true
          /\ get_job (db (snd (cancel_job kill now st job_id))) job_id
             = Some (Job.mk (Job.job_id job) (Job.project_id job)
                       (Job.tool_name job) (Job.step_name job)
                       (Job.params job) (Job.command job) cancelled
                       (Job.pid job) (Job.start_time job) (Some now)
                       (Some (-15)%Z) (Job.stdout_file job)
                       (Job.stderr_file job) (Job.log_file job)
                       (Job.output_files job) (Job.working_dir job)
                       (Job.created_at job))
          /\ (forall id, id <> job_id ->
                         get_job (db (snd (cancel_job kill now st job_id))) id
                         = get_job (db st) id))
      /\ (kill pid = NoSuchProcess ->
          fst (cancel_job kill now st job_id) = Ok false
          /\ db (snd (cancel_job kill now st job_id)) = db st)
      /\ (forall exc,
            kill pid = NotPermitted exc ->
            fst (cancel_job kill now st job_id)
            = Raise (PermissionError
                       ("Cannot signal PID " +:+ str_of_Z pid +:+ ": " +:+ exc))
            /\ db (snd (cancel_job kill now st job_id)) = db st)).
Proof.
  intros Hjob Hpid. unfold cancel_job. rewrite Hjob, Hpid. split.
  - intros ->. reflexivity.
  - intros Hne. apply Z.eqb_neq in Hne. rewrite Hne.
    split; [| split; [| split]].
    + now destruct (kill pid).
    + intros ->. cbn [fst snd db log_event]. split; [reflexivity |]. split.
      * rewrite get_job_update_job_status, String.eqb_refl, Hjob.
        cbn [option_map]. unfold Job.set_status. now rewrite Hpid.
      * intros id Hid. rewrite get_job_update_job_status.
        apply String.eqb_neq in Hid. now rewrite Hid.
    + intros ->. now split.
    + intros exc ->. now split.
Qed.

Lemma cancel_job_with_process_witness :
  trace (snd after_cancel)
  = (trace (snd submitted) ++ [Kill 4242%Z])%list
  /\ fst after_cancel = Ok true
  /\ status_at (snd after_cancel) job1 = Some cancelled.
Proof.
  destruct (cancel_job_with_process (fun _ => Delivered)
              "2024-05-01T10:03:12.400000" (snd submitted) job1
              (match get_job (db (snd submitted)) job1 with
               | Some j => j
               | None => later_run
               end) 4242%Z) as [_ H].
  - vm_compute. reflexivity.
  - reflexivity.
  - destruct H as (Ht & Hd & _); [discriminate |].
    destruct (Hd eq_refl) as (Hok & Hget & _).
    unfold after_cancel, status_at. rewrite Ht, Hok, Hget. repeat split.
Defined.

(** ** The resolver: where resolved values come from *)

Lemma key_index_origin (l : list Job.t)
    (ix : gmap string string * gmap string string) (k path : string) :
  snd (foldl index_job ix l) !! k = Some path ->
  snd ix !! k = Some path \/ exists j, j ∈ l /\ produces j k = Some path.
Proof.
  revert ix. induction l as [|x l IH]; intros ix H; [now left |].
  cbn [foldl] in H. destruct (IH _ H) as [H1|(j & Hj & Hp)].
  - rewrite index_job_key in H1.
    destruct (produces x k) as [p'|] eqn:E.
    + right. exists x. split; [apply list_elem_of_here | congruence].
    + now left.
  - right. exists j. split; [now apply list_elem_of_further | exact Hp].
Qed.

Lemma full_index_origin (l : list Job.t)
    (ix : gmap string string * gmap string string) (fk path : string) :
  fst (foldl index_job ix l) !! fk = Some path ->
  fst ix !! fk = Some path
  \/ exists j k, j ∈ l /\ produces j k = Some path.
Proof.
  revert ix. induction l as [|x l IH]; intros ix H; [now left |].
  cbn [foldl] in H. destruct (IH _ H) as [H1|(j & k & Hj & Hp)].
  - destruct (index_job_full ix x fk) as [(k & p' & _ & Hp & Hl)|[_ Hl]].
    + right. exists x, k. split; [apply list_elem_of_here | congruence].
    + left. congruence.
  - right. exists j, k. split; [now apply list_elem_of_further | exact Hp].
Qed.

Lemma mem_elem_of (x : string) (l : list string) : mem x l = true -> x ∈ l.
Proof.
  unfold mem. intros H. apply existsb_exists in H as (y & Hy & E).
  apply String.eqb_eq in E. subst y. now apply list_elem_of_In.
Qed.

Lemma apply_rules_origin (tip : list string)
    (full_index key_index : gmap string string)
    (rules : list (string * string * string))
    (resolved : gmap string string) (q path : string) :
  foldl (apply_rule tip full_index key_index) resolved rules !! q = Some path ->
  resolved !! q = Some path
  \/ (q ∈ tip
      /\ ((exists fk, full_index !! fk = Some path)
          \/ exists k, key_index !! k = Some path)).
Proof.
  revert resolved. induction rules as [|[[src out] param] rules IH];
    intros resolved H; [now left |].
  cbn [foldl] in H. destruct (IH _ H) as [H1|H1]; [| now right].
  unfold apply_rule in H1.
  destruct (mem param tip) eqn:M; cbn [negb] in H1; [| now left].
  apply mem_elem_of in M.
  destruct (decide (param = q)) as [->|Hne].
  - destruct (full_index !! full_key (Some src) out) as [p|] eqn:F.
    + rewrite lookup_insert_eq in H1. injection H1 as ->. right. eauto.
    + destruct (key_index !! out) as [p|] eqn:K; [| now left].
      rewrite lookup_insert_eq in H1. injection H1 as ->. right. eauto.
  - destruct (full_index !! full_key (Some src) out).
    + rewrite lookup_insert_ne in H1 by exact Hne. now left.
    + destruct (key_index !! out); [| now left].
      rewrite lookup_insert_ne in H1 by exact Hne. now left.
Qed.

Lemma shorthand_origin (key_index : gmap string string) (l tip : list string)
    (resolved : gmap string string) (q path : string) :
  (forall x, x ∈ l -> x ∈ tip) ->
  foldl (shorthand key_index) resolved l !! q = Some path ->
  resolved !! q = Some path
  \/ (q ∈ tip /\ exists k, key_index !! k = Some path).
Proof.
  revert resolved. induction l as [|x l IH]; intros resolved Hsub H;
    [now left |].
  cbn [foldl] in H.
  destruct (IH _ (fun y Hy => Hsub y (list_elem_of_further _ _ _ Hy)) H)
    as [H1|H1]; [| now right].
  unfold shorthand in H1.
  destruct (has_key x resolved); [now left |].
  destruct (find _ OUTPUT_KEY_TO_INPUT_PARAM) as [[suffix generic]|];
    [| now left].
  destruct (key_index !! suffix) as [p|] eqn:K; [| now left].
  destruct (decide (x = q)) as [->|Hne].
  - rewrite lookup_insert_eq in H1. injection H1 as ->. right.
    split; [apply Hsub, list_elem_of_here | eauto].
  - rewrite lookup_insert_ne in H1 by exact Hne. now left.
Qed.

(** X18. Whatever the resolver proposes for a step is proposed for an
    input-file parameter of that step's tool, and is a non-empty path
    that a completed job in the listing of the project has on record as
    one of its outputs. *)
Theorem resolve_inputs_for_step_sound
    (TOOLS : gmap string ToolSpec.t) (d : Db) (project_id step_name : string)
    (q path : string) :
  resolve_inputs_for_step TOOLS d project_id step_name !! q = Some path ->
  exists tool_spec,
    TOOLS !! step_name = Some tool_spec
    /\ (exists p, p ∈ ToolSpec.params tool_spec
                  /\ ParamSpec.python_name p = q
                  /\ ParamSpec.is_input_file p = true)
    /\ path <> ""
    /\ exists j k outs,
         j ∈ list_jobs d (Some project_id)
         /\ Job.status j = completed
         /\ Job.output_files j = Some outs
         /\ outs !! k = Some path.
Proof.
  intros H.
  destruct (TOOLS !! step_name) as [tool_spec|] eqn:T;
    [| unfold resolve_inputs_for_step in H; rewrite T in H;
       now rewrite lookup_empty in H].
  destruct (get_completed_jobs_for_project d project_id) as [|j0 cj] eqn:C;
    [unfold resolve_inputs_for_step in H; rewrite T, C in H;
     now rewrite lookup_empty in H |].
  rewrite (resolve_inputs_for_step_unfold TOOLS d project_id step_name
             tool_spec T) in H by (rewrite C; discriminate).
  rewrite C in H. exists tool_spec. split; [reflexivity |].
  assert (Hjob : forall j k, j ∈ sort_by by_start (j0 :: cj) ->
                             produces j k = Some path ->
             path <> ""
             /\ exists j k outs,
                  j ∈ list_jobs d (Some project_id)
                  /\ Job.status j = completed
                  /\ Job.output_files j = Some outs
                  /\ outs !! k = Some path).
  { intros j k Hj Hp. apply elem_of_sort_by in Hj. rewrite <- C in Hj.
    unfold get_completed_jobs_for_project in Hj.
    apply list_elem_of_filter in Hj as [Hc Hl].
    apply andb_true_iff in Hc as [Hs _]. apply status_eqb_completed in Hs.
    unfold produces in Hp.
    destruct (Job.output_files j) as [outs|] eqn:O; [| discriminate].
    destruct (outs !! k) as [p|] eqn:L; [| discriminate].
    destruct (truthy_str p) eqn:Tp; [| discriminate]. injection Hp as ->.
    split.
    - unfold truthy_str in Tp. apply negb_true_iff in Tp.
      now apply String.eqb_neq in Tp.
    - exists j, k, outs. auto. }
  assert (Hkey : forall k, snd (build_indexes (j0 :: cj)) !! k = Some path ->
             path <> ""
             /\ exists j k outs,
                  j ∈ list_jobs d (Some project_id)
                  /\ Job.status j = completed
                  /\ Job.output_files j = Some outs
                  /\ outs !! k = Some path).
  { intros k Hk. unfold build_indexes in Hk.
    apply key_index_origin in Hk as [Hk|(j & Hj & Hp)];
      [cbn [fst snd] in Hk; now rewrite lookup_empty in Hk |].
    now apply (Hjob j k). }
  assert (Hfull : forall fk, fst (build_indexes (j0 :: cj)) !! fk = Some path ->
             path <> ""
             /\ exists j k outs,
                  j ∈ list_jobs d (Some project_id)
                  /\ Job.status j = completed
                  /\ Job.output_files j = Some outs
                  /\ outs !! k = Some path).
  { intros fk Hk. unfold build_indexes in Hk.
    apply full_index_origin in Hk as [Hk|(j & k & Hj & Hp)];
      [cbn [fst snd] in Hk; now rewrite lookup_empty in Hk |].
    now apply (Hjob j k). }
  assert (Hq : q ∈ input_params tool_spec ->
               exists p, p ∈ ToolSpec.params tool_spec
                         /\ ParamSpec.python_name p = q
                         /\ ParamSpec.is_input_file p = true).
  { unfold input_params. intros Hin.
    apply list_elem_of_fmap in Hin as (p & -> & Hp).
    apply list_elem_of_filter in Hp as [Hi Hp]. exists p. auto. }
  apply shorthand_origin with (tip := input_params tool_spec) in H;
    [| auto].
  destruct H as [H|[Hin (k & Hk)]].
  - apply apply_rules_origin in H as [H|[Hin [(fk & Hk)|(k & Hk)]]].
    + now rewrite lookup_empty in H.
    + destruct (Hfull fk Hk) as [Hne Hex]. auto.
    + destruct (Hkey k Hk) as [Hne Hex]. auto.
  - destruct (Hkey k Hk) as [Hne Hex]. auto.
Qed.

Lemma resolve_inputs_for_step_sound_witness :
  exists j k outs,
    j ∈ list_jobs (db reads_done) (Some "3f2a9c1e")
    /\ Job.status j = completed
    /\ Job.output_files j = Some outs
    /\ outs !! k = Some (job0_dir +:+ "/reads_processing.fasta").
Proof.
  destruct (resolve_inputs_for_step_sound TOOLS_sample (db reads_done)
              "3f2a9c1e" "remove_chimera" "input_fasta"
              (job0_dir +:+ "/reads_processing.fasta"))
    as (tool_spec & _ & _ & _ & H).
  - vm_compute. reflexivity.
  - exact H.
Defined.

(** ** The resolver: the rules of a step *)

(** X19. The rules the resolver applies for a step are exactly the rows of
    the flow table whose target is that step, in the order of the table
    (so that of two rows for the same parameter the one lower in the table
    is applied last); a step that is the target of no row has no rule. *)
Theorem rules_for_flow_rules (step_name : string) :
  rules_for step_name
  = map (fun r => (fst (fst (fst r)), snd (fst (fst r)), snd r))
      (filter (fun r => snd (fst r) = step_name) FLOW_RULES)
  /\ (forall src out q,
        (src, out, q) ∈ rules_for step_name
        <-> (src, out, step_name, q) ∈ FLOW_RULES).
Proof.
  assert (E : rules_for step_name
              = map (fun r => (fst (fst (fst r)), snd (fst (fst r)), snd r))
                  (filter (fun r => snd (fst r) = step_name) FLOW_RULES)).
  { unfold rules_for, RULES_BY_TARGET. rewrite group_rules_lookup.
    rewrite lookup_empty.
    now destruct (map _ (filter _ FLOW_RULES)). }
  split; [exact E |].
  intros src out q. rewrite E. split.
  - intros H. apply list_elem_of_fmap in H as ([[[s o] t] p] & Heq & H).
    cbn [fst snd] in Heq. injection Heq as -> -> ->.
    apply list_elem_of_filter in H as [Ht H]. cbn [fst snd] in Ht. now subst t.
  - intros H.
    apply (list_elem_of_fmap_2
             (fun r => (fst (fst (fst r)), snd (fst (fst r)), snd r))
             _ (src, out, step_name, q)).
    apply list_elem_of_filter. split; [reflexivity | exact H].
Qed.

Lemma rules_for_flow_rules_witness :
  ("taxonomic_affiliation", "biom", "input_biom")
    ∈ rules_for "affiliation_postprocess".
Proof.
  apply (proj2 (rules_for_flow_rules "affiliation_postprocess")).
  apply list_elem_of_In. unfold FLOW_RULES.
  repeat first [left; reflexivity | right].
Defined.

(** ** The tools of the server *)

Ltac cancel_case :=
  intros;
  repeat match goal with
         | H : _ \/ _ |- _ => destruct H
         | H : exists _, _ |- _ => destruct H
         | H : _ /\ _ |- _ => destruct H
         end;
  first [congruence | split; congruence].

(** X20. The cancellation tool never fails: it answers for every job
    identifier, with [cancelled] true exactly when the layer below
    reported that the signal was sent.  Its message is "SIGTERM sent."
    then; the message of the error when the job is unknown; the message
    naming the process id and the cause when the signal was not
    permitted; and "Process not found (may have already finished)." when
    the job has no process id, process id 0, or a process that is gone.
    It leaves the state that the cancellation below it leaves; when it
    answers false, the store is as before. *)
Theorem server_cancel_job_answers
    (kill : Z -> kill_outcome) (now : string) (st : State) (job_id : string) :
  exists reply,
    server.cancel_job kill now st job_id
    = (Reply reply, snd (cancel_job kill now st job_id))
    /\ CancelReply.job_id reply = job_id
    /\ (CancelReply.cancelled reply = true
        <-> fst (cancel_job kill now st job_id) = Ok true)
    /\ (CancelReply.cancelled reply = true ->
        CancelReply.message reply = "SIGTERM sent."
        /\ exists job pid,
             get_job (db st) job_id = Some job
             /\ Job.pid job = Some pid /\ pid <> 0%Z
             /\ kill pid = Delivered)
    /\ (CancelReply.cancelled reply = false ->
        db (snd (cancel_job kill now st job_id)) = db st)
    /\ (get_job (db st) job_id = None ->
        CancelReply.message reply = job_not_found_msg job_id)
    /\ (forall job pid exc,
          get_job (db st) job_id = Some job ->
          Job.pid job = Some pid -> pid <> 0%Z ->
          kill pid = NotPermitted exc ->
          CancelReply.cancelled reply = false
          /\ CancelReply.message reply
             = "Cannot signal PID " +:+ str_of_Z pid +:+ ": " +:+ exc)
    /\ (forall job,
          get_job (db st) job_id = Some job ->
          Job.pid job = None \/ Job.pid job = Some 0%Z
          \/ (exists pid, Job.pid job = Some pid /\ kill pid = NoSuchProcess) ->
          CancelReply.cancelled reply = false
          /\ CancelReply.message reply
             = "Process not found (may have already finished).").
Proof.
  unfold server.cancel_job, cancel_job.
  destruct (get_job (db st) job_id) as [job|] eqn:G.
  2:{ eexists. split; [reflexivity |].
      cbn [CancelReply.job_id CancelReply.cancelled CancelReply.message fst snd].
      repeat split; try discriminate. }
  destruct (Job.pid job) as [pid|] eqn:P.
  2:{ eexists. split; [reflexivity |].
      cbn [CancelReply.job_id CancelReply.cancelled CancelReply.message fst snd].
      repeat split; try discriminate; cancel_case. }
  destruct (pid =? 0)%Z eqn:Z0.
  { apply Z.eqb_eq in Z0. subst pid.
    eexists. split; [reflexivity |].
    cbn [CancelReply.job_id CancelReply.cancelled CancelReply.message fst snd].
    repeat split; try discriminate; cancel_case. }
  apply Z.eqb_neq in Z0.
  destruct (kill pid) as [| |exc] eqn:K.
  - eexists. split; [reflexivity |].
    cbn [CancelReply.job_id CancelReply.cancelled CancelReply.message fst snd].
    split; [reflexivity |]. split; [split; reflexivity |].
    split; [intros _; split; [reflexivity | exists job, pid; auto] |].
    split; [discriminate |]. split; [discriminate |].
    split; cancel_case.
  - eexists. split; [reflexivity |].
    cbn [CancelReply.job_id CancelReply.cancelled CancelReply.message fst snd].
    repeat split; try discriminate; cancel_case.
  - eexists. split; [reflexivity |].
    cbn [CancelReply.job_id CancelReply.cancelled CancelReply.message fst snd].
    repeat split; try discriminate; cancel_case.
Qed.

Lemma server_cancel_job_answers_witness :
  exists reply,
    server.cancel_job (fun _ => Delivered) "2024-05-01T09:00:05" st_untracked "j9"
    = (Reply reply, st_untracked)
    /\ CancelReply.cancelled reply = false
    /\ CancelReply.message reply = "Job 'j9' not found.".
Proof.
  destruct (server_cancel_job_answers (fun _ => Delivered)
              "2024-05-01T09:00:05" st_untracked "j9")
    as (reply & H1 & _ & H3 & _ & _ & H6 & _).
  exists reply. split; [exact H1 |]. split.
  - destruct (CancelReply.cancelled reply); [| reflexivity].
    pose proof (proj1 H3 eq_refl) as C. vm_compute in C. discriminate C.
  - rewrite H6; reflexivity.
Defined.

Lemma map_app_last_update (id : string) (f : Job.t -> Job.t)
    (js : list Job.t) (j : Job.t) :
  find (fun j => Job.job_id j =? id) js = None ->
  Job.job_id j = id ->
  map (update_row id f) (js ++ [j]) = (js ++ [f j])%list.
Proof.
  intros Hnone Hid. rewrite map_app, rows_unchanged by exact Hnone.
  cbn [map]. now rewrite update_row_eq by exact Hid.
Qed.

Lemma submit_job_cases
    (cfg : Config) (TOOLS : gmap string ToolSpec.t) (uuid now : string)
    (spawn : option Popen) (st : State) (tool_name : string)
    (params : gmap string pyval) (project_id step_name : option string)
    (res : result string) (st' : State) :
  submit_job cfg TOOLS uuid now spawn st tool_name params project_id step_name
  = (res, st') ->
  (exists e, res = Raise e /\ db st' = db st /\ active st' = active st)
  \/ (exists proc j,
         spawn = Some proc
         /\ res = Ok uuid
         /\ get_job (db st) uuid = None
         /\ (forall p, project_id = Some p -> project_exists (db st) p = true)
         /\ Job.job_id j = uuid
         /\ Job.project_id j = project_id
         /\ Job.tool_name j = tool_name
         /\ Job.step_name j = step_name
         /\ Job.params j = params
         /\ Job.status j = running
         /\ Job.pid j = Some (proc_pid proc)
         /\ Job.end_time j = None
         /\ Job.exit_code j = None
         /\ db st' = with_jobs (db st) (jobs (db st) ++ [j])%list
         /\ active st' = dict_set uuid (proc, project_id, step_name) (active st)).
Proof.
  unfold submit_job.
  destruct (validate TOOLS tool_name params) as [tool_spec|e0].
  2:{ intros [= <- <-]. left. eauto. }
  match goal with
  | |- context [build_command cfg tool_spec params ?d] => set (job_dir := d)
  end.
  destruct (build_command cfg tool_spec params job_dir) as [[cmd outs]|e1].
  2:{ intros [= <- <-]. left. eauto. }
  destruct (forallb is_str cmd); cbn [negb].
  2:{ intros [= <- <-]. left. eauto. }
  destruct spawn as [proc|].
  2:{ intros [= <- <-]. left. eauto. }
  unfold insert_job. cbn [db log_event].
  destruct (get_job (db st) uuid) as [j|] eqn:G.
  { intros [= <- <-]. left. eauto. }
  destruct (match project_id with
            | Some p => project_exists (db st) p
            | None => true
            end) eqn:P.
  2:{ intros [= <- <-]. left. eauto. }
  intros [= <- <-]. right. unfold register. cbn [db active trace].
  assert (Hp : forall p, project_id = Some p -> project_exists (db st) p = true)
    by (now intros p ->).
  match goal with
  | |- context [(jobs (db st) ++ [?x])%list] => set (j0 := x)
  end.
  destruct (bool_decide (outs = ∅)).
  - exists proc, j0. do 13 (split; [first [reflexivity | assumption] |]).
    split; reflexivity.
  - exists proc, (Job.set_output_files outs j0).
    do 13 (split; [first [reflexivity | assumption] |]).
    split; [| reflexivity].
    unfold update_job_output_files, with_jobs. cbn [jobs projects pipeline_steps].
    now rewrite map_app_last_update.
Qed.

(** X21. The step submission tool answers with an error, and does
    nothing, when the project or the step is unknown.  When it answers
    that a job was started, the job is on record for that project and
    step with the tool of the step's name, and its parameters are the
    given ones completed by the resolved inputs: a given parameter always
    wins over a resolved one.  The resolved inputs it reports are those
    of the resolver, or none when resolution was switched off. *)
Theorem server_submit_pipeline_step_params
    (cfg : Config) (TOOLS : gmap string ToolSpec.t) (uuid now : string)
    (spawn : option Popen) (st : State) (project_id step_name : string)
    (params : gmap string pyval) (auto_resolve_inputs : bool) :
  (get_project (db st) project_id = None \/ TOOLS !! step_name = None ->
   exists msg,
     server.submit_pipeline_step cfg TOOLS uuid now spawn st project_id
       step_name params auto_resolve_inputs
     = (Reply (StepReply.error msg), st))
  /\ (forall job_id n s resolved wd msg st',
        server.submit_pipeline_step cfg TOOLS uuid now spawn st project_id
          step_name params auto_resolve_inputs
        = (Reply (StepReply.started job_id n s resolved wd msg), st') ->
        job_id = uuid /\ n = step_name
        /\ resolved
           = (if auto_resolve_inputs
              then resolve_inputs_for_step TOOLS (db st) project_id step_name
              else ∅)
        /\ exists job,
             get_job (db st') uuid = Some job
             /\ Job.project_id job = Some project_id
             /\ Job.step_name job = Some step_name
             /\ Job.tool_name job = step_name
             /\ Job.working_dir job = wd
             /\ Job.status job = running
             /\ (forall k v, params !! k = Some v -> Job.params job !! k = Some v)
             /\ (forall k, params !! k = None ->
                           Job.params job !! k = PStr <$> resolved !! k))
  /\ (forall st',
        server.submit_pipeline_step cfg TOOLS uuid now spawn st project_id
          step_name params auto_resolve_inputs
        <> (Fails AttributeError, st')).
Proof.
  unfold server.submit_pipeline_step.
  destruct (get_project (db st) project_id) as [proj|] eqn:GP.
  2:{ split; [eauto |]. split; [discriminate | discriminate]. }
  destruct (TOOLS !! step_name) as [tool_spec|] eqn:T.
  2:{ split; [eauto |]. split; [discriminate | discriminate]. }
  set (resolved0 := if auto_resolve_inputs
                    then resolve_inputs_for_step TOOLS (db st) project_id step_name
                    else ∅).
  destruct (submit_job cfg TOOLS uuid now spawn st step_name
              (params ∪ (PStr <$> resolved0)) (Some project_id) (Some step_name))
    as [res st1] eqn:S.
  apply submit_job_cases in S
    as [(e & -> & _)|(proc & j & _ & -> & Hnew & _ & H1 & H2 & H3 & H4 & H5 & H6
                      & _ & _ & _ & Hdb & _)].
  { split; [intros [H|H]; discriminate |]. split; discriminate. }
  assert (Hget : get_job (db st1) uuid = Some j).
  { rewrite Hdb. unfold get_job in *. cbn [jobs with_jobs].
    now rewrite find_app_last, Hnew, H1, String.eqb_refl. }
  rewrite Hget. split; [intros [H|H]; discriminate |]. split; [| discriminate].
  intros job_id n s resolved wd msg st' [= <- <- _ <- <- _ <-].
  repeat split. exists j. repeat split; try assumption.
  - intros k v Hk. rewrite H5. now apply lookup_union_Some_l.
  - intros k Hk. rewrite H5. rewrite lookup_union_r by exact Hk.
    now rewrite lookup_fmap.
Qed.

Lemma server_submit_pipeline_step_params_witness :
  exists msg,
    server.submit_pipeline_step cfg_sample TOOLS_sample job1
      "2024-05-01T10:00:01.000250" (Some {| proc_pid := 4242 |}) st_project
      "3f2a9c1e" "blast" chimera_params true
    = (Reply (StepReply.error msg), st_project).
Proof.
  apply (proj1 (server_submit_pipeline_step_params cfg_sample TOOLS_sample job1
                  "2024-05-01T10:00:01.000250" (Some {| proc_pid := 4242 |})
                  st_project "3f2a9c1e" "blast" chimera_params true)).
  right. reflexivity.
Defined.

Lemma init_loop_fresh (p : string) (steps : list (string * Z * bool))
    (rows : list Step.t) :
  NoDup (map (fun s => fst (fst s)) steps) ->
  (forall s, s ∈ steps -> existsb (step_matches p (fst (fst s))) rows = false) ->
  foldl (insert_step_or_ignore p) rows steps
  = (rows ++ imap (fun i s => Step.mk (Z.of_nat (length rows + i) + 1) p
                                (fst (fst s)) (snd (fst s)) None pending (snd s))
               steps)%list.
Proof.
  revert rows. induction steps as [|[[n o] opt] steps IH]; intros rows Hnd Hnew.
  - cbn [foldl imap]. now rewrite app_nil_r.
  - cbn [map fst] in Hnd. apply NoDup_cons in Hnd as [Hn Hnd].
    cbn [foldl]. unfold insert_step_or_ignore at 2.
    pose proof (Hnew (n, o, opt) ltac:(apply list_elem_of_here)) as H0.
    cbn [fst] in H0. rewrite H0. rewrite IH; [| exact Hnd |].
    + rewrite <- app_assoc. f_equal. cbn [imap app fst snd]. f_equal.
      * now rewrite Nat.add_0_r.
      * apply imap_ext. intros i s _. cbn. rewrite length_app. cbn [length].
        do 2 f_equal. lia.
    + intros s Hs. rewrite existsb_app. cbn [existsb].
      rewrite (Hnew s) by (now apply list_elem_of_further).
      cbn [orb]. rewrite orb_false_r.
      destruct (step_matches p (fst (fst s)) _) eqn:M; [| reflexivity].
      apply step_matches_eq in M as [_ M]. cbn [Step.step_name] in M.
      exfalso. apply Hn. rewrite M.
      now apply (list_elem_of_fmap_2 (fun s => fst (fst s))).
Qed.

Lemma all_steps_ordered_names :
  NoDup (map (fun s : string * Z * bool => fst (fst s)) all_steps_ordered).
Proof. apply (bool_decide_unpack _). vm_compute. reflexivity. Qed.

Lemma get_project_project_exists (d : Db) (p : string) :
  project_exists d p = true <-> is_Some (get_project d p).
Proof. apply existsb_is_Some_find. Qed.

Lemma get_project_None (d : Db) (p : string) :
  get_project d p = None <-> project_exists d p = false.
Proof.
  pose proof (get_project_project_exists d p) as H.
  destruct (project_exists d p), (get_project d p) as [x|] eqn:E.
  - split; discriminate.
  - destruct (proj1 H eq_refl); discriminate.
  - assert (true = false) by (symmetry; apply H; eauto). discriminate.
  - tauto.
Qed.

(** X22. Creating a project takes the first eight characters of the
    fresh identifier as project identifier and creates the working
    directory (the given one, or the one named after the project under
    the workspace root).  When no project has that identifier, and no
    step record refers to it, the project is stored with the given name,
    description and directory, and the 28 steps of the pipeline are
    appended for it, in order, all pending and without job, numbered from
    1; jobs and registry are untouched and the answer reports the stored
    creation time.  When a project has that identifier the tool fails
    with an integrity error after having created the directory, and the
    store is as before. *)
Theorem server_create_project_effect
    (cfg : Config) (uuid now : string) (st : State)
    (name description : string) (working_dir : option string) :
  let project_id := substring 0 8 uuid in
  let wd :=
    if truthy_opt working_dir
    then match working_dir with Some w => w | None => "" end
    else os_path_join (WORKSPACE_ROOT cfg) project_id in
  (get_project (db st) project_id = None ->
   (forall r, r ∈ pipeline_steps (db st) -> Step.project_id r <> project_id) ->
   exists msg,
     server.create_project cfg uuid now st name description working_dir
     = (Reply (ProjectReply.mk project_id name description wd now 28 msg),
        {| db :=
             {| projects :=
                  (projects (db st)
                   ++ [Project.mk project_id name description wd now "{}"])%list;
                jobs := jobs (db st);
                pipeline_steps :=
                  (pipeline_steps (db st)
                   ++ imap (fun i s =>
                              Step.mk
                                (Z.of_nat (length (pipeline_steps (db st)) + i) + 1)
                                project_id (fst (fst s)) (snd (fst s)) None
                                pending (snd s))
                        all_steps_ordered)%list |};
           active := active st;
           trace := (trace st ++ [Makedirs wd])%list |}))
  /\ (is_Some (get_project (db st) project_id) ->
      server.create_project cfg uuid now st name description working_dir
      = (Fails (Raised IntegrityError),
         {| db := db st; active := active st;
            trace := (trace st ++ [Makedirs wd])%list |})).
Proof.
  intros project_id wd. unfold server.create_project.
  fold project_id. fold wd. unfold create_project. cbn [db log_event].
  split.
  - intros Hnone Hrows. apply get_project_None in Hnone. rewrite Hnone.
    unfold initialize_pipeline_steps.
    assert (Hex : project_exists
                    {| projects :=
                         (projects (db st)
                          ++ [Project.mk project_id name description wd now "{}"])%list;
                       jobs := jobs (db st);
                       pipeline_steps := pipeline_steps (db st) |} project_id
                  = true).
    { unfold project_exists. cbn [projects]. rewrite existsb_app.
      cbn [existsb Project.project_id]. rewrite String.eqb_refl.
      now rewrite orb_true_r. }
    rewrite Hex. cbn [orb].
    assert (Hget : get_project
                     {| projects :=
                          (projects (db st)
                           ++ [Project.mk project_id name description wd now "{}"])%list;
                        jobs := jobs (db st);
                        pipeline_steps := pipeline_steps (db st) |} project_id
                   = Some (Project.mk project_id name description wd now "{}")).
    { unfold get_project, project_exists in *. cbn [projects].
      rewrite find_app_last.
      destruct (find _ (projects (db st))) as [x|] eqn:F.
      - assert (Hs : is_Some (find (fun p => Project.project_id p =? project_id)
                                (projects (db st)))) by (rewrite F; eauto).
        apply existsb_is_Some_find in Hs. congruence.
      - cbn [Project.project_id]. now rewrite String.eqb_refl. }
    rewrite Hget. cbn [pipeline_steps with_steps projects jobs].
    rewrite init_loop_fresh.
    + eexists. reflexivity.
    + exact all_steps_ordered_names.
    + intros s _. apply existsb_step_matches. intros Hin.
      apply list_elem_of_fmap in Hin as (r & E & Hr).
      injection E as E _. exact (Hrows r Hr (eq_sym E)).
  - intros Hsome. apply get_project_project_exists in Hsome.
    now rewrite Hsome.
Qed.

Lemma server_create_project_effect_witness :
  exists msg,
    fst (server.create_project cfg_sample "3f2a9c1e-7b1d-4c55-9e0a-6d2f8b1c4a37"
           "2024-05-01T09:59:00.120000" st_empty "soil_16S" "" None)
    = Reply (ProjectReply.mk "3f2a9c1e" "soil_16S" ""
               "/srv/frogs-mcp/workspaces/3f2a9c1e"
               "2024-05-01T09:59:00.120000" 28 msg).
Proof.
  destruct (proj1 (server_create_project_effect cfg_sample
                     "3f2a9c1e-7b1d-4c55-9e0a-6d2f8b1c4a37"
                     "2024-05-01T09:59:00.120000" st_empty "soil_16S" "" None))
    as (msg & H).
  - reflexivity.
  - intros r Hr. inversion Hr.
  - exists msg. rewrite H. reflexivity.
Defined.

(** ** What every state of the server satisfies *)

Lemma map_update_row_same {B : Type} (g : Job.t -> B) (id : string)
    (f : Job.t -> Job.t) (js : list Job.t) :
  (forall j, g (f j) = g j) ->
  map g (map (update_row id f) js) = map g js.
Proof.
  intros Hf. rewrite map_map. apply map_ext. intros j.
  unfold update_row. now destruct (_ =? _).
Qed.

Lemma elem_of_update_row (id : string) (f : Job.t -> Job.t) (js : list Job.t)
    (j' : Job.t) :
  j' ∈ map (update_row id f) js ->
  exists j, j ∈ js /\ (j' = j \/ (Job.job_id j = id /\ j' = f j)).
Proof.
  intros H. apply list_elem_of_fmap in H as (j & -> & Hj).
  exists j. split; [exact Hj |]. unfold update_row.
  destruct (Job.job_id j =? id) eqn:E; [| now left].
  apply String.eqb_eq in E. now right.
Qed.

Lemma store_consistent_update_jobs (d : Db) (id : string) (f : Job.t -> Job.t) :
  (forall j, job_tie (f j) = job_tie j) ->
  (forall j, j ∈ jobs d -> Job.job_id j = id -> exit_code_agrees (f j)) ->
  store_consistent d ->
  store_consistent (with_jobs d (map (update_row id f) (jobs d))).
Proof.
  intros Htie Hexit [H1 H2 H3 H4 H5 H6 H7 H8].
  assert (Hties : map job_tie (map (update_row id f) (jobs d))
                  = map job_tie (jobs d))
    by (now apply map_update_row_same).
  constructor; cbn [jobs projects pipeline_steps with_jobs]; try assumption.
  - rewrite (map_update_row_same Job.job_id); [exact H1 |].
    intros j. specialize (Htie j). unfold job_tie in Htie. congruence.
  - intros j' p Hj' Hp. apply elem_of_update_row in Hj' as (j & Hj & [->|[_ ->]]).
    + now apply (H2 j).
    + apply (H2 j); [exact Hj |].
      specialize (Htie j). unfold job_tie in Htie. congruence.
  - intros j' Hj'. apply elem_of_update_row in Hj' as (j & Hj & [->|[Hid ->]]).
    + now apply H3.
    + now apply Hexit.
  - intros r i Hr Hi. rewrite Hties. now apply H7.
Qed.

Lemma store_consistent_update_job_status (d : Db) (now id : string)
    (s : Status) (rc : option Z) :
  (s = cancelled /\ rc = Some (-15)%Z
   \/ exists z, s = exit_status z /\ rc = Some z) ->
  store_consistent d ->
  store_consistent (update_job_status d now id s rc).
Proof.
  intros Hs. apply store_consistent_update_jobs; [reflexivity |].
  intros j _ _. unfold exit_code_agrees. cbn [Job.set_status Job.status Job.exit_code].
  destruct Hs as [[-> ->]|(z & -> & ->)]; [reflexivity |].
  unfold exit_status. destruct (z =? 0)%Z eqn:Z0.
  - apply Z.eqb_eq in Z0. now subst z.
  - apply Z.eqb_neq in Z0. eauto.
Qed.

Lemma store_consistent_update_job_output_files (d : Db) (id : string)
    (m : gmap string string) :
  store_consistent d -> store_consistent (update_job_output_files d id m).
Proof.
  intros Hd. apply store_consistent_update_jobs; [reflexivity | | exact Hd].
  intros j Hj _. exact (job_exit_codes d Hd j Hj).
Qed.

Lemma store_consistent_record_exit (isfile : string -> bool) (now : string)
    (d : Db) (id : string) (rc : Z) :
  store_consistent d -> store_consistent (record_exit isfile now d id rc).
Proof.
  intros Hd. unfold record_exit.
  assert (H1 : store_consistent
                 (update_job_status d now id (exit_status rc) (Some rc)))
    by (apply store_consistent_update_job_status; eauto).
  destruct (get_job _ id) as [job|]; [| exact H1].
  destruct (Job.output_files job) as [outs|]; [| exact H1].
  destruct (bool_decide (outs = ∅)); [exact H1 |].
  destruct (bool_decide (_ = outs)); [exact H1 |].
  now apply store_consistent_update_job_output_files.
Qed.

Lemma job_ties_record_exit (isfile : string -> bool) (now : string)
    (d : Db) (id : string) (rc : Z) :
  map job_tie (jobs (record_exit isfile now d id rc)) = map job_tie (jobs d).
Proof.
  unfold record_exit.
  assert (H1 : map job_tie
                 (jobs (update_job_status d now id (exit_status rc) (Some rc)))
               = map job_tie (jobs d))
    by (unfold update_job_status; cbn [jobs with_jobs];
        now apply map_update_row_same).
  destruct (get_job _ id) as [job|]; [| exact H1].
  destruct (Job.output_files job) as [outs|]; [| exact H1].
  destruct (bool_decide (outs = ∅)); [exact H1 |].
  destruct (bool_decide (_ = outs)); [exact H1 |].
  unfold update_job_output_files. cbn [jobs with_jobs].
  now rewrite map_update_row_same.
Qed.

Lemma job_ties_settle (isfile : string -> bool) (now : string) (d : Db)
    (c : string * Z * option string * option string) :
  map job_tie (jobs (settle isfile now d c)) = map job_tie (jobs d).
Proof.
  destruct c as [[[id rc] p] n]. rewrite jobs_settle.
  apply job_ties_record_exit.
Qed.

Lemma store_consistent_update_pipeline_step
    (d d1 : Db) (p n : string) (s : Status) (jid : option string) :
  update_pipeline_step d p n s jid = Ok d1 ->
  s = completed \/ s = failed ->
  (forall i, jid = Some i -> i <> "" ->
             exists pid, (i, Some p, Some n, pid) ∈ map job_tie (jobs d)) ->
  store_consistent d -> store_consistent d1.
Proof.
  intros U Hs Htie [H1 H2 H3 H4 H5 H6 H7 H8].
  apply update_pipeline_step_Ok in U. subst d1.
  constructor; cbn [jobs projects pipeline_steps with_steps]; try assumption.
  - rewrite map_map.
    erewrite map_ext; [exact H5 |]. intros r. cbn beta.
    now destruct (step_matches p n r).
  - intros r' Hr'. apply list_elem_of_fmap in Hr' as (r & -> & Hr).
    unfold project_exists in *. cbn [projects].
    destruct (step_matches p n r); cbn [Step.project_id]; now apply H6.
  - intros r' i Hr' Hi. apply list_elem_of_fmap in Hr' as (r & -> & Hr).
    destruct (step_matches p n r) eqn:M; [| now apply H7].
    cbn [Step.job_id Step.project_id Step.step_name] in *.
    destruct (truthy_opt jid) eqn:T; [| now apply H7].
    subst jid. apply step_matches_eq in M as [-> ->].
    apply Htie; [reflexivity |].
    apply truthy_opt_Some in T as (i' & [= <-] & Hne). exact Hne.
  - intros r' Hr'. apply list_elem_of_fmap in Hr' as (r & -> & Hr).
    destruct (step_matches p n r); [| now apply H8].
    cbn [Step.status]. tauto.
Qed.

Lemma exit_status_cases (rc : Z) :
  exit_status rc = completed \/ exit_status rc = failed.
Proof. unfold exit_status. destruct (rc =? 0)%Z; auto. Qed.

Lemma store_consistent_settle (isfile : string -> bool) (now : string) (d : Db)
    (c : string * Z * option string * option string) :
  (forall p n, snd (fst c) = Some p -> snd c = Some n ->
               exists pid,
                 (fst (fst (fst c)), Some p, Some n, pid) ∈ map job_tie (jobs d)) ->
  store_consistent d -> store_consistent (settle isfile now d c).
Proof.
  destruct c as [[[id rc] p] n]. cbn [fst snd]. intros Htie Hd.
  pose proof (store_consistent_record_exit isfile now d id rc Hd) as H2.
  unfold settle.
  destruct (truthy_opt p && truthy_opt n); [| exact H2].
  destruct p as [p|], n as [n|]; try exact H2.
  destruct (update_pipeline_step _ p n _ _) as [d3|e] eqn:E; [| exact H2].
  eapply store_consistent_update_pipeline_step;
    [exact E | apply exit_status_cases | | exact H2].
  intros i [= <-] _. rewrite job_ties_record_exit. now apply Htie.
Qed.

Lemma store_consistent_settle_loop (isfile : string -> bool) (now : string)
    (l : list (string * Z * option string * option string)) (d : Db) :
  Forall (fun c =>
            forall p n, snd (fst c) = Some p -> snd c = Some n ->
                        exists pid,
                          (fst (fst (fst c)), Some p, Some n, pid)
                            ∈ map job_tie (jobs d)) l ->
  store_consistent d ->
  store_consistent (foldl (settle isfile now) d l)
  /\ map job_tie (jobs (foldl (settle isfile now) d l)) = map job_tie (jobs d).
Proof.
  revert d. induction l as [|c l IH]; intros d Hl Hd; [now split |].
  apply Forall_cons in Hl as [Hc Hl]. cbn [foldl].
  destruct (IH (settle isfile now d c)) as [H1 H2].
  - eapply Forall_impl; [exact Hl |]. intros c' Hc' p n Hp Hn.
    rewrite job_ties_settle. now apply Hc'.
  - now apply store_consistent_settle.
  - split; [exact H1 |]. now rewrite H2, job_ties_settle.
Qed.

Lemma consistent_poll_tick (poll : Popen -> option Z) (isfile : string -> bool)
    (now : string) (st : State) :
  consistent st -> consistent (poll_tick poll isfile now st).
Proof.
  intros [Hk Hj Hs]. unfold poll_tick.
  destruct (store_consistent_settle_loop isfile now (exited poll (active st))
              (db st)) as [H1 H2]; [| exact Hs |].
  { apply Forall_forall. intros [[[id rc] p'] n'] Hc p n Hp Hn.
    cbn [fst snd] in *. subst p' n'.
    apply exited_inv in Hc as (proc & Hin & _). eauto. }
  constructor; cbn [db active].
  - rewrite del_loop_filter. now apply NoDup_keys_filter.
  - intros id proc p n Hin. rewrite del_loop_filter in Hin.
    apply list_elem_of_filter in Hin as [_ Hin]. rewrite H2. now apply Hj.
  - exact H1.
Qed.

Lemma consistent_same (st st' : State) :
  db st' = db st -> active st' = active st -> consistent st -> consistent st'.
Proof.
  intros Hd Ha [Hk Hj Hs]. constructor; rewrite ?Hd, ?Ha; assumption.
Qed.

Lemma elem_of_dict_set {V : Type} (k : string) (v : V) (d : list (string * V))
    (e : string * V) :
  e ∈ dict_set k v d -> e = (k, v) \/ e ∈ d.
Proof.
  induction d as [|[k' v'] d IH]; cbn [dict_set].
  - intros H. apply list_elem_of_singleton in H. now left.
  - destruct (k' =? k).
    + intros H. apply elem_of_cons in H as [H|H]; [now left |].
      right. now apply list_elem_of_further.
    + intros H. apply elem_of_cons in H as [H|H].
      * right. subst e. apply list_elem_of_here.
      * destruct (IH H) as [H'|H']; [now left |].
        right. now apply list_elem_of_further.
Qed.

Lemma get_job_None_ids (d : Db) (id : string) :
  get_job d id = None -> id ∉ map Job.job_id (jobs d).
Proof.
  unfold get_job. intros H Hin.
  apply list_elem_of_fmap in Hin as (j & -> & Hj).
  destruct (find_is_Some (fun j' => Job.job_id j' =? Job.job_id j) (jobs d) j Hj)
    as [y Hy]; [apply String.eqb_refl | congruence].
Qed.

Lemma consistent_submit_job
    (cfg : Config) (TOOLS : gmap string ToolSpec.t) (uuid now : string)
    (spawn : option Popen) (st : State) (tool_name : string)
    (params : gmap string pyval) (project_id step_name : option string) :
  consistent st ->
  consistent (snd (submit_job cfg TOOLS uuid now spawn st tool_name params
                     project_id step_name)).
Proof.
  intros Hst.
  destruct (submit_job cfg TOOLS uuid now spawn st tool_name params project_id
              step_name) as [res st'] eqn:S.
  cbn [snd].
  apply submit_job_cases in S
    as [(e & _ & Hd & Ha)
       |(proc & j & _ & _ & Hnew & Hproj & J1 & J2 & _ & J4 & _ & J6 & J7 & J8
         & J9 & Hd & Ha)].
  { now apply (consistent_same st). }
  destruct Hst as [Hk Hj [H1 H2 H3 H4 H5 H6 H7 H8]].
  assert (Htie : job_tie j = (uuid, project_id, step_name, Some (proc_pid proc)))
    by (unfold job_tie; congruence).
  constructor; [| | constructor]; rewrite ?Hd, ?Ha;
    cbn [jobs projects pipeline_steps with_jobs]; try assumption.
  - now apply dict_set_NoDup.
  - intros id proc' p n Hin. rewrite map_app. apply elem_of_app.
    apply elem_of_dict_set in Hin as [[= -> -> -> ->]|Hin].
    + right. cbn [map]. rewrite Htie. apply list_elem_of_here.
    + left. now apply Hj.
  - rewrite map_app. cbn [map]. rewrite J1. apply NoDup_app.
    split; [exact H1 |]. split; [| apply NoDup_singleton].
    intros x Hx Hu. apply list_elem_of_singleton in Hu. subst x.
    now apply (get_job_None_ids (db st) uuid).
  - intros j' p Hj' Hp. unfold project_exists. cbn [projects].
    apply elem_of_app in Hj' as [Hj'|Hj'].
    + now apply (H2 j').
    + apply list_elem_of_singleton in Hj'. subst j'. apply Hproj. congruence.
  - intros j' Hj'. apply elem_of_app in Hj' as [Hj'|Hj']; [now apply H3 |].
    apply list_elem_of_singleton in Hj'. subst j'.
    unfold exit_code_agrees. now rewrite J6, J8, J9.
  - intros r i Hr Hi. destruct (H7 r i Hr Hi) as [pid Hpid].
    exists pid. rewrite map_app. apply elem_of_app. now left.
Qed.

Lemma cancel_job_state (kill : Z -> kill_outcome) (now : string) (st : State)
    (job_id : string) :
  active (snd (cancel_job kill now st job_id)) = active st
  /\ (db (snd (cancel_job kill now st job_id)) = db st
      \/ db (snd (cancel_job kill now st job_id))
         = update_job_status (db st) now job_id cancelled (Some (-15)%Z)).
Proof.
  split; [apply cancel_job_keeps_registry |].
  unfold cancel_job.
  destruct (get_job (db st) job_id) as [job|]; [| now left].
  destruct (Job.pid job) as [pid|]; [| now left].
  destruct (pid =? 0)%Z; [now left |].
  destruct (kill pid); [now right | now left | now left].
Qed.

Lemma server_cancel_job_state (kill : Z -> kill_outcome) (now : string)
    (st : State) (job_id : string) :
  snd (server.cancel_job kill now st job_id)
  = snd (cancel_job kill now st job_id).
Proof.
  unfold server.cancel_job.
  destruct (cancel_job kill now st job_id) as [[sent|e] st'];
    [reflexivity | now destruct e].
Qed.

Lemma consistent_cancel_job (kill : Z -> kill_outcome) (now : string)
    (st : State) (job_id : string) :
  consistent st -> consistent (snd (server.cancel_job kill now st job_id)).
Proof.
  intros [Hk Hj Hs]. rewrite server_cancel_job_state.
  destruct (cancel_job_state kill now st job_id) as [Ha [Hd|Hd]].
  - apply (consistent_same st); [exact Hd | exact Ha |]. now constructor.
  - constructor; rewrite ?Ha, ?Hd.
    + exact Hk.
    + intros id proc p n Hin. unfold update_job_status. cbn [jobs with_jobs].
      rewrite map_update_row_same by reflexivity. now apply Hj.
    + apply store_consistent_update_job_status; [auto | exact Hs].
Qed.

Lemma consistent_submit_pipeline_step
    (cfg : Config) (TOOLS : gmap string ToolSpec.t) (uuid now : string)
    (spawn : option Popen) (st : State) (project_id step_name : string)
    (params : gmap string pyval) (auto_resolve_inputs : bool) :
  consistent st ->
  consistent (snd (server.submit_pipeline_step cfg TOOLS uuid now spawn st
                     project_id step_name params auto_resolve_inputs)).
Proof.
  intros Hst. unfold server.submit_pipeline_step.
  destruct (get_project (db st) project_id); [| exact Hst].
  destruct (TOOLS !! step_name); [| exact Hst].
  match goal with
  | |- context [submit_job cfg TOOLS uuid now spawn st step_name ?m ?p ?n] =>
      pose proof (consistent_submit_job cfg TOOLS uuid now spawn st step_name
                    m p n Hst) as H;
      destruct (submit_job cfg TOOLS uuid now spawn st step_name m p n)
        as [[job_id|e] st']
  end; [| exact H].
  cbn [snd] in H. now destruct (get_job (db st') job_id).
Qed.

Lemma project_exists_None_ids (d : Db) (p : string) :
  project_exists d p = false -> p ∉ map Project.project_id (projects d).
Proof.
  unfold project_exists. intros H Hin.
  apply list_elem_of_fmap in Hin as (x & -> & Hx).
  assert (E : existsb (fun q => Project.project_id q =? Project.project_id x)
                (projects d) = true).
  { apply existsb_exists. exists x. split; [now apply list_elem_of_In |].
    apply String.eqb_refl. }
  congruence.
Qed.

Lemma consistent_create_project
    (cfg : Config) (uuid now : string) (st : State)
    (name description : string) (working_dir : option string) :
  consistent st ->
  consistent (snd (server.create_project cfg uuid now st name description
                     working_dir)).
Proof.
  intros Hst. unfold server.create_project.
  set (project_id := substring 0 8 uuid).
  match goal with
  | |- context [log_event st (Makedirs ?w)] => set (wd := w)
  end.
  unfold create_project. cbn [db log_event].
  destruct (project_exists (db st) project_id) eqn:P.
  { cbn [snd]. now apply (consistent_same st). }
  set (d1 := {| projects :=
                  (projects (db st)
                   ++ [Project.mk project_id name description wd now "{}"])%list;
                jobs := jobs (db st);
                pipeline_steps := pipeline_steps (db st) |}).
  assert (Hex : forall q, project_exists (db st) q = true \/ q = project_id ->
                          project_exists d1 q = true).
  { intros q Hq. unfold project_exists, d1. cbn [projects].
    rewrite existsb_app. cbn [existsb Project.project_id].
    destruct Hq as [Hq| ->].
    - unfold project_exists in Hq. now rewrite Hq.
    - rewrite String.eqb_refl. now rewrite orb_true_r. }
  unfold initialize_pipeline_steps. rewrite (Hex project_id) by now right.
  cbn [orb].
  destruct (init_loop_rows project_id all_steps_ordered (pipeline_steps d1))
    as (new & Heq & Hnew & _ & Hnd).
  rewrite Heq.
  assert (Hgoal : consistent
                    {| db := with_steps d1 (pipeline_steps d1 ++ new);
                       active := active st;
                       trace := (trace st ++ [Makedirs wd])%list |}).
  { destruct Hst as [Hk Hj [H1 H2 H3 H4 H5 H6 H7 H8]].
    rewrite Forall_forall in Hnew.
    constructor; [| | constructor];
      cbn [db active jobs projects pipeline_steps with_steps d1];
      try assumption.
    - intros j p Hj' Hp. apply Hex. left. now apply (H2 j).
    - rewrite map_app. cbn [map Project.project_id]. apply NoDup_app.
      split; [exact H4 |]. split; [| apply NoDup_singleton].
      intros x Hx Hp. apply list_elem_of_singleton in Hp. subst x.
      now apply (project_exists_None_ids (db st) project_id).
    - apply (step_keys_app project_id); [exact H5 | | exact Hnd].
      apply Forall_forall. intros r Hr.
      destruct (Hnew r Hr) as (G1 & _ & _ & _ & G5). auto.
    - intros r Hr. apply Hex. apply elem_of_app in Hr as [Hr|Hr].
      + left. now apply H6.
      + right. now destruct (Hnew r Hr).
    - intros r i Hr Hi. apply elem_of_app in Hr as [Hr|Hr]; [now apply H7 |].
      destruct (Hnew r Hr) as (_ & _ & G3 & _). congruence.
    - intros r Hr. apply elem_of_app in Hr as [Hr|Hr]; [now apply H8 |].
      destruct (Hnew r Hr) as (_ & G2 & _). now left. }
  now destruct (get_project d1 project_id).
Qed.

Lemma consistent_restart (st : State) : consistent st -> consistent (restart st).
Proof.
  intros [Hk Hj Hs]. constructor; cbn [restart db active].
  - constructor.
  - intros id proc p n H. inversion H.
  - exact Hs.
Qed.

Lemma consistent_empty : consistent st_empty.
Proof.
  constructor; [constructor | intros id proc p n H; inversion H |].
  constructor; cbn; try constructor; intros; try match goal with
                                                  | H : _ ∈ [] |- _ => inversion H
                                                  end.
Qed.

Lemma reachable_consistent (cfg : Config) (TOOLS : gmap string ToolSpec.t)
    (st : State) :
  reachable cfg TOOLS st -> consistent st.
Proof.
  induction 1 as [|st st' _ IH Hstep]; [exact consistent_empty |].
  destruct Hstep.
  - now apply consistent_create_project.
  - now apply consistent_submit_job.
  - now apply consistent_submit_pipeline_step.
  - now apply consistent_cancel_job.
  - now apply consistent_poll_tick.
  - now apply consistent_restart.
Qed.

Lemma created_failed_reachable : reachable cfg_sample TOOLS_sample created_failed.
Proof.
  eapply reachable_next; [| apply step_poll_tick].
  eapply reachable_next; [| apply step_submit_pipeline_step].
  eapply reachable_next; [apply reachable_empty | apply step_create_project].
Qed.

Lemma created_submitted_reachable :
  reachable cfg_sample TOOLS_sample created_submitted.
Proof.
  eapply reachable_next; [| apply step_submit_pipeline_step].
  eapply reachable_next; [apply reachable_empty | apply step_create_project].
Qed.

Lemma get_job_elem (d : Db) (j : Job.t) :
  NoDup (map Job.job_id (jobs d)) -> j ∈ jobs d ->
  get_job d (Job.job_id j) = Some j.
Proof.
  unfold get_job. induction (jobs d) as [|x l IH]; intros Hnd Hj.
  - inversion Hj.
  - cbn [map] in Hnd. apply NoDup_cons in Hnd as [Hx Hnd]. cbn [find].
    apply elem_of_cons in Hj as [->|Hj].
    + now rewrite String.eqb_refl.
    + destruct (Job.job_id x =? Job.job_id j) eqn:E; [| now apply IH].
      apply String.eqb_eq in E. exfalso. apply Hx. rewrite E.
      now apply list_elem_of_fmap_2.
Qed.

Lemma get_job_tie (d : Db) (id : string) (p n : option string) (pid : option Z) :
  NoDup (map Job.job_id (jobs d)) ->
  (id, p, n, pid) ∈ map job_tie (jobs d) ->
  exists j, get_job d id = Some j /\ Job.project_id j = p
            /\ Job.step_name j = n /\ Job.pid j = pid.
Proof.
  intros Hnd Hin. apply list_elem_of_fmap in Hin as (j & E & Hj).
  unfold job_tie in E. injection E as -> -> -> ->.
  exists j. split; [now apply get_job_elem | auto].
Qed.

Lemma get_step_elem (d : Db) (r : Step.t) :
  NoDup (map (fun r => (Step.project_id r, Step.step_name r)) (pipeline_steps d)) ->
  r ∈ pipeline_steps d ->
  get_step d (Step.project_id r) (Step.step_name r) = Some r.
Proof.
  unfold get_step. induction (pipeline_steps d) as [|x l IH]; intros Hnd Hr.
  - inversion Hr.
  - cbn [map] in Hnd. apply NoDup_cons in Hnd as [Hx Hnd]. cbn [find].
    apply elem_of_cons in Hr as [->|Hr].
    + unfold step_matches. now rewrite !String.eqb_refl.
    + destruct (step_matches _ _ x) eqn:E; [| now apply IH].
      apply step_matches_eq in E as [E1 E2]. exfalso. apply Hx.
      rewrite E1, E2.
      now apply (list_elem_of_fmap_2
                   (fun r => (Step.project_id r, Step.step_name r))).
Qed.

(** X23. In every state the server reaches, the monitor's registry holds
    a job at most once, and every registered job is on record, with the
    project, the step and the process id it is registered with. *)
Theorem reachable_registry
    (cfg : Config) (TOOLS : gmap string ToolSpec.t) (st : State) :
  reachable cfg TOOLS st ->
  NoDup (map fst (active st))
  /\ (forall id proc p n,
        (id, (proc, p, n)) ∈ active st ->
        exists j,
          get_job (db st) id = Some j
          /\ Job.project_id j = p
          /\ Job.step_name j = n
          /\ Job.pid j = Some (proc_pid proc)).
Proof.
  intros H. apply reachable_consistent in H as [Hk Hj Hs].
  split; [exact Hk |]. intros id proc p n Hin.
  apply get_job_tie; [exact (job_ids _ Hs) | now apply Hj].
Qed.

Lemma reachable_registry_witness :
  exists j,
    get_job (db created_submitted) job1 = Some j
    /\ Job.project_id j = Some "3f2a9c1e"
    /\ Job.step_name j = Some "remove_chimera"
    /\ Job.pid j = Some 4242%Z.
Proof.
  destruct (reachable_registry cfg_sample TOOLS_sample created_submitted
              created_submitted_reachable) as [_ H].
  apply (H job1 {| proc_pid := 4242 |} (Some "3f2a9c1e") (Some "remove_chimera")).
  vm_compute. left.
Defined.

(** X24. In every state the server reaches, a step record is pending,
    completed or failed, never running or cancelled; its project is on
    record; it is the only record of its project and step name; and the
    job it names, if any, is on record as a job of that project and
    step. *)
Theorem reachable_steps
    (cfg : Config) (TOOLS : gmap string ToolSpec.t) (st : State) (r : Step.t) :
  reachable cfg TOOLS st ->
  r ∈ pipeline_steps (db st) ->
  (Step.status r = pending \/ Step.status r = completed
   \/ Step.status r = failed)
  /\ is_Some (get_project (db st) (Step.project_id r))
  /\ get_step (db st) (Step.project_id r) (Step.step_name r) = Some r
  /\ (forall i,
        Step.job_id r = Some i ->
        exists j,
          get_job (db st) i = Some j
          /\ Job.project_id j = Some (Step.project_id r)
          /\ Job.step_name j = Some (Step.step_name r)).
Proof.
  intros H Hr. apply reachable_consistent in H as [_ _ Hs].
  split; [exact (step_statuses _ Hs r Hr) |].
  split; [apply get_project_project_exists; exact (step_projects _ Hs r Hr) |].
  split; [apply get_step_elem; [exact (step_keys _ Hs) | exact Hr] |].
  intros i Hi. destruct (step_jobs _ Hs r i Hr Hi) as [pid Hpid].
  destruct (get_job_tie _ _ _ _ _ (job_ids _ Hs) Hpid) as (j & G & P & N & _).
  eauto.
Qed.

Lemma reachable_steps_witness :
  exists r,
    get_step (db created_failed) "3f2a9c1e" "remove_chimera" = Some r
    /\ Step.status r = failed
    /\ exists j,
         get_job (db created_failed) job1 = Some j
         /\ Job.project_id j = Some (Step.project_id r)
         /\ Job.step_name j = Some (Step.step_name r).
Proof.
  assert (G : find (step_matches "3f2a9c1e" "remove_chimera")
                (pipeline_steps (db created_failed))
              = Some (Step.mk 2 "3f2a9c1e" "remove_chimera" 2 (Some job1)
                        failed false))
    by (vm_compute; reflexivity).
  exists (Step.mk 2 "3f2a9c1e" "remove_chimera" 2 (Some job1) failed false).
  split; [unfold get_step; exact G |]. split; [reflexivity |].
  apply find_elem_of in G as [Hr _].
  apply (proj2 (proj2 (proj2
           (reachable_steps cfg_sample TOOLS_sample created_failed _
              created_failed_reachable Hr)))).
  reflexivity.
Defined.

(** X25. In every state the server reaches, a job record is the only one
    with its identifier, its project, if it has one, is on record, and
    its status and exit code agree: a running job has neither exit code
    nor end time, a completed job has exit code 0, a failed job an exit
    code other than 0, a cancelled job exit code -15, and no job is
    pending. *)
Theorem reachable_jobs
    (cfg : Config) (TOOLS : gmap string ToolSpec.t) (st : State) (j : Job.t) :
  reachable cfg TOOLS st ->
  j ∈ jobs (db st) ->
  get_job (db st) (Job.job_id j) = Some j
  /\ (forall p, Job.project_id j = Some p -> is_Some (get_project (db st) p))
  /\ match Job.status j with
     | pending => False
     | running => Job.exit_code j = None /\ Job.end_time j = None
     | completed => Job.exit_code j = Some 0%Z
     | failed => exists rc, Job.exit_code j = Some rc /\ rc <> 0%Z
     | cancelled => Job.exit_code j = Some (-15)%Z
     end.
Proof.
  intros H Hj. apply reachable_consistent in H as [_ _ Hs].
  split; [apply get_job_elem; [exact (job_ids _ Hs) | exact Hj] |].
  split; [| exact (job_exit_codes _ Hs j Hj)].
  intros p Hp. apply get_project_project_exists.
  exact (job_projects _ Hs j p Hj Hp).
Qed.

Lemma reachable_jobs_witness :
  exists j,
    get_job (db created_failed) job1 = Some j
    /\ Job.status j = failed
    /\ exists rc, Job.exit_code j = Some rc /\ rc <> 0%Z.
Proof.
  pose (j := match get_job (db created_failed) job1 with
             | Some j => j
             | None => later_run
             end).
  assert (G : find (fun j' => Job.job_id j' =? job1) (jobs (db created_failed))
              = Some j)
    by (vm_compute; reflexivity).
  assert (E : Job.status j = failed) by (vm_compute; reflexivity).
  clearbody j. exists j. split; [unfold get_job; exact G |]. split; [exact E |].
  apply find_elem_of in G as [Hj _].
  pose proof (proj2 (proj2 (reachable_jobs cfg_sample TOOLS_sample
                              created_failed j created_failed_reachable Hj)))
    as Hcode.
  rewrite E in Hcode. exact Hcode.
Defined.

(** ** The summary of a project's steps *)

Lemma get_pipeline_steps_elem (d : Db) (p : string) (row : StepRow.t) :
  row ∈ get_pipeline_steps d p ->
  StepRow.step row ∈ pipeline_steps d
  /\ Step.project_id (StepRow.step row) = p.
Proof.
  unfold get_pipeline_steps. intros H.
  apply list_elem_of_fmap in H as (r & -> & Hr).
  apply elem_of_sort_by, list_elem_of_filter in Hr as [Hp Hr].
  cbn [StepRow.step]. auto.
Qed.

Lemma get_pipeline_steps_row (d : Db) (r : Step.t) :
  r ∈ pipeline_steps d ->
  exists row, row ∈ get_pipeline_steps d (Step.project_id r)
              /\ StepRow.step row = r.
Proof.
  intros Hr. unfold get_pipeline_steps. eexists. split.
  - apply list_elem_of_fmap_2. apply elem_of_sort_by, list_elem_of_filter.
    split; [reflexivity | exact Hr].
  - reflexivity.
Qed.

Lemma count_status_cases (l : list StepRow.t) :
  (forall row, row ∈ l ->
               Step.status (StepRow.step row) = pending
               \/ Step.status (StepRow.step row) = completed
               \/ Step.status (StepRow.step row) = failed) ->
  count_status running l = 0
  /\ length l
     = count_status completed l + count_status failed l + count_status pending l.
Proof.
  unfold count_status. induction l as [|row l IH]; intros H; [now split |].
  destruct IH as [IH1 IH2];
    [intros x Hx; apply H; now apply list_elem_of_further |].
  rewrite !filter_cons. cbn [length].
  destruct (H row ltac:(apply list_elem_of_here)) as [E|[E|E]]; rewrite E;
    cbn [status_eqb];
    repeat match goal with
           | |- context [decide (?b = true)] => destruct (decide (b = true))
           end; try discriminate; try congruence; cbn [length]; split; lia.
Qed.

(** X26. In every state the server reaches, the summary of a project
    counts no running step: its total, which is the number of step
    records of the project, is the sum of its completed, failed and
    pending counts. *)
Theorem summary_counts
    (cfg : Config) (TOOLS : gmap string ToolSpec.t) (st : State)
    (project_id : string) :
  reachable cfg TOOLS st ->
  Summary.running_count (get_pipeline_status_summary (db st) project_id) = 0
  /\ Summary.total_count (get_pipeline_status_summary (db st) project_id)
     = Summary.completed_count (get_pipeline_status_summary (db st) project_id)
       + Summary.failed_count (get_pipeline_status_summary (db st) project_id)
       + Summary.pending_count (get_pipeline_status_summary (db st) project_id)
  /\ Summary.total_count (get_pipeline_status_summary (db st) project_id)
     = length (filter (fun r => Step.project_id r = project_id)
                 (pipeline_steps (db st))).
Proof.
  intros H. apply reachable_consistent in H as [_ _ Hs].
  unfold get_pipeline_status_summary.
  cbn [Summary.running_count Summary.total_count Summary.completed_count
         Summary.failed_count Summary.pending_count].
  destruct (count_status_cases (get_pipeline_steps (db st) project_id))
    as [H1 H2].
  { intros row Hrow. apply get_pipeline_steps_elem in Hrow as [Hr _].
    exact (step_statuses _ Hs _ Hr). }
  split; [exact H1 |]. split; [exact H2 |].
  unfold get_pipeline_steps. rewrite length_map.
  apply Permutation_length, sort_by_perm.
Qed.

Lemma summary_counts_witness :
  Summary.running_count (get_pipeline_status_summary (db created_submitted)
                           "3f2a9c1e") = 0.
Proof.
  apply (summary_counts cfg_sample TOOLS_sample created_submitted "3f2a9c1e").
  apply reachable_next with created.
  - apply reachable_next with st_empty;
      [apply reachable_empty | apply step_create_project].
  - apply step_submit_pipeline_step.
Defined.

Lemma find_unique {A : Type} (f : A -> bool) (l : list A) (x : A) :
  x ∈ l -> f x = true ->
  (forall y, y ∈ l -> f y = true -> y = x) ->
  find f l = Some x.
Proof.
  intros Hx Hf Huniq.
  destruct (find_is_Some f l x Hx Hf) as [y Hy].
  rewrite Hy. f_equal. apply find_elem_of in Hy as [Hy1 Hy2]. now apply Huniq.
Qed.

Lemma find_none {A : Type} (f : A -> bool) (l : list A) :
  (forall y, y ∈ l -> f y = false) -> find f l = None.
Proof.
  intros H. destruct (find f l) as [y|] eqn:E; [| reflexivity].
  apply find_elem_of in E as [Hy Hf]. rewrite (H y Hy) in Hf. discriminate.
Qed.

Lemma find_split {A : Type} (f : A -> bool) (l : list A) :
  match find f l with
  | Some x =>
      exists pre post,
        l = (pre ++ x :: post)%list /\ f x = true
        /\ forall y, y ∈ pre -> f y = false
  | None => forall y, y ∈ l -> f y = false
  end.
Proof.
  induction l as [|a l IH]; cbn [find].
  - intros y Hy. inversion Hy.
  - destruct (f a) eqn:E.
    + exists [], l. repeat split; [exact E |]. intros y Hy. inversion Hy.
    + destruct (find f l) as [x|].
      * destruct IH as (pre & post & -> & Hx & Hpre).
        exists (a :: pre), post. repeat split; [exact Hx |].
        intros y Hy. apply elem_of_cons in Hy as [->|Hy]; [exact E | now apply Hpre].
      * intros y Hy. apply elem_of_cons in Hy as [->|Hy]; [exact E | now apply IH].
Qed.

Lemma elem_of_rev {A : Type} (l : list A) (x : A) : x ∈ rev l <-> x ∈ l.
Proof. rewrite !list_elem_of_In. symmetry. apply in_rev. Qed.

Lemma status_eqb_pending (s : Status) :
  status_eqb s pending = true -> s = pending.
Proof. now destruct s. Qed.

Lemma awaits_get_step (d : Db) (p n : string) :
  NoDup (map (fun r => (Step.project_id r, Step.step_name r)) (pipeline_steps d)) ->
  awaits (get_pipeline_steps d p) n
  = match get_step d p n with
    | Some r => status_eqb (Step.status r) pending
    | None => true
    end.
Proof.
  intros Hnd. unfold awaits, step_by_name.
  destruct (get_step d p n) as [r|] eqn:G.
  - unfold get_step in G. apply find_elem_of in G as [Hr Hm].
    apply step_matches_eq in Hm as [Hp Hn].
    destruct (get_pipeline_steps_row d r Hr) as (row & Hrow & Hstep).
    rewrite Hp in Hrow.
    rewrite (find_unique _ _ row).
    + now rewrite Hstep.
    + apply elem_of_rev. exact Hrow.
    + rewrite Hstep, Hn. apply String.eqb_refl.
    + intros row' Hrow' Hname. apply (proj1 (elem_of_rev _ _)) in Hrow'.
      apply String.eqb_eq in Hname.
      assert (E : StepRow.step row' = r).
      { apply get_pipeline_steps_elem in Hrow' as [Hr' Hp'].
        pose proof (get_step_elem d _ Hnd Hr') as G1.
        pose proof (get_step_elem d _ Hnd Hr) as G2.
        rewrite Hp', Hname in G1. rewrite Hp, Hn in G2. congruence. }
      unfold get_pipeline_steps in Hrow, Hrow'.
      apply list_elem_of_fmap in Hrow as (r1 & -> & _).
      apply list_elem_of_fmap in Hrow' as (r2 & -> & _).
      cbn [StepRow.step] in E, Hstep. now rewrite E, Hstep.
  - rewrite find_none; [reflexivity |].
    intros row Hrow. apply (proj1 (elem_of_rev _ _)) in Hrow.
    apply get_pipeline_steps_elem in Hrow as [Hr Hp].
    apply String.eqb_neq. intros Hn.
    pose proof (get_step_elem d _ Hnd Hr) as G1.
    rewrite Hp, Hn in G1. congruence.
Qed.

(** X27. In every state the server reaches, the next step the summary
    recommends is the first step of the main pipeline whose record is
    pending or missing; every step before it in the main pipeline has a
    record that is completed or failed, so a failed step does not hold
    the recommendation back.  There is no recommendation exactly when
    every step of the main pipeline has a completed or failed record. *)
Theorem summary_next_step
    (cfg : Config) (TOOLS : gmap string ToolSpec.t) (st : State)
    (project_id : string) :
  reachable cfg TOOLS st ->
  match Summary.next_step (get_pipeline_status_summary (db st) project_id) with
  | Some n =>
      exists pre post,
        PIPELINE_ORDER = (pre ++ n :: post)%list
        /\ (get_step (db st) project_id n = None
            \/ exists r, get_step (db st) project_id n = Some r
                         /\ Step.status r = pending)
        /\ forall m, m ∈ pre ->
                     exists r, get_step (db st) project_id m = Some r
                               /\ (Step.status r = completed
                                   \/ Step.status r = failed)
  | None =>
      forall m, m ∈ PIPELINE_ORDER ->
                exists r, get_step (db st) project_id m = Some r
                          /\ (Step.status r = completed \/ Step.status r = failed)
  end.
Proof.
  intros H. apply reachable_consistent in H as [_ _ Hs].
  unfold get_pipeline_status_summary. cbn [Summary.next_step].
  assert (Hdone : forall m,
             awaits (get_pipeline_steps (db st) project_id) m = false ->
             exists r, get_step (db st) project_id m = Some r
                       /\ (Step.status r = completed \/ Step.status r = failed)).
  { intros m Hm. rewrite awaits_get_step in Hm by exact (step_keys _ Hs).
    destruct (get_step (db st) project_id m) as [r|] eqn:G; [| discriminate].
    exists r. split; [reflexivity |].
    unfold get_step in G. apply find_elem_of in G as [Hr _].
    destruct (step_statuses _ Hs r Hr) as [E|E]; [| exact E].
    rewrite E in Hm. discriminate. }
  pose proof (find_split (awaits (get_pipeline_steps (db st) project_id))
                PIPELINE_ORDER) as Hf.
  destruct (find _ PIPELINE_ORDER) as [n|].
  - destruct Hf as (pre & post & Heq & Hn & Hpre).
    exists pre, post. split; [exact Heq |]. split.
    + rewrite awaits_get_step in Hn by exact (step_keys _ Hs).
      destruct (get_step (db st) project_id n) as [r|]; [| now left].
      right. exists r. split; [reflexivity |].
      now apply status_eqb_pending.
    + intros m Hm. apply Hdone. now apply Hpre.
  - intros m Hm. apply Hdone. now apply Hf.
Qed.

Lemma summary_next_step_witness :
  Summary.next_step (get_pipeline_status_summary (db created_failed) "3f2a9c1e")
  = Some "reads_processing"
  /\ exists pre post,
       PIPELINE_ORDER = (pre ++ "reads_processing" :: post)%list
       /\ (get_step (db created_failed) "3f2a9c1e" "reads_processing" = None
           \/ exists r,
                get_step (db created_failed) "3f2a9c1e" "reads_processing"
                = Some r
                /\ Step.status r = pending)
       /\ forall m, m ∈ pre ->
                    exists r, get_step (db created_failed) "3f2a9c1e" m = Some r
                              /\ (Step.status r = completed
                                  \/ Step.status r = failed).
Proof.
  assert (E : Summary.next_step
                (get_pipeline_status_summary (db created_failed) "3f2a9c1e")
              = Some "reads_processing") by (vm_compute; reflexivity).
  split; [exact E |].
  pose proof (summary_next_step cfg_sample TOOLS_sample created_failed
                "3f2a9c1e" created_failed_reachable) as H.
  rewrite E in H. exact H.
Defined.
